(** * FAS bookkeeping reports: ingestion and the three aggregators

  A shallow embedding of [utils.py] (spreadsheet ingestion, ledger,
  category report, trial balance) and of the routes of [routes.py], over
  the tables declared in [models.py], with SQLite as the database (the
  default of [app.py]).

  Conventions of the embedding:
  - a text (a Python [str], a TEXT value of SQLite) is its UTF-8 encoding,
    a [string] of bytes. What Python's [upper], [strip] and [int] do to an
    ASCII text is computed here; what they do to a text with a character
    outside ASCII depends on the Unicode tables and is the [Library]'s;
  - SQLite's [upper()] changes the letters a to z only, and its equality and
    [ORDER BY] on a text column are byte-wise ([String.le]);
  - amounts ([Float] columns) are whole numbers. The code only adds,
    subtracts, negates and compares them; binary floating point does so
    exactly on whole numbers while the magnitudes stay within 2^53, and the
    properties that lean on a law of exact arithmetic assume that bound
    ([exact_sums]). Fractions, rounding, infinities and NaN sums are not
    modelled;
  - an integer bound to a query must fit SQLite's 64-bit INTEGER; the period
    argument is checked for it, and the company ids given to the functions
    are keys, read from the database or the session, that fit;
  - a Python exception is the [Raise] result carrying its message. *)

From Stdlib Require Import ZArith Lia Ascii String.
From stdpp Require Import base decidable option list strings pretty gmap sorting.

Local Open Scope string_scope.
Local Open Scope list_scope.

(** ** Results of fallible code *)

Inductive res (A : Type) : Type :=
| Ok (a : A)
| Raise (msg : string).
Arguments Ok {A} a.
Arguments Raise {A} msg.

#[global] Instance res_bind : MBind res := fun A B k r =>
  match r with
  | Ok a => k a
  | Raise msg => Raise msg
  end.

#[global] Instance res_fmap : FMap res := fun A B f r =>
  match r with
  | Ok a => Ok (f a)
  | Raise msg => Raise msg
  end.

Definition is_ok {A : Type} (r : res A) : bool :=
  match r with Ok _ => true | Raise _ => false end.

(** ** Calendar dates *)

Module Datetime.

Record date : Type := mkdate { year : Z; month : Z; day : Z }.

#[global] Instance date_eq_dec : EqDecision date.
Proof. solve_decision. Defined.

(** CPython's [_is_leap], [_days_before_year], [_days_before_month] and
    [date.toordinal]. *)
Definition is_leap (y : Z) : bool :=
  ((y mod 4 =? 0) && (negb (y mod 100 =? 0) || (y mod 400 =? 0)))%Z.

Definition days_before_year (y : Z) : Z :=
  let p := (y - 1)%Z in (p * 365 + p / 4 - p / 100 + p / 400)%Z.

Definition days_before_month (y m : Z) : Z :=
  (nth (Z.to_nat m) [-1; 0; 31; 59; 90; 120; 151; 181; 212; 243; 273; 304; 334] 0
   + (if (2 <? m) && is_leap y then 1 else 0))%Z.

Definition toordinal (d : date) : Z :=
  (days_before_year (year d) + days_before_month (year d) (month d) + day d)%Z.

(** [(a - b).days] *)
Definition days_between (a b : date) : Z := (toordinal a - toordinal b)%Z.

(** The order of a [Date] column: by year, then month, then day. *)
Definition compare (a b : date) : comparison :=
  match (year a ?= year b)%Z with
  | Eq => match (month a ?= month b)%Z with
          | Eq => (day a ?= day b)%Z
          | c => c
          end
  | c => c
  end.

End Datetime.

Abbreviation date := Datetime.date.

(** ** Spreadsheet cells and frames, as [pandas.read_excel] presents them *)

Inductive cell : Type :=
| NaN                    (* an empty cell *)
| Num (x : Z)            (* a numeric cell *)
| Text (s : string)      (* a text cell *)
| Stamp (d : date).      (* a date cell *)

#[global] Instance cell_eq_dec : EqDecision cell.
Proof. solve_decision. Defined.

(** A frame has a header and positional rows; a row shorter than the header
    reads [NaN] in the missing positions. *)
Record DataFrame : Type := mkframe {
  columns : list string;
  rows : list (list cell)
}.

(** The uploaded bytes, seen through [pd.read_excel]: either they do not
    decode, or they hold the first worksheet. *)
Inductive workbook : Type :=
| Corrupt
| Sheet (df : DataFrame).

(** ** The library

    The functions of pandas, werkzeug and Python that the code calls on
    single values and that are not computed here:
    [pd.to_datetime(errors='coerce')] followed by [.date()], [None] being
    NaT; [float] on a text, [None] being its [ValueError]; [str] on a value
    that is not a text; [os.path.splitext(secure_filename(name))[0]];
    [repr] of a text, which error messages quote; and, on a text that has a
    character outside ASCII, [str.upper], [str.strip] and [int], [None]
    being the [ValueError] of [int]. *)
Class Library : Type := mklibrary {
  to_datetime : cell -> option date;
  float_of_text : string -> option Z;
  str_of_value : cell -> string;
  filename_stem : string -> string;
  repr_of_text : string -> string;
  unicode_upper : string -> string;
  unicode_strip : string -> string;
  unicode_int : string -> option Z
}.

(** ** Python string operations *)

Module Str.

Definition is_ascii_char (a : ascii) : bool := (N_of_ascii a <? 128)%N.

(** [s.isascii()] *)
Fixpoint is_ascii (s : string) : bool :=
  match s with
  | EmptyString => true
  | String a r => is_ascii_char a && is_ascii r
  end.

(** [str.isspace] on an ASCII character: TAB, LF, VT, FF, CR, the four
    separators FS GS RS US, and the space. *)
Definition isspace (a : ascii) : bool :=
  let n := N_of_ascii a in
  ((9 <=? n) && (n <=? 13) || (28 <=? n) && (n <=? 32))%N.

(** Removal of the leading, and of the trailing, characters of a class. *)
Fixpoint lstrip_by (space : ascii -> bool) (s : string) : string :=
  match s with
  | EmptyString => EmptyString
  | String a r => if space a then lstrip_by space r else s
  end.

Fixpoint rstrip_by (space : ascii -> bool) (s : string) : string :=
  match s with
  | EmptyString => EmptyString
  | String a r =>
      match rstrip_by space r with
      | EmptyString => if space a then EmptyString else String a EmptyString
      | r' => String a r'
      end
  end.

Definition strip_by (space : ascii -> bool) (s : string) : string :=
  rstrip_by space (lstrip_by space s).

Definition upper_char (a : ascii) : ascii :=
  let n := N_of_ascii a in
  if ((97 <=? n) && (n <=? 122))%N then ascii_of_N (n - 32) else a.

(** Upper-casing of the letters a to z, every other byte kept. *)
Fixpoint ascii_upper (s : string) : string :=
  match s with
  | EmptyString => EmptyString
  | String a r => String (upper_char a) (ascii_upper r)
  end.

(** [sep.join(parts)] *)
Fixpoint join (sep : string) (parts : list string) : string :=
  match parts with
  | [] => ""
  | [p] => p
  | p :: ps => p +:+ sep +:+ join sep ps
  end.

(** [s.split(sep)] for a one-character separator: never the empty list. *)
Fixpoint split (sep : ascii) (s : string) : list string :=
  match s with
  | EmptyString => [EmptyString]
  | String a r =>
      if Ascii.eqb a sep then EmptyString :: split sep r
      else match split sep r with
           | [] => [String a EmptyString]
           | f :: fs => String a f :: fs
           end
  end.

Fixpoint endswith (s suffix : string) : bool :=
  String.eqb s suffix ||
  match s with
  | EmptyString => false
  | String _ r => endswith r suffix
  end.

Section Python.

Context `{Library}.

(** [s.strip()] *)
Definition strip (s : string) : string :=
  if is_ascii s then strip_by isspace s else unicode_strip s.

(** [s.upper()] *)
Definition upper (s : string) : string :=
  if is_ascii s then ascii_upper s else unicode_upper s.

End Python.

End Str.

(** ** SQLite's functions and values *)

Module Sql.

(** The built-in [upper()]: it converts the ASCII letters only. *)
Definition upper (s : string) : string := Str.ascii_upper s.

(** The values of an INTEGER: binding any other Python [int] to a query
    raises [OverflowError]. *)
Definition integer (n : Z) : Prop := (- 2 ^ 63 <= n < 2 ^ 63)%Z.

#[global] Instance integer_dec n : Decision (integer n).
Proof. unfold integer. apply _. Defined.

End Sql.

(** ** Python [int] on a string *)

Module Int.

(** C's [isspace], which [int] skips around an ASCII numeral: TAB, LF, VT,
    FF, CR and the space. *)
Definition isspace (a : ascii) : bool :=
  let n := N_of_ascii a in
  ((9 <=? n) && (n <=? 13) || (n =? 32))%N.

Definition digit (a : ascii) : option Z :=
  let n := N_of_ascii a in
  if ((48 <=? n) && (n <=? 57))%N then Some (Z.of_N (n - 48)) else None.

(** Decimal digits in which single underscores may separate digits;
    [after_digit] tells whether the previous character was a digit. *)
Fixpoint digits (acc : Z) (after_digit : bool) (s : string) : option Z :=
  match s with
  | EmptyString => if after_digit then Some acc else None
  | String a r =>
      match digit a with
      | Some d => digits (10 * acc + d)%Z true r
      | None =>
          if Ascii.eqb a "_" && after_digit then digits acc false r else None
      end
  end.

Fixpoint count_digits (s : string) : nat :=
  match s with
  | EmptyString => 0
  | String a r =>
      match digit a with
      | Some _ => S (count_digits r)
      | None => count_digits r
      end
  end.

(** [sys.int_info.default_max_str_digits]: a numeral of more digits is
    refused with a [ValueError]. *)
Definition max_str_digits : nat := 4300.

Definition numeral (s : string) : option Z :=
  if (max_str_digits <? count_digits s)%nat then None else digits 0 false s.

(** [int(s)] on an ASCII text: surrounding whitespace is skipped, one sign
    is allowed, and [None] stands for the [ValueError]. *)
Definition ascii_parse (s : string) : option Z :=
  match Str.strip_by isspace s with
  | String "+" r => numeral r
  | String "-" r => Z.opp <$> numeral r
  | r => numeral r
  end.

(** [int(s)] *)
Definition parse `{Library} (s : string) : option Z :=
  if Str.is_ascii s then ascii_parse s else unicode_int s.

End Int.

(** ** The tables of [models.py]

    [created_at], [uploaded_at] and [file_password_hash] are never read by
    the modelled code and are left out. *)

Module Company.
Record t : Type := mk { id : Z; name : string; updated_at : Z }.
End Company.

Module CompanyFile.
Record t : Type := mk {
  id : Z;
  filename : string;
  file_data : workbook;
  content_type : string;
  company_id : Z
}.
End CompanyFile.

Module Transaction.
Record t : Type := mk {
  id : Z;
  date : Datetime.date;
  head_of_account : string;
  category : option string;
  description : option string;
  reference : option string;
  debit : Z;
  credit : Z;
  company_id : Z
}.
End Transaction.

Record Database : Type := mkdb {
  companies : list Company.t;
  company_files : list CompanyFile.t;
  transactions : list Transaction.t
}.

Definition Zsum (l : list Z) : Z := foldr Z.add 0%Z l.

(** [func.sum(Transaction.debit)] and [func.sum(Transaction.credit)] over
    the selected rows; the source reads SQL's NULL for no rows as 0. *)
Definition sum_debit (l : list Transaction.t) : Z := Zsum (Transaction.debit <$> l).
Definition sum_credit (l : list Transaction.t) : Z := Zsum (Transaction.credit <$> l).

(** [SELECT DISTINCT head_of_account ... ORDER BY head_of_account] *)
Definition distinct_heads (l : list Transaction.t) : list string :=
  merge_sort String.le (remove_dups (Transaction.head_of_account <$> l)).

(** ** Ledger: [get_ledger_data] *)

(** [ORDER BY Transaction.date, Transaction.id] *)
Definition ledger_order (a b : Transaction.t) : Prop :=
  match Datetime.compare (Transaction.date a) (Transaction.date b) with
  | Lt => True
  | Eq => (Transaction.id a <= Transaction.id b)%Z
  | Gt => False
  end.

#[global] Instance ledger_order_dec : RelDecision ledger_order.
Proof.
  intros a b. unfold ledger_order.
  destruct (Datetime.compare _ _); apply _.
Defined.

(** The row's ['date'] is [t.formatted_date], the DD/MM/YYYY rendering of
    the date kept here. *)
Record ledger_row : Type := mkledger {
  l_date : date;
  l_description : option string;
  l_reference : option string;
  l_debit : Z;
  l_credit : Z;
  l_balance : Z;
  l_days : Z
}.

(** [func.upper(Transaction.head_of_account) == normalized_head]: the
    upper-casing of the stored head is the database's. *)
Definition ledger_match (company_id : Z) (normalized_head : string)
    (t : Transaction.t) : Prop :=
  Transaction.company_id t = company_id /\
  Sql.upper (Transaction.head_of_account t) = normalized_head.

#[global] Instance ledger_match_dec c h t : Decision (ledger_match c h t).
Proof. unfold ledger_match. apply _. Defined.

Definition ledger_query (db : Database) (company_id : Z)
    (normalized_head : string) : list Transaction.t :=
  merge_sort ledger_order
    (filter (ledger_match company_id normalized_head) (transactions db)).

(** The loop over the selected transactions, [balance] being the running
    balance before the first of them. *)
Fixpoint ledger_loop (today : date) (balance : Z) (txs : list Transaction.t)
    : list ledger_row :=
  match txs with
  | [] => []
  | t :: rest =>
      let balance := (balance + (Transaction.debit t - Transaction.credit t))%Z in
      let days_diff := Datetime.days_between today (Transaction.date t) in
      mkledger (Transaction.date t) (Transaction.description t)
               (Transaction.reference t) (Transaction.debit t)
               (Transaction.credit t) balance days_diff
        :: ledger_loop today balance rest
  end.

(** [today] is [datetime.now().date()], read once per call; the
    normalisation of the query is Python's. *)
Definition get_ledger_data `{Library} (db : Database) (today : date)
    (company_id : Z) (head_of_account : string) : list ledger_row :=
  let normalized_head := Str.upper (Str.strip head_of_account) in
  ledger_loop today 0%Z (ledger_query db company_id normalized_head).

(** ** Category report: [get_special_report_data] *)

Record report_row : Type := mkreport {
  r_head_of_account : string;
  r_debit : Z;
  r_credit : Z;
  r_balance : Z
}.

Definition in_category (company_id : Z) (category : string)
    (t : Transaction.t) : Prop :=
  Transaction.company_id t = company_id /\
  Transaction.category t = Some category /\
  Transaction.head_of_account t <> "".

#[global] Instance in_category_dec c k t : Decision (in_category c k t).
Proof. unfold in_category. apply _. Defined.

Definition of_account (company_id : Z) (head_of_account : string)
    (t : Transaction.t) : Prop :=
  Transaction.company_id t = company_id /\
  Transaction.head_of_account t = head_of_account.

#[global] Instance of_account_dec c h t : Decision (of_account c h t).
Proof. unfold of_account. apply _. Defined.

(** The body of the loop over [heads]: [None] when the row is skipped. *)
Definition special_report_row (db : Database) (company_id : Z)
    (head_of_account : string) : option report_row :=
  let result := filter (of_account company_id head_of_account) (transactions db) in
  let total_debit := sum_debit result in
  let total_credit := sum_credit result in
  let balance := (total_debit - total_credit)%Z in
  if decide (balance <> 0%Z)
  then Some (mkreport head_of_account total_debit total_credit balance)
  else None.

Definition get_special_report_data (db : Database) (company_id : Z)
    (category : string) : list report_row :=
  let heads :=
    distinct_heads (filter (in_category company_id category) (transactions db)) in
  omap (special_report_row db company_id) heads.

(** ** Trial balance: [get_trial_balance_data] *)

Record tb_row : Type := mktb {
  tb_head_of_account : string;
  tb_debit : Z;
  tb_credit : Z;
  is_total : bool;
  is_difference : bool
}.

(** [month, year = period.split('/')] followed by [int(month)] and
    [int(year)], in that order. *)
Definition parse_period `{Library} (period : string) : res (Z * Z) :=
  match Str.split "/" period with
  | [month; year] =>
      match Int.parse month with
      | None => Raise "ValueError: invalid literal for int() with base 10"
      | Some m =>
          match Int.parse year with
          | None => Raise "ValueError: invalid literal for int() with base 10"
          | Some y => Ok (m, y)
          end
      end
  | [_] => Raise "ValueError: not enough values to unpack (expected 2, got 1)"
  | _ => Raise "ValueError: too many values to unpack (expected 2)"
  end.

(** The period filter of the query: [None] is the period ['all']. *)
Definition in_period (p : option (Z * Z)) (t : Transaction.t) : Prop :=
  match p with
  | None => True
  | Some (m, y) =>
      Datetime.month (Transaction.date t) = m /\
      Datetime.year (Transaction.date t) = y
  end.

#[global] Instance in_period_dec p t : Decision (in_period p t).
Proof. destruct p as [[m y]|]; simpl; apply _. Defined.

Definition tb_match (company_id : Z) (p : option (Z * Z))
    (t : Transaction.t) : Prop :=
  Transaction.company_id t = company_id /\
  Transaction.head_of_account t <> "" /\
  in_period p t.

#[global] Instance tb_match_dec c p t : Decision (tb_match c p t).
Proof. unfold tb_match. apply _. Defined.

Definition with_head (h : string) (t : Transaction.t) : Prop :=
  Transaction.head_of_account t = h.

#[global] Instance with_head_dec h t : Decision (with_head h t).
Proof. unfold with_head. apply _. Defined.

(** [GROUP BY head_of_account ORDER BY head_of_account] with the two sums. *)
Definition tb_results (db : Database) (company_id : Z) (p : option (Z * Z))
    : list (string * Z * Z) :=
  let selected := filter (tb_match company_id p) (transactions db) in
  (fun h => (h, sum_debit (filter (with_head h) selected),
                sum_credit (filter (with_head h) selected)))
    <$> distinct_heads selected.

(** State of the loop: the rows so far, [total_debit], [total_credit]. *)
Definition tb_step (st : list tb_row * Z * Z) (result : string * Z * Z)
    : list tb_row * Z * Z :=
  let '(trial_balance_data, total_debit, total_credit) := st in
  let '(head_of_account, account_debit, account_credit) := result in
  let balance := (account_debit - account_credit)%Z in
  if decide (balance <> 0%Z) then
    let '(debit_balance, credit_balance) :=
      if decide (0 < balance)%Z then (balance, 0%Z) else (0%Z, (- balance)%Z) in
    (trial_balance_data ++ [mktb head_of_account debit_balance credit_balance false false],
     (total_debit + debit_balance)%Z, (total_credit + credit_balance)%Z)
  else st.

Definition tb_finish (st : list tb_row * Z * Z) : list tb_row :=
  let '(trial_balance_data, total_debit, total_credit) := st in
  let trial_balance_data :=
    trial_balance_data ++ [mktb "TOTAL" total_debit total_credit true false] in
  let difference := (total_debit - total_credit)%Z in
  if decide (difference <> 0%Z) then
    trial_balance_data ++
      [mktb "DIFFERENCE"
            (if decide (0 < difference)%Z then difference else 0%Z)
            (if decide (difference < 0)%Z then (- difference)%Z else 0%Z)
            false true]
  else trial_balance_data.

(** [if period != 'all': ...]: the filter the period argument adds. *)
Definition resolve_period `{Library} (period : string) : res (option (Z * Z)) :=
  if decide (period <> "all")
  then (fun my => Some my) <$> parse_period period
  else Ok None.

(** The month and the year are bound to the query when [.all()] runs it. *)
Definition bind_period (p : option (Z * Z)) : res unit :=
  match p with
  | None => Ok tt
  | Some (m, y) =>
      if decide (Sql.integer m /\ Sql.integer y) then Ok tt
      else Raise "OverflowError: Python int too large to convert to SQLite INTEGER"
  end.

Definition get_trial_balance_data `{Library} (db : Database) (company_id : Z)
    (period : string) : res (list tb_row) :=
  p ← resolve_period period;
  _ ← bind_period p;
  Ok (tb_finish (foldl tb_step ([], 0%Z, 0%Z) (tb_results db company_id p))).

(** ** The database session *)

(** SQLite's rowid rule for an [Integer] primary key: one more than the
    largest key of the table, 1 for an empty table. *)
Definition next_id (ids : list Z) : Z := (1 + foldr Z.max 0 ids)%Z.

(** A transaction object carries the key 0 until it is flushed. *)
Definition set_id (i : Z) (t : Transaction.t) : Transaction.t :=
  Transaction.mk i (Transaction.date t) (Transaction.head_of_account t)
    (Transaction.category t) (Transaction.description t)
    (Transaction.reference t) (Transaction.debit t) (Transaction.credit t)
    (Transaction.company_id t).

Fixpoint assign_ids (start : Z) (new : list Transaction.t) : list Transaction.t :=
  match new with
  | [] => []
  | t :: rest => set_id start t :: assign_ids (start + 1)%Z rest
  end.

(** [committed] is what the database holds, [working] what the open
    transaction sees, [pending] the objects added and not yet flushed. *)
Record Session : Type := mksession {
  committed : Database;
  working : Database;
  pending : list Transaction.t
}.

Definition begin (db : Database) : Session := mksession db db [].

Definition add (t : Transaction.t) (s : Session) : Session :=
  mksession (committed s) (working s) (pending s ++ [t]).

Definition flush (s : Session) : Session :=
  let w := working s in
  let start := next_id (Transaction.id <$> transactions w) in
  mksession (committed s)
    (mkdb (companies w) (company_files w)
          (transactions w ++ assign_ids start (pending s)))
    [].

Definition commit (s : Session) : Session :=
  let s := flush s in mksession (working s) (working s) [].

Definition rollback (s : Session) : Session :=
  mksession (committed s) (committed s) [].

(** The storage step of the upload that fails, if one does. *)
Inductive storage_step : Type := FlushDelete | FlushAdd | FinalCommit.

#[global] Instance storage_step_eq_dec : EqDecision storage_step.
Proof. solve_decision. Defined.

Definition storage (failing : option storage_step) (step : storage_step)
    : res unit :=
  if decide (failing = Some step) then Raise "OperationalError" else Ok tt.

(** ** Ingestion: [process_excel_data] and the upload route *)

Definition required_columns : list string :=
  ["Date"; "Head of Accounts"; "Debit"; "Credit"].

Definition column_mapping : list (string * string) :=
  [("Date", "date"); ("Head of Accounts", "head_of_account");
   ("Category", "category"); ("Description", "description");
   ("Ref", "reference"); ("Debit", "debit"); ("Credit", "credit")].

Fixpoint assoc (k : string) (l : list (string * string)) : option string :=
  match l with
  | [] => None
  | (k', v) :: rest => if decide (k = k') then Some v else assoc k rest
  end.

(** [df.rename(columns=column_mapping)] *)
Definition rename (df : DataFrame) : DataFrame :=
  mkframe ((fun c => default c (assoc c column_mapping)) <$> columns df) (rows df).

(** The cell of [row] under the column [name], when the frame has it. *)
Definition get (df : DataFrame) (name : string) (row : list cell) : option cell :=
  '(i, _) ← list_find (eq name) (columns df); Some (nth i row NaN).

(** [Series.fillna(value)] on one cell. *)
Definition fillna (value : cell) (c : cell) : cell :=
  match c with NaN => value | _ => c end.

(** [df[name] = df.get(name, pd.Series()).fillna(value)] on one row: the
    empty default series aligns to an all-NaN column. *)
Definition filled (df : DataFrame) (name : string) (value : cell)
    (row : list cell) : cell :=
  match get df name row with
  | Some c => fillna value c
  | None => NaN
  end.

(** One row of the frame after the fills and the date conversion. *)
Record prepared : Type := mkprepared {
  p_date : option date;
  p_head_of_account : cell;
  p_category : cell;
  p_description : cell;
  p_reference : cell;
  p_debit : cell;
  p_credit : cell
}.

(** [not pd.isna(row['head_of_account']) and row['head_of_account'] != ''] *)
Definition has_head (r : prepared) : Prop :=
  p_head_of_account r <> NaN /\ p_head_of_account r <> Text "".

#[global] Instance has_head_dec r : Decision (has_head r).
Proof. unfold has_head. apply _. Defined.

(** [df.dropna(subset=['date', 'head_of_account'])] keeps these rows. *)
Definition not_na (r : prepared) : Prop :=
  p_date r <> None /\ p_head_of_account r <> NaN.

#[global] Instance not_na_dec r : Decision (not_na r).
Proof. unfold not_na. apply _. Defined.

Section Ingestion.

Context `{Library}.

Definition py_str (c : cell) : string :=
  match c with
  | Text s => s
  | _ => str_of_value c
  end.

Definition prepare (df : DataFrame) (row : list cell) : prepared :=
  mkprepared
    (c ← get df "date" row; to_datetime c)
    (default NaN (get df "head_of_account" row))
    (filled df "category" (Text "") row)
    (filled df "description" (Text "") row)
    (filled df "reference" (Text "") row)
    (filled df "debit" (Num 0) row)
    (filled df "credit" (Num 0) row).

(** [str(row['head_of_account']).strip()] *)
Definition head_of (r : prepared) : string :=
  Str.strip (py_str (p_head_of_account r)).

(** First pass: the first spelling seen of each upper-cased head. *)
Definition first_pass (head_of_accounts_map : gmap string string)
    (r : prepared) : gmap string string :=
  if decide (has_head r) then
    let head := head_of r in
    let head_upper := Str.upper head in
    match head_of_accounts_map !! head_upper with
    | None => <[head_upper := head]> head_of_accounts_map
    | Some _ => head_of_accounts_map
    end
  else head_of_accounts_map.

(** [float(v or 0)] on a filled amount cell. *)
Definition float_or_zero (c : cell) : res Z :=
  match c with
  | Num x => Ok x
  | Text EmptyString => Ok 0%Z
  | Text s =>
      match float_of_text s with
      | Some x => Ok x
      | None => Raise ("could not convert string to float: " +:+ repr_of_text s)
      end
  | Stamp _ =>
      Raise "float() argument must be a string or a real number, not 'Timestamp'"
  | NaN => Ok 0%Z
  end.

(** A text column value as the database stores it: NaN becomes NULL. *)
Definition stored_text (c : cell) : option string :=
  match c with
  | NaN => None
  | _ => Some (py_str c)
  end.

(** The body of the second loop for one row that has a head. *)
Definition make_transaction (head_of_accounts_map : gmap string string)
    (company : Company.t) (r : prepared) : res Transaction.t :=
  match head_of_accounts_map !! Str.upper (head_of r), p_date r with
  | None, _ => Raise "KeyError"
  | _, None => Raise "NaTType does not support date"
  | Some normalized_head, Some d =>
      debit ← float_or_zero (p_debit r);
      credit ← float_or_zero (p_credit r);
      Ok (Transaction.mk 0 d normalized_head (stored_text (p_category r))
            (stored_text (p_description r)) (stored_text (p_reference r))
            debit credit (Company.id company))
  end.

(** Second pass, threading the session and [transaction_count]. *)
Fixpoint add_transactions (head_of_accounts_map : gmap string string)
    (company : Company.t) (rs : list prepared) (s : Session)
    (transaction_count : nat) : res (Session * nat) :=
  match rs with
  | [] => Ok (s, transaction_count)
  | r :: rest =>
      if decide (has_head r) then
        transaction ← make_transaction head_of_accounts_map company r;
        add_transactions head_of_accounts_map company rest
          (add transaction s) (S transaction_count)
      else add_transactions head_of_accounts_map company rest s transaction_count
  end.

Definition read_excel (file_data : workbook) : res DataFrame :=
  match file_data with
  | Corrupt => Raise "File is not a zip file"
  | Sheet df => Ok df
  end.

Definition missing_columns (df : DataFrame) : list string :=
  filter (fun col => col ∉ columns df) required_columns.

(** The rows that survive the filter, in file order. *)
Definition surviving (df : DataFrame) : list prepared :=
  filter not_na (prepare (rename df) <$> rows df).

Definition process_excel_body (file_data : workbook) (company : Company.t)
    (s : Session) : res (Session * nat) :=
  df ← read_excel file_data;
  if decide (missing_columns df <> []) then
    Raise ("Missing required columns: " +:+ Str.join ", " (missing_columns df))
  else
    let rs := surviving df in
    let head_of_accounts_map := foldl first_pass ∅ rs in
    add_transactions head_of_accounts_map company rs s 0.

(** The [try ... except Exception as e: raise Exception(...)] wrapper. *)
Definition process_excel_data (file_data : workbook) (company : Company.t)
    (s : Session) : res (Session * nat) :=
  match process_excel_body file_data company s with
  | Ok r => Ok r
  | Raise msg => Raise ("Failed to process Excel data: " +:+ msg)
  end.

(** What the route reports: the success flash with the count, the company
    name and the id put in the web session, or an error flash. *)
Inductive flash : Type :=
| Processed (transaction_count : nat) (company_name : string) (selected_company_id : Z)
| Failed (msg : string).

(** [Company.query.filter_by(name=company_name).first()] *)
Definition company_by_name (db : Database) (company_name : string)
    : option Company.t :=
  head (filter (fun c => Company.name c = company_name) (companies db)).

(** [Transaction.query.filter_by(company_id=...).delete()] *)
Definition delete_transactions (company_id : Z) (db : Database) : Database :=
  mkdb (companies db) (company_files db)
       (filter (fun t => Transaction.company_id t <> company_id) (transactions db)).

(** [company.updated_at = datetime.now()] *)
Definition touch (company_id now : Z) (db : Database) : Database :=
  mkdb ((fun c => if decide (Company.id c = company_id)
                  then Company.mk (Company.id c) (Company.name c) now else c)
          <$> companies db)
       (company_files db) (transactions db).

Definition add_company (c : Company.t) (db : Database) : Database :=
  mkdb (companies db ++ [c]) (company_files db) (transactions db).

(** The relationship [company.file]. *)
Definition file_of (db : Database) (company_id : Z) : option CompanyFile.t :=
  head (filter (fun f => CompanyFile.company_id f = company_id) (company_files db)).

Definition delete_file (file_id : Z) (db : Database) : Database :=
  mkdb (companies db)
       (filter (fun f => CompanyFile.id f <> file_id) (company_files db))
       (transactions db).

Definition add_file (f : CompanyFile.t) (db : Database) : Database :=
  mkdb (companies db) (company_files db ++ [f]) (transactions db).

Definition on_working (f : Database -> Database) (s : Session) : Session :=
  mksession (committed s) (f (working s)) (pending s).

(** The uploaded file: its name, [secure_filename] of it, its content type
    when the browser sent one, and its bytes. *)
Record upload : Type := mkupload {
  u_filename : string;
  u_secure_filename : string;
  u_content_type : option string;
  u_file_data : workbook
}.

Definition default_content_type : string :=
  "application/vnd.openxmlformats-officedocument.spreadsheetml.sheet".

(** The body of the [try] block of [upload_file]. *)
Definition upload_try (failing : option storage_step) (file : upload)
    (company : Company.t) (s : Session) : res (Session * nat) :=
  s ← match file_of (working s) (Company.id company) with
      | Some f =>
          let s := on_working (delete_file (CompanyFile.id f)) s in
          _ ← storage failing FlushDelete; Ok (flush s)
      | None => Ok s
      end;
  let company_file :=
    CompanyFile.mk (next_id (CompanyFile.id <$> company_files (working s)))
      (u_secure_filename file) (u_file_data file)
      (default default_content_type
         (c ← u_content_type file; if decide (c = "") then None else Some c))
      (Company.id company) in
  let s := on_working (add_file company_file) s in
  _ ← storage failing FlushAdd;
  let s := flush s in
  '(s, transaction_count) ← process_excel_data (u_file_data file) company s;
  _ ← storage failing FinalCommit;
  Ok (commit s, transaction_count).

(** [upload_file] from the company lookup on: the database before, the
    committed database after, and the flash. *)
Definition upload_company (failing : option storage_step) (now : Z)
    (company_name : string) (file : upload) (db : Database)
    : Database * flash :=
  let s := begin db in
  let '(s, company) :=
    match company_by_name (working s) company_name with
    | Some company =>
        let s := on_working (delete_transactions (Company.id company)) s in
        let s := on_working (touch (Company.id company) now) s in
        (s, Company.mk (Company.id company) (Company.name company) now)
    | None =>
        let company :=
          Company.mk (next_id (Company.id <$> companies (working s)))
                     company_name now in
        let s := on_working (add_company company) s in
        (commit s, company)
    end in
  match upload_try failing file company s with
  | Ok (s, transaction_count) =>
      (committed s, Processed transaction_count company_name (Company.id company))
  | Raise msg =>
      (committed (rollback s), Failed ("Error processing file: " +:+ msg))
  end.

(** The form of the request: the file part when there is one, the company
    name field and the password field. *)
Record request : Type := mkrequest {
  q_file : option upload;
  q_company_name : string;
  q_file_password : string
}.

(** The whole route. *)
Definition upload_file (failing : option storage_step) (now : Z)
    (req : request) (db : Database) : Database * flash :=
  match q_file req with
  | None => (db, Failed "No file part")
  | Some file =>
      if decide (u_filename file = "") then (db, Failed "No selected file")
      else if Str.endswith (u_filename file) ".xlsx"
              || Str.endswith (u_filename file) ".xls" then
        let company_name := Str.strip (q_company_name req) in
        let company_name :=
          if decide (company_name = "")
          then filename_stem (u_filename file) else company_name in
        let file_password := Str.strip (q_file_password req) in
        if decide (file_password <> "Faiz5683")
        then (db, Failed "Incorrect password. Please try again.")
        else upload_company failing now company_name file db
      else (db, Failed "File must be an Excel file (.xlsx or .xls)")
  end.

End Ingestion.

(** ** Referential integrity and the words of the report claims *)

Definition known_company (db : Database) (company_id : Z) : Prop :=
  company_id ∈ Company.id <$> companies db.

(** The foreign key of [Transaction.company_id]. *)
Definition foreign_keys (db : Database) : Prop :=
  forall t, t ∈ transactions db -> known_company db (Transaction.company_id t).



Definition total_row (total_debit total_credit : Z) : tb_row :=
  mktb "TOTAL" total_debit total_credit true false.

(** The net effect of one transaction on its account. *)
Definition net (t : Transaction.t) : Z :=
  (Transaction.debit t - Transaction.credit t)%Z.

(** The account row the trial balance emits for one grouped result, if any. *)
Definition account_row (result : string * Z * Z) : option tb_row :=
  let '(head_of_account, account_debit, account_credit) := result in
  let balance := (account_debit - account_credit)%Z in
  if decide (balance <> 0%Z) then
    Some (mktb head_of_account
            (if decide (0 < balance)%Z then balance else 0%Z)
            (if decide (0 < balance)%Z then 0%Z else (- balance)%Z)
            false false)
  else None.

(** What a period argument that the trial balance accepts denotes: all the
    transactions, or those of a month and a year that [int] reads from its
    two fields and that SQLite can hold. *)
Definition period_reads `{Library} (period : string) (p : option (Z * Z)) : Prop :=
  (period = "all" /\ p = None) \/
  (period <> "all" /\
   exists month year m y, Str.split "/" period = [month; year] /\
     Int.parse month = Some m /\ Int.parse year = Some y /\
     Sql.integer m /\ Sql.integer y /\ p = Some (m, y)).

(** Texts that are equal up to the case of the letters a to z. *)
Definition same_letter (a b : ascii) : Prop :=
  a = b \/
  (let n := N_of_ascii a in
   let m := N_of_ascii b in
   (97 <= n <= 122 /\ m = n - 32) \/ (97 <= m <= 122 /\ n = m - 32))%N.

Definition equal_ignoring_case (s t : string) : Prop :=
  Forall2 same_letter (list_ascii_of_string s) (list_ascii_of_string t).

(** Transactions whose sums the code forms without rounding: the absolute
    amounts add up to at most 2^53, which bounds every sum and difference
    the code forms of them. *)
Definition magnitude (t : Transaction.t) : Z :=
  (Z.abs (Transaction.debit t) + Z.abs (Transaction.credit t))%Z.

Definition exact_sums (l : list Transaction.t) : Prop :=
  (Zsum (magnitude <$> l) <= 2 ^ 53)%Z.

Definition difference_row (total_debit total_credit : Z) : tb_row :=
  mktb "DIFFERENCE"
    (if decide (total_credit < total_debit)%Z
     then Z.abs (total_debit - total_credit) else 0%Z)
    (if decide (total_credit < total_debit)%Z
     then 0%Z else Z.abs (total_debit - total_credit))
    false true.

(** ** The transactions one file denotes *)

Section Staging.

Context `{Library}.

(** The objects the second loop adds, in order, or its first exception. *)
Fixpoint build_all (head_of_accounts_map : gmap string string)
    (company : Company.t) (rs : list prepared) : res (list Transaction.t) :=
  match rs with
  | [] => Ok []
  | r :: rest =>
      if decide (has_head r) then
        t ← make_transaction head_of_accounts_map company r;
        ts ← build_all head_of_accounts_map company rest;
        Ok (t :: ts)
      else build_all head_of_accounts_map company rest
  end.

(** The rows of the file that become transactions. *)
Definition kept (df : DataFrame) : list prepared :=
  filter has_head (surviving df).

(** The objects [process_excel_data] adds for a file, or its exception. *)
Definition staged (file_data : workbook) (company : Company.t)
    : res (list Transaction.t) :=
  match
    df ← read_excel file_data;
    if decide (missing_columns df <> []) then
      Raise ("Missing required columns: " +:+ Str.join ", " (missing_columns df))
    else
      build_all (foldl first_pass ∅ (surviving df)) company (surviving df)
  with
  | Ok ts => Ok ts
  | Raise msg => Raise ("Failed to process Excel data: " +:+ msg)
  end.

(** The first kept row whose trimmed head equals [key] once upper-cased. *)
Definition first_spelled (key : string) (rs : list prepared) : option prepared :=
  head (filter (fun r => has_head r /\ Str.upper (head_of r) = key) rs).

End Staging.

(** ** The other entry point of ingestion: [process_excel_file] *)

Section IngestionFromPath.

Context `{Library}.

(** [pd.read_excel(filepath)]: [filesystem] gives the bytes under a path,
    when a file is there. *)
Definition read_excel_path (filesystem : string -> option workbook)
    (filepath : string) : res DataFrame :=
  match filesystem filepath with
  | None => Raise "No such file or directory"
  | Some file_data => read_excel file_data
  end.

Definition process_excel_file (filesystem : string -> option workbook)
    (filepath : string) (company : Company.t) (s : Session)
    : res (Session * nat) :=
  match
    df ← read_excel_path filesystem filepath;
    if decide (missing_columns df <> []) then
      Raise ("Missing required columns: " +:+ Str.join ", " (missing_columns df))
    else
      let rs := surviving df in
      let head_of_accounts_map := foldl first_pass ∅ rs in
      add_transactions head_of_accounts_map company rs s 0
  with
  | Ok r => Ok r
  | Raise msg => Raise ("Failed to process Excel file: " +:+ msg)
  end.

End IngestionFromPath.

(** ** The download route *)

(** [Company.query.get_or_404(company_id)], [None] being the 404. *)
Definition get_company (db : Database) (company_id : Z) : option Company.t :=
  head (filter (fun c => Company.id c = company_id) (companies db)).

(** The methods under which the route is reached: a rule that lists GET
    also answers HEAD. *)
Inductive http_method : Type := GET | HEAD | POST.

#[global] Instance http_method_eq_dec : EqDecision http_method.
Proof. solve_decision. Defined.

Inductive download_response : Type :=
| NotFound404
| NoFileFound                                  (* flash and redirect to the index *)
| PasswordPrompt (flash_msg : option string)
| SendFile (file_data : workbook) (mimetype : string) (download_name : string).

(** [download_file]; [file_password] is the form field, when the form has it. *)
Definition download_file (db : Database) (company_id : Z) (method : http_method)
    (file_password : option string) : download_response :=
  match get_company db company_id with
  | None => NotFound404
  | Some company =>
      match file_of db (Company.id company) with
      | None => NoFileFound
      | Some f =>
          if decide (method = GET) then PasswordPrompt None
          else
            let password := default "" file_password in
            if decide (method = POST /\ password <> "Faiz5683")
            then PasswordPrompt (Some "Incorrect password")
            else SendFile (CompanyFile.file_data f) (CompanyFile.content_type f)
                   (CompanyFile.filename f)
      end
  end.

(** ** The keys of the schema *)

(** The primary keys of the three tables, the unique name of a company and
    the unique company of a file. *)
Record keys_unique (db : Database) : Prop := mkkeys {
  company_ids_unique : NoDup (Company.id <$> companies db);
  company_names_unique : NoDup (Company.name <$> companies db);
  transaction_ids_unique : NoDup (Transaction.id <$> transactions db);
  file_ids_unique : NoDup (CompanyFile.id <$> company_files db);
  file_companies_unique : NoDup (CompanyFile.company_id <$> company_files db)
}.

(** ** The report routes *)

(** What a report route answers: a redirect to the index with a flash, the
    404 of [get_or_404], or the rendered page. *)
Inductive page (A : Type) : Type :=
| Redirect (flash_msg : string)
| NotFound
| Render (a : A).
Arguments Redirect {A} flash_msg.
Arguments NotFound {A}.
Arguments Render {A} a.

(** The opening of every report route: [session.get('selected_company_id')],
    the test [if not company_id], and [Company.query.get_or_404]. *)
Definition selected_company (db : Database) (selected_company_id : option Z)
    : page Company.t :=
  match selected_company_id with
  | None => Redirect "Please select a company first"
  | Some company_id =>
      if decide (company_id = 0%Z) then Redirect "Please select a company first"
      else match get_company db company_id with
           | None => NotFound
           | Some company => Render company
           end
  end.

(** [Transaction.category != ''], which SQL's NULL does not satisfy. *)
Definition has_category (t : Transaction.t) : Prop :=
  match Transaction.category t with
  | Some c => c <> ""
  | None => False
  end.

#[global] Instance has_category_dec t : Decision (has_category t).
Proof. unfold has_category. destruct (Transaction.category t); apply _. Defined.

(** The distinct, ordered categories of the company. *)
Definition categories_of (db : Database) (company_id : Z) : list string :=
  merge_sort String.le
    (remove_dups
       (omap Transaction.category
          (filter (fun t => Transaction.company_id t = company_id /\ has_category t)
                  (transactions db)))).

Record special_report_page : Type := mkspecial {
  sr_company : Company.t;
  sr_categories : list string;
  sr_selected_category : option string;
  sr_report_data : list report_row
}.

(** [special_report]; [category] is the query argument, when given. *)
Definition special_report (db : Database) (selected_company_id : option Z)
    (category : option string) : page special_report_page :=
  match selected_company db selected_company_id with
  | Redirect flash_msg => Redirect flash_msg
  | NotFound => NotFound
  | Render company =>
      let company_id := default 0%Z selected_company_id in
      let categories := categories_of db company_id in
      let selected_category :=
        match category with
        | Some c => Some c
        | None => head categories
        end in
      let report_data :=
        match selected_category with
        | Some c =>
            if decide (c = "") then []
            else get_special_report_data db company_id c
        | None => []
        end in
      Render (mkspecial company categories selected_category report_data)
  end.

(** [strftime] with the directives the routes use: [%m] is two digits and
    [%Y] four. For years below 1000 the C library decides whether [%Y] is
    padded; the properties below are about the years 1000 to 9999. *)
Module Strftime.

Definition digit_char (d : Z) : ascii := ascii_of_N (48 + Z.to_N d).

Definition two_digits (n : Z) : string :=
  String (digit_char (n / 10 mod 10)) (String (digit_char (n mod 10)) EmptyString).

Definition four_digits (n : Z) : string :=
  String (digit_char (n / 1000 mod 10))
    (String (digit_char (n / 100 mod 10)) (two_digits n)).

(** [d.strftime("%m/%Y")] *)
Definition month_year (d : date) : string :=
  two_digits (Datetime.month d) +:+ "/" +:+ four_digits (Datetime.year d).

End Strftime.

(** [datetime.strptime(s, "%m/%Y")], as the year and month it reads: the
    month is one or two digits that denote 1 to 12, the year four digits
    that denote a year from 1 on; [None] stands for the [ValueError]. *)
Module Strptime.

Fixpoint number (acc : Z) (s : string) : option Z :=
  match s with
  | EmptyString => Some acc
  | String a r =>
      match Int.digit a with
      | Some d => number (10 * acc + d)%Z r
      | None => None
      end
  end.

Definition month_year (s : string) : option (Z * Z) :=
  match Str.split "/" s with
  | [m; y] =>
      match number 0 m, number 0 y with
      | Some month, Some year =>
          if decide ((String.length m = 1 \/ String.length m = 2)%nat /\
                     (1 <= month <= 12)%Z /\
                     String.length y = 4%nat /\ (1 <= year)%Z)
          then Some (year, month) else None
      | _, _ => None
      end
  | _ => None
  end.

End Strptime.

(** The order of two periods by the dates [strptime] reads from them. *)
Definition period_order (a b : Z * Z * string) : Prop :=
  (a.1.1 < b.1.1 \/ (a.1.1 = b.1.1 /\ a.1.2 <= b.1.2))%Z.

#[global] Instance period_order_dec : RelDecision period_order.
Proof. intros a b. unfold period_order. apply _. Defined.

(** The key [strptime] gives each period, or the failure of the first one
    it cannot read. *)
Fixpoint with_keys (periods : list string) : res (list (Z * Z * string)) :=
  match periods with
  | [] => Ok []
  | x :: rest =>
      match Strptime.month_year x with
      | None => Raise "ValueError: time data does not match format '%m/%Y'"
      | Some key => keyed ← with_keys rest; Ok ((key, x) :: keyed)
      end
  end.

(** [sorted(periods, key=lambda x: datetime.strptime(x, "%m/%Y"))] over the
    set of the periods of the company's transactions. *)
Definition periods_of (db : Database) (company_id : Z) : res (list string) :=
  let transactions :=
    filter (fun t => Transaction.company_id t = company_id) (transactions db) in
  let periods :=
    remove_dups ((fun t => Strftime.month_year (Transaction.date t)) <$> transactions) in
  keyed ← with_keys periods;
  Ok (snd <$> merge_sort period_order keyed).

Record trial_balance_page : Type := mktbpage {
  tp_company : Company.t;
  tp_periods : list string;
  tp_selected_period : string;
  tp_trial_balance_data : list tb_row
}.

(** [trial_balance]; [period] is the query argument, when given; a [Raise]
    is an exception that leaves the route. *)
Definition trial_balance `{Library} (db : Database)
    (selected_company_id : option Z) (period : option string)
    : res (page trial_balance_page) :=
  match selected_company db selected_company_id with
  | Redirect flash_msg => Ok (Redirect flash_msg)
  | NotFound => Ok NotFound
  | Render company =>
      let company_id := default 0%Z selected_company_id in
      periods ← periods_of db company_id;
      let selected_period := default "all" period in
      trial_balance_data ← get_trial_balance_data db company_id selected_period;
      Ok (Render (mktbpage company periods selected_period trial_balance_data))
  end.

(** The dates on which every platform renders [%m/%Y] alike. *)
Definition printable (d : date) : Prop :=
  (1 <= Datetime.month d <= 12)%Z /\ (1000 <= Datetime.year d <= 9999)%Z.

(** CPython's [_days_in_month], and the dates a [datetime.date] can hold:
    [date(year, month, day)] raises for any other triple. *)
Definition days_in_month (y m : Z) : Z :=
  if (m =? 2)%Z && Datetime.is_leap y then 29%Z
  else nth (Z.to_nat m) [-1; 31; 28; 31; 30; 31; 30; 31; 31; 30; 31; 30; 31]%Z 0%Z.

Definition valid_date (d : date) : Prop :=
  (1 <= Datetime.year d <= 9999)%Z /\
  (1 <= Datetime.month d <= 12)%Z /\
  (1 <= Datetime.day d <= days_in_month (Datetime.year d) (Datetime.month d))%Z.

(** ** A reference instance of the library, and sample data *)

Module Reference.

(** Date cells convert to their date and every other value to NaT; a text
    converts to an amount when it is an ASCII numeral of a whole number; a
    number prints as its decimal numeral; the stem of a file name is what
    precedes its last dot; [repr] puts a text between single quotes.
    [upper] knows the letters of Latin-1, [strip] the white space of
    Unicode, and [int] reads no text that has a character outside ASCII.
    These are the library's answers on the values the worked examples below
    use, not on every value. *)
Definition to_datetime (c : cell) : option date :=
  match c with
  | Stamp d => Some d
  | _ => None
  end.

Definition float_of_text (s : string) : option Z := Int.ascii_parse s.

Definition str_of_value (c : cell) : string :=
  match c with
  | NaN => "nan"
  | Num x =>
      if decide (x < 0)%Z then "-" +:+ pretty (Z.to_N (- x)) else pretty (Z.to_N x)
  | Text s => s
  | Stamp d => "Timestamp"
  end.

Fixpoint stem (s : string) : string :=
  match s with
  | EmptyString => EmptyString
  | String a r =>
      if existsb (Ascii.eqb ".") (list_ascii_of_string r)
      then String a (stem r)
      else if Ascii.eqb a "." then EmptyString else String a (stem r)
  end.

Definition repr (s : string) : string := "'" +:+ s +:+ "'".

Definition byte (n : N) : ascii := ascii_of_N n.

(** [upper] on UTF-8: the letters a to z; the letters U+00E0 to U+00FE but
    the division sign, which lie 32 below in the same two-byte block; the
    sharp s, which becomes SS; y with diaeresis and the micro sign, whose
    capitals lie outside Latin-1. *)
Fixpoint upper (s : string) : string :=
  match s with
  | EmptyString => EmptyString
  | String a r =>
      match N_of_ascii a, r with
      | 195%N, String b r' =>
          let n := N_of_ascii b in
          if (n =? 159)%N then "SS" +:+ upper r'
          else if (n =? 191)%N then String (byte 197) (String (byte 184) (upper r'))
          else if ((160 <=? n) && (n <=? 190) && negb (n =? 183))%N
               then String a (String (byte (n - 32)) (upper r'))
               else String a (String b (upper r'))
      | 194%N, String b r' =>
          if (N_of_ascii b =? 181)%N
          then String (byte 206) (String (byte 156) (upper r'))
          else String a (String b (upper r'))
      | _, _ => String (Str.upper_char a) (upper r)
      end
  end.

(** The UTF-8 encodings of the characters for which [str.isspace] holds:
    the ASCII ones, then U+0085, U+00A0, U+1680, U+2000 to U+200A, U+2028,
    U+2029, U+202F, U+205F and U+3000. *)
Definition spaces : list (list ascii) :=
  ((fun n => [byte n]) <$> [9; 10; 11; 12; 13; 28; 29; 30; 31; 32]%N) ++
  [[byte 194; byte 133]; [byte 194; byte 160]; [byte 225; byte 154; byte 128]] ++
  ((fun n => [byte 226; byte 128; byte n]) <$>
     [128; 129; 130; 131; 132; 133; 134; 135; 136; 137; 138; 168; 169; 175]%N) ++
  [[byte 226; byte 129; byte 159]; [byte 227; byte 128; byte 128]].

Fixpoint without_prefix (p s : list ascii) : option (list ascii) :=
  match p, s with
  | [], _ => Some s
  | a :: p', b :: s' => if Ascii.eqb a b then without_prefix p' s' else None
  | _ :: _, [] => None
  end.

Fixpoint lstrip_words (words : list (list ascii)) (fuel : nat) (s : list ascii)
    : list ascii :=
  match fuel with
  | O => s
  | S fuel' =>
      match head (omap (fun w => without_prefix w s) words) with
      | Some rest => lstrip_words words fuel' rest
      | None => s
      end
  end.

Definition strip (s : string) : string :=
  let l := list_ascii_of_string s in
  let l := lstrip_words spaces (length l) l in
  let l := lstrip_words ((fun w => rev w) <$> spaces) (length l) (rev l) in
  string_of_list_ascii (rev l).

#[export] Instance library : Library :=
  mklibrary to_datetime float_of_text str_of_value stem repr upper strip
    (fun _ => None).

End Reference.

Module Sample.

#[local] Existing Instance Reference.library.

Definition jan1 : date := Datetime.mkdate 2024 1 1.
Definition jan5 : date := Datetime.mkdate 2024 1 5.
Definition mar1 : date := Datetime.mkdate 2024 3 1.

Definition header : list string :=
  ["Date"; "Head of Accounts"; "Category"; "Debit"; "Credit"].

(** Three spellings of one account, and a sale. *)
Definition books : DataFrame :=
  mkframe header
    [[Stamp jan1; Text "Cash"; Text "Assets"; Num 100; Num 0];
     [Stamp jan5; Text "CASH "; Text "Assets"; NaN; Num 40];
     [NaN; Text "Lost"; Text "Assets"; Num 1; Num 0];
     [Stamp jan5; NaN; Text "Assets"; Num 1; Num 0];
     [Stamp mar1; Text "Sales"; Text "Income"; Text ""; Num 60];
     [Stamp mar1; Text "cash"; Text "Income"; Num 5; Num 0]].

(** The same kind of sheet without its Credit column. *)
Definition no_credit : DataFrame :=
  mkframe ["Date"; "Head of Accounts"; "Debit"]
    [[Stamp jan1; Text "Cash"; Num 100]].

(** A Debit cell that is a word. *)
Definition worded : DataFrame :=
  mkframe header [[Stamp jan1; Text "Cash"; Text "Assets"; Text "abc"; Num 0]].

(** A head-of-account cell that holds one space. *)
Definition blank_head : DataFrame :=
  mkframe header [[Stamp jan1; Text " "; Text "Assets"; Num 5; Num 0]].

(** A head-of-account with an accented letter. *)
Definition accented : DataFrame :=
  mkframe header [[Stamp jan1; Text "café"; Text "Assets"; Num 5; Num 0]].

Definition file_of_frame (df : DataFrame) : upload :=
  mkupload "books.xlsx" "books.xlsx" None (Sheet df).

Definition acme : Company.t := Company.mk 1 "Acme" 0.

Definition empty : Database := mkdb [] [] [].

Definition tx (id : Z) (d : date) (head : string) (category : string)
    (debit credit : Z) (company_id : Z) : Transaction.t :=
  Transaction.mk id d head (Some category) (Some "") (Some "") debit credit company_id.

(** Acme's books as an earlier upload left them. *)
Definition stored : Database :=
  mkdb [acme]
       [CompanyFile.mk 1 "old.xlsx" (Sheet no_credit) default_content_type 1]
       [tx 1 mar1 "Cash" "Assets" 520 0 1;
        tx 2 jan1 "Cash" "Income" 0 20 1;
        tx 3 jan1 "Sales" "Income" 0 480 1;
        tx 4 jan5 "Rent" "Costs" 7 7 1].

(** Acme's books after the upload of [books]. *)
Definition uploaded : Database :=
  (upload_company None 7 "Acme" (file_of_frame books) stored).1.

(** The database that the upload of [blank_head] for a new company leaves. *)
Definition with_blank : Database :=
  (upload_company None 0 "Acme" (file_of_frame blank_head) empty).1.

(** The database that the upload of [accented] for a new company leaves. *)
Definition with_accent : Database :=
  (upload_company None 0 "Acme" (file_of_frame accented) empty).1.

End Sample.

Module More.

Import Sample.

#[local] Existing Instance Reference.library.

Definition globex : Company.t := Company.mk 2 "Globex" 0.

(** Two companies in one database. *)
Definition shared : Database :=
  mkdb [acme; globex]
       [CompanyFile.mk 1 "old.xlsx" (Sheet no_credit) default_content_type 1]
       [tx 1 mar1 "Cash" "Assets" 520 0 1;
        tx 2 jan1 "Bank" "Assets" 30 0 2;
        tx 3 jan1 "Sales" "Income" 0 480 1;
        tx 4 jan5 "Fees" "Income" 0 10 2].

(** A file system with one workbook. *)
Definition disk (filepath : string) : option workbook :=
  if decide (filepath = "/tmp/books.xlsx") then Some (Sheet books) else None.

End More.

(** * Properties *)

(** ** Sums, distinct heads and sorting *)

Lemma Zsum_app (l1 l2 : list Z) : Zsum (l1 ++ l2) = (Zsum l1 + Zsum l2)%Z.
Proof. unfold Zsum. induction l1 as [|x l1 IH]; simpl; lia. Qed.

Lemma elem_of_distinct_heads (l : list Transaction.t) (h : string) :
  h ∈ distinct_heads l <-> exists t, t ∈ l /\ Transaction.head_of_account t = h.
Proof.
  unfold distinct_heads. rewrite merge_sort_Permutation, elem_of_remove_dups.
  rewrite list_elem_of_fmap. split.
  - intros (t & -> & Ht). eauto.
  - intros (t & Ht & <-). eauto.
Qed.

Lemma NoDup_distinct_heads (l : list Transaction.t) : NoDup (distinct_heads l).
Proof.
  unfold distinct_heads. rewrite merge_sort_Permutation. apply NoDup_remove_dups.
Qed.



(** ** Texts *)

Lemma lstrip_fixed (space : ascii -> bool) (s : string) :
  match s with String a _ => space a = false | EmptyString => True end ->
  Str.lstrip_by space s = s.
Proof. destruct s as [|a r]; [done|]. cbn. by intros ->. Qed.

Lemma lstrip_head (space : ascii -> bool) (s : string) :
  match Str.lstrip_by space s with
  | String a _ => space a = false
  | EmptyString => True
  end.
Proof.
  induction s as [|a r IH]; [done|]. cbn.
  destruct (space a) eqn:E; [done|]. by cbn.
Qed.

Lemma rstrip_head (space : ascii -> bool) (s : string) :
  match s with String a _ => space a = false | EmptyString => True end ->
  match Str.rstrip_by space s with
  | String a _ => space a = false
  | EmptyString => True
  end.
Proof.
  destruct s as [|a r]; [done|]. cbn. intros Ha.
  destruct (Str.rstrip_by space r); [by rewrite Ha|done].
Qed.

Lemma rstrip_idempotent (space : ascii -> bool) (s : string) :
  Str.rstrip_by space (Str.rstrip_by space s) = Str.rstrip_by space s.
Proof.
  induction s as [|a r IH]; [done|]. cbn.
  destruct (Str.rstrip_by space r) as [|b r'] eqn:E.
  - destruct (space a) eqn:Ea; [done|]. cbn. by rewrite Ea.
  - cbn [Str.rstrip_by] in IH |- *. fold Str.rstrip_by in *. by rewrite IH.
Qed.

Lemma strip_idempotent (space : ascii -> bool) (s : string) :
  Str.strip_by space (Str.strip_by space s) = Str.strip_by space s.
Proof.
  unfold Str.strip_by.
  rewrite (lstrip_fixed space (Str.rstrip_by space (Str.lstrip_by space s)))
    by apply rstrip_head, lstrip_head.
  apply rstrip_idempotent.
Qed.

Lemma is_ascii_cons (a : ascii) (r : string) :
  Str.is_ascii (String a r) = true <->
  Str.is_ascii_char a = true /\ Str.is_ascii r = true.
Proof. cbn. apply andb_true_iff. Qed.

Lemma lstrip_is_ascii (space : ascii -> bool) (s : string) :
  Str.is_ascii s = true -> Str.is_ascii (Str.lstrip_by space s) = true.
Proof.
  induction s as [|a r IH]; [done|]. intros Hs. cbn [Str.lstrip_by].
  destruct (space a); [|done]. apply IH. by apply is_ascii_cons in Hs as [_ ?].
Qed.

Lemma rstrip_is_ascii (space : ascii -> bool) (s : string) :
  Str.is_ascii s = true -> Str.is_ascii (Str.rstrip_by space s) = true.
Proof.
  induction s as [|a r IH]; [done|]. intros [Ha Hr]%is_ascii_cons.
  cbn [Str.rstrip_by]. specialize (IH Hr).
  destruct (Str.rstrip_by space r) as [|b r'].
  - destruct (space a); [done|]. apply is_ascii_cons. done.
  - apply is_ascii_cons. done.
Qed.

Lemma strip_is_ascii (space : ascii -> bool) (s : string) :
  Str.is_ascii s = true -> Str.is_ascii (Str.strip_by space s) = true.
Proof. intros Hs. by apply rstrip_is_ascii, lstrip_is_ascii. Qed.

Lemma ascii_of_N_inj (a b : ascii) : N_of_ascii a = N_of_ascii b -> a = b.
Proof.
  intros E. rewrite <- (ascii_N_embedding a), <- (ascii_N_embedding b). by rewrite E.
Qed.

(** Two characters have one upper-case form exactly when they are one
    letter in either case. *)
Lemma upper_char_same_letter (a b : ascii) :
  Str.upper_char a = Str.upper_char b <-> same_letter a b.
Proof.
  unfold Str.upper_char, same_letter. cbn zeta.
  pose proof (N_ascii_bounded a) as Ba. pose proof (N_ascii_bounded b) as Bb.
  assert (forall n, ((97 <=? n) && (n <=? 122))%N = true <-> (97 <= n <= 122)%N)
    as Htrue by (intros n; rewrite andb_true_iff, !N.leb_le; done).
  assert (forall n, ((97 <=? n) && (n <=? 122))%N = false <-> ~ (97 <= n <= 122)%N)
    as Hfalse by (intros n; rewrite <- Htrue; by destruct (_ && _)).
  destruct ((97 <=? N_of_ascii a) && (N_of_ascii a <=? 122))%N eqn:Ea;
    destruct ((97 <=? N_of_ascii b) && (N_of_ascii b <=? 122))%N eqn:Eb;
    [apply Htrue in Ea|apply Htrue in Ea|apply Hfalse in Ea|apply Hfalse in Ea];
    [apply Htrue in Eb|apply Hfalse in Eb|apply Htrue in Eb|apply Hfalse in Eb];
    split.
  - intros E. apply (f_equal N_of_ascii) in E.
    rewrite !N_ascii_embedding in E by lia. left. apply ascii_of_N_inj. lia.
  - intros [->|[[_ E]|[_ E]]]; [done|lia|lia].
  - intros E. apply (f_equal N_of_ascii) in E.
    rewrite N_ascii_embedding in E by lia. right. left. lia.
  - intros [->|[[_ E]|[? E]]]; [lia| |lia].
    apply ascii_of_N_inj. rewrite N_ascii_embedding by lia. lia.
  - intros E. apply (f_equal N_of_ascii) in E.
    rewrite N_ascii_embedding in E by lia. right. right. lia.
  - intros [->|[[? E]|[_ E]]]; [lia|lia|].
    apply ascii_of_N_inj. rewrite N_ascii_embedding by lia. lia.
  - intros ->. by left.
  - intros [->|[[? E]|[? E]]]; [done|lia|lia].
Qed.

(** Two texts have one upper-case form exactly when they are equal up to
    the case of the letters a to z. *)
Lemma ascii_upper_equal_ignoring_case (s t : string) :
  Str.ascii_upper s = Str.ascii_upper t <-> equal_ignoring_case s t.
Proof.
  unfold equal_ignoring_case. revert t.
  induction s as [|a s IH]; intros [|b t]; cbn.
  - split; [constructor|done].
  - split; [discriminate|]. by intros ?%Forall2_nil_cons_inv.
  - split; [discriminate|]. by intros ?%Forall2_cons_nil_inv.
  - split.
    + intros [= Hab Hst]. constructor; [by apply upper_char_same_letter|by apply IH].
    + intros [Hab Hst]%Forall2_cons. f_equal; [by apply upper_char_same_letter|by apply IH].
Qed.

Lemma ascii_upper_is_ascii (s : string) :
  Str.is_ascii s = true -> Str.is_ascii (Str.ascii_upper s) = true.
Proof.
  induction s as [|a r IH]; [done|]. intros [Ha Hr]%is_ascii_cons.
  cbn [Str.ascii_upper]. apply is_ascii_cons. split; [|by apply IH].
  unfold Str.is_ascii_char, Str.upper_char in *. cbn zeta.
  apply N.ltb_lt in Ha. apply N.ltb_lt.
  destruct ((97 <=? N_of_ascii a) && (N_of_ascii a <=? 122))%N; [|done].
  rewrite N_ascii_embedding; lia.
Qed.

Lemma ascii_upper_is_ascii_iff (s : string) :
  Str.is_ascii (Str.ascii_upper s) = Str.is_ascii s.
Proof.
  induction s as [|a r IH]; [done|]. cbn [Str.ascii_upper Str.is_ascii].
  rewrite IH. f_equal. unfold Str.is_ascii_char, Str.upper_char. cbn zeta.
  pose proof (N_ascii_bounded a) as Ba.
  destruct ((97 <=? N_of_ascii a) && (N_of_ascii a <=? 122))%N eqn:E; [|done].
  apply andb_true_iff in E as [E1%N.leb_le E2%N.leb_le].
  rewrite N_ascii_embedding by lia.
  transitivity true; [apply N.ltb_lt; lia|symmetry; apply N.ltb_lt; lia].
Qed.

Section PythonTexts.

Context `{Library}.

Lemma strip_ascii (s : string) :
  Str.is_ascii s = true ->
  Str.strip s = Str.strip_by Str.isspace s /\ Str.is_ascii (Str.strip s) = true.
Proof.
  intros Hs. unfold Str.strip. rewrite Hs. split; [done|]. by apply strip_is_ascii.
Qed.

Lemma upper_ascii (s : string) :
  Str.is_ascii s = true -> Str.upper s = Sql.upper s.
Proof. intros Hs. unfold Str.upper, Sql.upper. by rewrite Hs. Qed.

(** The normalised form of an ASCII query. *)
Lemma normalized_ascii (s : string) :
  Str.is_ascii s = true ->
  Str.upper (Str.strip s) = Str.ascii_upper (Str.strip_by Str.isspace s).
Proof.
  intros Hs. destruct (strip_ascii s Hs) as [Hst Ha].
  rewrite (upper_ascii _ Ha), Hst. done.
Qed.

Lemma strip_fixed (s : string) :
  Str.is_ascii s = true -> Str.strip (Str.strip s) = Str.strip s.
Proof.
  intros Hs. destruct (strip_ascii s Hs) as [Hst Ha].
  rewrite (proj1 (strip_ascii _ Ha)), Hst. apply strip_idempotent.
Qed.

End PythonTexts.

(** ** The period argument *)

Section Period.

Context `{Library}.

Lemma parse_period_ok (period : string) (m y : Z) :
  parse_period period = Ok (m, y) <->
  exists month year, Str.split "/" period = [month; year] /\
    Int.parse month = Some m /\ Int.parse year = Some y.
Proof.
  unfold parse_period. split.
  - destruct (Str.split "/" period) as [|f1 [|f2 [|f3 fs]]]; try discriminate.
    destruct (Int.parse f1) as [a|] eqn:E1; try discriminate.
    destruct (Int.parse f2) as [b|] eqn:E2; try discriminate.
    intros [= <- <-]. eauto.
  - intros (month & year & -> & -> & ->). reflexivity.
Qed.

Lemma resolve_period_ok (period : string) (p : option (Z * Z)) :
  resolve_period period = Ok p <->
  (period = "all" /\ p = None) \/
  (period <> "all" /\ exists m y, parse_period period = Ok (m, y) /\ p = Some (m, y)).
Proof.
  unfold resolve_period. destruct (decide (period <> "all")) as [Hne|Heq].
  - destruct (parse_period period) as [[m y]|msg]; simpl; split.
    + intros [= <-]. right. eauto.
    + intros [[? _]|(_ & m' & y' & [= <- <-] & ->)]; [done|reflexivity].
    + discriminate.
    + intros [[? _]|(_ & m' & y' & ? & _)]; [done|discriminate].
  - apply dec_stable in Heq. subst period. split.
    + intros [= <-]. by left.
    + intros [[_ ->]|[? _]]; done.
Qed.

(** C10. For every period string other than 'all' that does not consist of
    exactly two '/'-separated fields that [int] reads as decimal integers,
    the trial balance raises instead of returning rows: nothing checks the
    period before the unpacking and the two conversions. *)
Theorem trial_balance_rejects_malformed_period
    (db : Database) (company_id : Z) (period : string) :
  period <> "all" ->
  ~ (exists month year m y, Str.split "/" period = [month; year] /\
       Int.parse month = Some m /\ Int.parse year = Some y) ->
  exists msg, get_trial_balance_data db company_id period = Raise msg.
Proof.
  intros Hne Hbad. unfold get_trial_balance_data.
  destruct (resolve_period period) as [p|msg] eqn:E; [|by exists msg].
  exfalso. apply resolve_period_ok in E as [[? _]|(_ & m & y & Hp & _)]; [done|].
  apply parse_period_ok in Hp as (month & year & ?). apply Hbad. eauto 6.
Qed.

(** A period is accepted, and only then, when it resolves and binds. *)
Lemma period_reads_resolve (period : string) (p : option (Z * Z)) :
  period_reads period p <->
  resolve_period period = Ok p /\ bind_period p = Ok tt.
Proof.
  rewrite resolve_period_ok. unfold period_reads. split.
  - intros [[-> ->]|(Hne & month & year & m & y & Hs & Hm & Hy & Im & Iy & ->)].
    + split; [by left|done].
    + split.
      * right. split; [done|]. exists m, y. split; [|done].
        apply parse_period_ok. eauto.
      * cbn. by rewrite decide_True.
  - intros [[[-> ->]|(Hne & m & y & Hp & ->)] Hb]; [by left|].
    right. split; [done|].
    apply parse_period_ok in Hp as (month & year & Hs & Hm & Hy).
    cbn in Hb. destruct (decide _) as [[Im Iy]|]; [|discriminate].
    exists month, year, m, y. eauto 8.
Qed.

(** A period whose fields [int] reads, one of them beyond 64 bits, is
    refused when the query is run. *)
Lemma oversized_period_overflows (db : Database) (company_id : Z)
    (period month year : string) (m y : Z) :
  period <> "all" -> Str.split "/" period = [month; year] ->
  Int.parse month = Some m -> Int.parse year = Some y ->
  ~ (Sql.integer m /\ Sql.integer y) ->
  get_trial_balance_data db company_id period =
  Raise "OverflowError: Python int too large to convert to SQLite INTEGER".
Proof.
  intros Hne Hs Hm Hy Hbig. unfold get_trial_balance_data.
  assert (resolve_period period = Ok (Some (m, y))) as ->.
  { apply resolve_period_ok. right. split; [done|]. exists m, y. split; [|done].
    apply parse_period_ok. eauto. }
  cbn. by rewrite decide_False.
Qed.

End Period.

(** ** Queries that match nothing *)



Section Unknown.

Context `{Library}.


End Unknown.

(** ** The ledger *)

Lemma ledger_order_spec (a b : Transaction.t) :
  ledger_order a b <->
  let da := Transaction.date a in
  let db := Transaction.date b in
  (Datetime.year da < Datetime.year db \/
   Datetime.year da = Datetime.year db /\
   (Datetime.month da < Datetime.month db \/
    Datetime.month da = Datetime.month db /\
    (Datetime.day da < Datetime.day db \/
     Datetime.day da = Datetime.day db /\
     Transaction.id a <= Transaction.id b)))%Z.
Proof.
  unfold ledger_order, Datetime.compare. simpl.
  destruct (Z.compare_spec (Datetime.year (Transaction.date a))
              (Datetime.year (Transaction.date b)));
  destruct (Z.compare_spec (Datetime.month (Transaction.date a))
              (Datetime.month (Transaction.date b)));
  destruct (Z.compare_spec (Datetime.day (Transaction.date a))
              (Datetime.day (Transaction.date b)));
  split; intros; try lia; try exact I.
Qed.

#[global] Instance ledger_order_total : Total ledger_order.
Proof. intros a b. rewrite !ledger_order_spec. simpl. lia. Qed.

#[global] Instance ledger_order_trans : Transitive ledger_order.
Proof. intros a b c. rewrite !ledger_order_spec. simpl. lia. Qed.

Lemma compare_eq_date (a b : date) : Datetime.compare a b = Eq <-> a = b.
Proof.
  unfold Datetime.compare. destruct a as [ya ma da], b as [yb mb db]. simpl.
  destruct (Z.compare_spec ya yb); destruct (Z.compare_spec ma mb);
  destruct (Z.compare_spec da db); split; intros E; try discriminate;
  try (injection E; intros; lia); subst; reflexivity.
Qed.

Lemma ledger_query_perm (db : Database) (company_id : Z) (h : string) :
  ledger_query db company_id h ≡ₚ
  filter (ledger_match company_id h) (transactions db).
Proof. apply merge_sort_Permutation. Qed.

Lemma ledger_query_sorted (db : Database) (company_id : Z) (h : string) :
  StronglySorted ledger_order (ledger_query db company_id h).
Proof. apply (StronglySorted_merge_sort _). Qed.

Lemma ledger_loop_length (today : date) (balance : Z) (txs : list Transaction.t) :
  length (ledger_loop today balance txs) = length txs.
Proof. revert balance. induction txs as [|t txs IH]; intros b; simpl; [done|]. by rewrite IH. Qed.

Lemma ledger_loop_lookup (today : date) (txs : list Transaction.t) :
  forall (balance : Z) (k : nat) (t : Transaction.t),
  txs !! k = Some t ->
  ledger_loop today balance txs !! k =
  Some (mkledger (Transaction.date t) (Transaction.description t)
          (Transaction.reference t) (Transaction.debit t) (Transaction.credit t)
          (balance + Zsum (net <$> take (S k) txs))
          (Datetime.days_between today (Transaction.date t))).
Proof.
  induction txs as [|x txs IH]; intros b k t Hk; [done|].
  destruct k as [|k]; simpl in *.
  - injection Hk as ->. do 2 f_equal. unfold Zsum, net. cbn. by rewrite Z.add_0_r.
  - rewrite (IH _ _ _ Hk). do 2 f_equal. unfold Zsum, net. cbn.
    by rewrite Z.add_assoc.
Qed.

Lemma StronglySorted_lookup {A} (R : relation A) (l : list A) :
  StronglySorted R l ->
  forall i j a b, (i < j)%nat -> l !! i = Some a -> l !! j = Some b -> R a b.
Proof.
  induction 1 as [|x l Hs IH Hall]; intros i j a b Hij Hi Hj; [done|].
  destruct j as [|j]; [lia|]. destruct i as [|i]; simpl in *.
  - injection Hi as <-. rewrite Forall_forall in Hall. apply Hall.
    by eapply list_elem_of_lookup_2.
  - eapply (IH i j); eauto. lia.
Qed.


(** ** Rows kept from a sorted list of heads *)



(** ** The category report *)



(** ** The trial balance *)

Lemma tb_step_account_row (rows : list tb_row) (td tc : Z) (result : string * Z * Z) :
  tb_step (rows, td, tc) result =
  match account_row result with
  | Some row => (rows ++ [row], (td + tb_debit row)%Z, (tc + tb_credit row)%Z)
  | None => (rows, td, tc)
  end.
Proof.
  destruct result as [[h d] c]. unfold tb_step, account_row.
  destruct (decide _); [|done]. by destruct (decide (0 < d - c)%Z).
Qed.

Lemma tb_loop (results : list (string * Z * Z)) :
  forall (rows : list tb_row) (td tc : Z),
  foldl tb_step (rows, td, tc) results =
  (rows ++ omap account_row results,
   (td + Zsum (tb_debit <$> omap account_row results))%Z,
   (tc + Zsum (tb_credit <$> omap account_row results))%Z).
Proof.
  induction results as [|r results IH]; intros rows td tc.
  - unfold Zsum. simpl. by rewrite app_nil_r, !Z.add_0_r.
  - cbn [foldl omap list_omap]. rewrite tb_step_account_row.
    destruct (account_row r) as [row|].
    + rewrite IH, <- app_assoc. unfold Zsum. cbn [fmap list_fmap foldr app].
      by rewrite !Z.add_assoc.
    + apply IH.
Qed.

Lemma tb_finish_rows (accounts : list tb_row) (td tc : Z) :
  tb_finish (accounts, td, tc) =
  accounts ++ [total_row td tc] ++
    (if decide (td = tc) then [] else [difference_row td tc]).
Proof.
  unfold tb_finish, difference_row, total_row.
  destruct (decide (td - tc <> 0)%Z) as [Hd|Hd]; destruct (decide (td = tc)) as [He|He];
    try lia.
  - rewrite <- app_assoc. simpl. do 4 f_equal.
    + destruct (decide (0 < td - tc)%Z), (decide (tc < td)%Z); lia.
    + destruct (decide (td - tc < 0)%Z), (decide (tc < td)%Z); lia.
  - done.
Qed.




(** ** Ingestion *)

Section IngestionFacts.

Context `{Library}.

Lemma add_transactions_build (m : gmap string string) (company : Company.t)
    (rs : list prepared) :
  forall (s : Session) (n : nat),
  add_transactions m company rs s n =
  match build_all m company rs with
  | Ok ts => Ok (mksession (committed s) (working s) (pending s ++ ts),
                 (n + length ts)%nat)
  | Raise msg => Raise msg
  end.
Proof.
  induction rs as [|r rs IH]; intros s n; cbn [add_transactions build_all].
  - rewrite app_nil_r, Nat.add_0_r. by destruct s.
  - destruct (decide (has_head r)); [|apply IH].
    destruct (make_transaction m company r) as [t|msg]; [|done].
    cbn [mbind res_bind]. rewrite IH.
    destruct (build_all m company rs) as [ts|msg]; [|done].
    cbn [mbind res_bind add pending committed working length].
    rewrite <- app_assoc. f_equal. f_equal. simpl. lia.
Qed.

Lemma process_excel_data_staged (file_data : workbook) (company : Company.t)
    (s : Session) :
  process_excel_data file_data company s =
  match staged file_data company with
  | Ok ts => Ok (mksession (committed s) (working s) (pending s ++ ts), length ts)
  | Raise msg => Raise msg
  end.
Proof.
  unfold process_excel_data, process_excel_body, staged.
  destruct (read_excel file_data) as [df|msg]; [|done].
  cbn [mbind res_bind]. destruct (decide _); [done|].
  rewrite add_transactions_build.
  by destruct (build_all _ company (surviving df)).
Qed.

Lemma make_transaction_company (m : gmap string string) (c1 c2 : Company.t)
    (r : prepared) :
  Company.id c1 = Company.id c2 ->
  make_transaction m c1 r = make_transaction m c2 r.
Proof. intros E. unfold make_transaction. by rewrite E. Qed.

Lemma build_all_company (m : gmap string string) (c1 c2 : Company.t)
    (rs : list prepared) :
  Company.id c1 = Company.id c2 -> build_all m c1 rs = build_all m c2 rs.
Proof.
  intros E. induction rs as [|r rs IH]; [done|]. cbn [build_all].
  by rewrite IH, (make_transaction_company m c1 c2 r E).
Qed.

Lemma staged_company (file_data : workbook) (c1 c2 : Company.t) :
  Company.id c1 = Company.id c2 -> staged file_data c1 = staged file_data c2.
Proof.
  intros E. unfold staged. destruct (read_excel file_data) as [df|]; [|done].
  cbn [mbind res_bind]. destruct (decide _); [done|].
  by rewrite (build_all_company _ c1 c2 _ E).
Qed.

Lemma build_all_Forall2 (m : gmap string string) (company : Company.t)
    (rs : list prepared) (ts : list Transaction.t) :
  build_all m company rs = Ok ts <->
  Forall2 (fun r t => make_transaction m company r = Ok t) (filter has_head rs) ts.
Proof.
  revert ts. induction rs as [|r rs IH]; intros ts; cbn [build_all].
  - split; [intros [= <-]; constructor|]. by intros ->%Forall2_nil_inv_l.
  - rewrite filter_cons. destruct (decide (has_head r)); [|apply IH].
    destruct (make_transaction m company r) as [t|msg] eqn:Et; cbn [mbind res_bind].
    + destruct (build_all m company rs) as [ts'|msg] eqn:Eb; cbn [mbind res_bind].
      * split.
        -- intros [= <-]. constructor; [done|]. by apply IH.
        -- intros (t' & ts'' & Ht & Hts & ->)%Forall2_cons_inv_l.
           apply IH in Hts. congruence.
      * split; [discriminate|].
        intros (t' & ts'' & Ht & Hts & ->)%Forall2_cons_inv_l.
        apply IH in Hts. discriminate.
    + split; [discriminate|].
      intros (t' & ts'' & Ht & Hts & ->)%Forall2_cons_inv_l. congruence.
Qed.

Lemma Forall2_impl_elem_of {A B} (P Q : A -> B -> Prop) (l : list A) (k : list B) :
  Forall2 P l k -> (forall x y, x ∈ l -> P x y -> Q x y) -> Forall2 Q l k.
Proof.
  induction 1 as [|x y l k Hxy Hlk IH]; intros Himp; constructor.
  - apply Himp; [left|done].
  - apply IH. intros x' y' Hx'. apply Himp. by right.
Qed.

Lemma first_spelled_cons (key : string) (r : prepared) (rs : list prepared) :
  first_spelled key (r :: rs) =
  if decide (has_head r /\ Str.upper (head_of r) = key) then Some r
  else first_spelled key rs.
Proof. unfold first_spelled. rewrite filter_cons. by destruct (decide _). Qed.

(** The map of the first pass holds, under each key, the first spelling. *)
Lemma first_pass_lookup (rs : list prepared) :
  forall (m : gmap string string) (key : string),
  foldl first_pass m rs !! key =
  match m !! key with
  | Some v => Some v
  | None => head_of <$> first_spelled key rs
  end.
Proof.
  induction rs as [|r rs IH]; intros m key; cbn [foldl].
  - by destruct (m !! key).
  - rewrite IH, first_spelled_cons. unfold first_pass.
    destruct (decide (has_head r)) as [Hh|Hh].
    + destruct (m !! Str.upper (head_of r)) as [v|] eqn:Em.
      * destruct (m !! key) as [w|] eqn:Ek; [done|].
        destruct (decide _) as [[_ E]|]; [|done]. congruence.
      * destruct (decide (Str.upper (head_of r) = key)) as [<-|Hne].
        -- rewrite lookup_insert_eq, Em.
           destruct (decide _) as [|Hn]; [done|]. by destruct Hn.
        -- rewrite lookup_insert_ne by done.
           destruct (m !! key); [done|].
           destruct (decide _) as [[_ E]|]; [done|done].
    + destruct (m !! key); [done|].
      destruct (decide _) as [[Hh' _]|]; [done|done].
Qed.

Lemma first_spelled_kept (key : string) (df : DataFrame) :
  first_spelled key (surviving df) =
  head (filter (fun r => Str.upper (head_of r) = key) (kept df)).
Proof.
  unfold first_spelled, kept. rewrite list_filter_filter. f_equal.
  apply list_filter_iff. intros r. tauto.
Qed.

Lemma make_transaction_head (m : gmap string string) (company : Company.t)
    (r : prepared) (t : Transaction.t) :
  make_transaction m company r = Ok t ->
  m !! Str.upper (head_of r) = Some (Transaction.head_of_account t).
Proof.
  unfold make_transaction. destruct (m !! _) as [v|]; [|discriminate].
  destruct (p_date r); [|discriminate].
  destruct (float_or_zero (p_debit r)); [|discriminate].
  destruct (float_or_zero (p_credit r)); [|discriminate].
  cbn [mbind res_bind]. by intros [= <-].
Qed.

Lemma staged_inv (file_data : workbook) (company : Company.t)
    (ts : list Transaction.t) :
  staged file_data company = Ok ts ->
  exists df, file_data = Sheet df /\ missing_columns df = [] /\
    Forall2 (fun r t =>
               make_transaction (foldl first_pass ∅ (surviving df)) company r = Ok t)
            (kept df) ts.
Proof.
  unfold staged. destruct file_data as [|df]; [discriminate|].
  cbn [read_excel mbind res_bind].
  destruct (decide (missing_columns df <> [])) as [|Hm]; [discriminate|].
  apply dec_stable in Hm.
  destruct (build_all _ company (surviving df)) as [ts'|] eqn:Eb; [|discriminate].
  intros [= <-]. exists df. repeat split; [done|]. by apply build_all_Forall2.
Qed.

(** Each staged transaction carries the trimmed head of the first kept row
    whose trimmed head has the same upper-case form as its own row's. *)
Lemma staged_first_spelling (file_data : workbook) (company : Company.t)
    (ts : list Transaction.t) :
  staged file_data company = Ok ts ->
  exists df : DataFrame,
    file_data = Sheet df /\
    Forall2
      (fun r t =>
         exists first,
           head (filter (fun r' => Str.upper (head_of r') = Str.upper (head_of r))
                        (kept df)) = Some first /\
           Transaction.head_of_account t = head_of first)
      (kept df) ts.
Proof.
  intros Es. apply staged_inv in Es as (df & -> & _ & Hall).
  exists df. split; [done|].
  eapply Forall2_impl; [exact Hall|]. intros r t Ht.
  apply make_transaction_head in Ht.
  rewrite first_pass_lookup, lookup_empty, first_spelled_kept in Ht.
  destruct (head _) as [first|]; [|discriminate].
  injection Ht as <-. eauto.
Qed.

End IngestionFacts.

(** ** Amount cells *)

Lemma filter_fmap_list {A B} (f : A -> B) (P : B -> Prop)
    `{!forall y, Decision (P y)} (l : list A) :
  filter P (f <$> l) = f <$> filter (fun x => P (f x)) l.
Proof.
  induction l as [|x l IH]; [done|].
  cbn [fmap list_fmap]. rewrite !filter_cons.
  destruct (decide (P (f x))); cbn [fmap list_fmap]; by rewrite <- IH.
Qed.

Section AmountFacts.

Context `{Library}.

Lemma kept_rows (df : DataFrame) :
  kept df =
  prepare (rename df) <$>
    filter (fun row => not_na (prepare (rename df) row) /\
                       has_head (prepare (rename df) row)) (rows df).
Proof.
  unfold kept, surviving. rewrite !filter_fmap_list, list_filter_filter.
  f_equal. apply list_filter_iff. intros row. tauto.
Qed.

Lemma first_spelled_is_Some (r : prepared) (rs : list prepared) :
  r ∈ rs -> has_head r ->
  is_Some (first_spelled (Str.upper (head_of r)) rs).
Proof.
  intros Hin Hh. unfold first_spelled. apply head_is_Some.
  intros E.
  assert (r ∈ filter (fun r' => has_head r' /\
            Str.upper (head_of r') = Str.upper (head_of r)) rs) as Hr
    by (apply list_elem_of_filter; auto).
  rewrite E in Hr. by apply not_elem_of_nil in Hr.
Qed.

(** On a kept row only the two amount conversions can raise. *)
Lemma make_transaction_kept (df : DataFrame) (company : Company.t) (r : prepared) :
  r ∈ kept df ->
  exists (d : date) (v : string),
    make_transaction (foldl first_pass ∅ (surviving df)) company r =
    (debit ← float_or_zero (p_debit r);
     credit ← float_or_zero (p_credit r);
     Ok (Transaction.mk 0 d v (stored_text (p_category r))
           (stored_text (p_description r)) (stored_text (p_reference r))
           debit credit (Company.id company))).
Proof.
  intros Hr. apply list_elem_of_filter in Hr as [Hh Hs].
  pose proof Hs as Hs'. apply list_elem_of_filter in Hs' as [[Hd _] _].
  unfold make_transaction. rewrite first_pass_lookup, lookup_empty.
  destruct (first_spelled_is_Some r (surviving df) Hs Hh) as [first ->].
  destruct (p_date r) as [d|]; [|done]. by exists d, (head_of first).
Qed.

Lemma make_transaction_kept_ok (df : DataFrame) (company : Company.t) (r : prepared) :
  r ∈ kept df ->
  is_ok (make_transaction (foldl first_pass ∅ (surviving df)) company r) = true <->
  is_ok (float_or_zero (p_debit r)) = true /\
  is_ok (float_or_zero (p_credit r)) = true.
Proof.
  intros Hr. destruct (make_transaction_kept df company r Hr) as (d & v & ->).
  destruct (float_or_zero (p_debit r)), (float_or_zero (p_credit r));
    cbn; intuition congruence.
Qed.

Lemma make_transaction_amounts (m : gmap string string) (company : Company.t)
    (r : prepared) (t : Transaction.t) :
  make_transaction m company r = Ok t ->
  float_or_zero (p_debit r) = Ok (Transaction.debit t) /\
  float_or_zero (p_credit r) = Ok (Transaction.credit t).
Proof.
  unfold make_transaction. destruct (m !! _); [|discriminate].
  destruct (p_date r); [|discriminate].
  destruct (float_or_zero (p_debit r)); [|discriminate].
  destruct (float_or_zero (p_credit r)); [|discriminate].
  cbn [mbind res_bind]. by intros [= <-].
Qed.

Lemma build_all_is_ok (m : gmap string string) (company : Company.t)
    (rs : list prepared) :
  is_ok (build_all m company rs) = true <->
  forall r, r ∈ filter has_head rs -> is_ok (make_transaction m company r) = true.
Proof.
  induction rs as [|r rs IH]; cbn [build_all].
  - split; [|done]. intros _ r Hr. by apply not_elem_of_nil in Hr.
  - rewrite filter_cons. destruct (decide (has_head r)); [|apply IH].
    destruct (make_transaction m company r) as [t|msg] eqn:Et; cbn [mbind res_bind].
    + destruct (build_all m company rs) as [ts|msg]; cbn [mbind res_bind is_ok] in *.
      * split; [|done]. intros _ r' [->|Hr']%elem_of_cons.
        -- by rewrite Et.
        -- by apply IH.
      * split; [discriminate|]. intros Hall. apply IH.
        intros r' Hr'. apply Hall. by right.
    + split; [discriminate|]. intros Hall.
      specialize (Hall r (list_elem_of_here _ _)). by rewrite Et in Hall.
Qed.

(** C7, as the code has it. On every row that passes the row filter, a
    Debit or Credit cell that is missing or an empty text is stored as 0.0
    and a numeric cell as its value, and neither can fail the ingestion; a
    text cell is stored as the number [float] reads from it, and a text
    that [float] rejects, or a date, fails the ingestion of the whole file:
    a file is accepted exactly when it has the required columns and both
    amount cells of every kept row convert. *)
Theorem amounts_default_or_fail (df : DataFrame) (company : Company.t) (s : Session) :
  let df' := rename df in
  let rows_kept :=
    filter (fun row => not_na (prepare df' row) /\ has_head (prepare df' row))
           (rows df) in
  let debit_of row := float_or_zero (filled df' "debit" (Num 0) row) in
  let credit_of row := float_or_zero (filled df' "credit" (Num 0) row) in
  (is_ok (process_excel_data (Sheet df) company s) = true <->
   missing_columns df = [] /\
   forall row, row ∈ rows_kept ->
     is_ok (debit_of row) = true /\ is_ok (credit_of row) = true) /\
  (forall s' n, process_excel_data (Sheet df) company s = Ok (s', n) ->
     exists new, pending s' = pending s ++ new /\
       Forall2 (fun row t => debit_of row = Ok (Transaction.debit t) /\
                             credit_of row = Ok (Transaction.credit t))
               rows_kept new) /\
  (forall name row c, get df' name row = Some c ->
     float_or_zero (filled df' name (Num 0) row) =
     match c with
     | NaN => Ok 0%Z
     | Num x => Ok x
     | Text s =>
         if decide (s = "") then Ok 0%Z
         else match float_of_text s with
              | Some x => Ok x
              | None => Raise ("could not convert string to float: " +:+ repr_of_text s)
              end
     | Stamp _ =>
         Raise "float() argument must be a string or a real number, not 'Timestamp'"
     end).
Proof.
  intros df' rows_kept debit_of credit_of.
  pose proof (kept_rows df) as Hkept. fold df' rows_kept in Hkept.
  split; [|split].
  - rewrite process_excel_data_staged. unfold staged. cbn [read_excel mbind res_bind].
    destruct (decide (missing_columns df <> [])) as [Hm|Hm].
    + cbn. split; [discriminate|]. by intros [? _].
    + apply dec_stable in Hm.
      transitivity (is_ok (build_all (foldl first_pass ∅ (surviving df))
                             company (surviving df)) = true).
      { by destruct (build_all _ company (surviving df)). }
      rewrite build_all_is_ok. fold (kept df). split.
      * intros Hall. split; [done|]. intros row Hrow.
        assert (prepare df' row ∈ kept df) as Hr
          by (rewrite Hkept; by apply list_elem_of_fmap_2).
        apply (make_transaction_kept_ok df company _ Hr). by apply Hall.
      * intros [_ Hall] r Hr. apply (make_transaction_kept_ok df company r Hr).
        rewrite Hkept in Hr. apply list_elem_of_fmap in Hr as (row & -> & Hrow).
        by apply Hall.
  - intros s' n. rewrite process_excel_data_staged.
    destruct (staged (Sheet df) company) as [new|] eqn:Es; [|discriminate].
    intros [= <- <-]. exists new. split; [done|].
    apply staged_inv in Es as (df0 & [= <-] & _ & Hall).
    rewrite Hkept in Hall. apply Forall2_fmap_l in Hall.
    eapply Forall2_impl; [exact Hall|]. intros row t Ht.
    by apply make_transaction_amounts in Ht.
  - intros name row c Hc. unfold filled. rewrite Hc.
    destruct c as [|x|txt|d]; cbn; try done. by destruct txt.
Qed.

End AmountFacts.

(** ** The upload route *)

Section UploadFacts.

Context `{Library}.

Lemma storage_cases (failing : option storage_step) (step : storage_step) :
  storage failing step = Ok tt \/
  (failing = Some step /\ storage failing step = Raise "OperationalError").
Proof. unfold storage. destruct (decide _); auto. Qed.

(** What a successful [try] block leaves: the staged transactions of the
    file, flushed after the working transactions, and only files changed. *)
Lemma upload_try_ok (failing : option storage_step) (file : upload)
    (company : Company.t) (s s' : Session) (n : nat) :
  pending s = [] ->
  upload_try failing file company s = Ok (s', n) ->
  exists ts files',
    staged (u_file_data file) company = Ok ts /\ n = length ts /\
    committed s' =
    mkdb (companies (working s)) files'
         (transactions (working s) ++
          assign_ids (next_id (Transaction.id <$> transactions (working s))) ts).
Proof.
  intros Hp. unfold upload_try.
  destruct s as [c w p]. cbn [pending] in Hp. subst p.
  destruct w as [cs fs txs].
  destruct (file_of _ _) as [f|]; cbn [mbind res_bind].
  - destruct (storage_cases failing FlushDelete) as [->|[_ ->]]; [|discriminate].
    cbn [mbind res_bind].
    destruct (storage_cases failing FlushAdd) as [->|[_ ->]]; [|discriminate].
    cbn [mbind res_bind]. rewrite process_excel_data_staged.
    destruct (staged (u_file_data file) company) as [ts|]; [|discriminate].
    cbn [mbind res_bind].
    destruct (storage_cases failing FinalCommit) as [->|[_ ->]]; [|discriminate].
    cbn [mbind res_bind]. intros [= <- <-]. exists ts. eexists.
    split; [done|]. split; [done|]. cbn. rewrite !app_nil_r. reflexivity.
  - destruct (storage_cases failing FlushAdd) as [->|[_ ->]]; [|discriminate].
    cbn [mbind res_bind]. rewrite process_excel_data_staged.
    destruct (staged (u_file_data file) company) as [ts|]; [|discriminate].
    cbn [mbind res_bind].
    destruct (storage_cases failing FinalCommit) as [->|[_ ->]]; [|discriminate].
    cbn [mbind res_bind]. intros [= <- <-]. exists ts. eexists.
    split; [done|]. split; [done|]. cbn. rewrite !app_nil_r. reflexivity.
Qed.

(** Without a storage fault the [try] block succeeds when the file stages. *)
Lemma upload_try_staged (file : upload) (company : Company.t) (s : Session)
    (ts : list Transaction.t) :
  staged (u_file_data file) company = Ok ts ->
  exists s', upload_try None file company s = Ok (s', length ts).
Proof.
  intros Hs. unfold upload_try.
  assert (forall step, storage None step = Ok tt) as Hst by done.
  destruct (file_of _ _) as [f|];
    do 4 (rewrite ?Hst, ?process_excel_data_staged, ?Hs; cbn [mbind res_bind]);
    eauto.
Qed.

Lemma upload_try_missing (failing : option storage_step) (file : upload)
    (company : Company.t) (s : Session) (df : DataFrame) :
  u_file_data file = Sheet df -> missing_columns df <> [] ->
  exists msg, upload_try failing file company s = Raise msg /\
    (failing = None ->
     msg = "Failed to process Excel data: Missing required columns: "
             +:+ Str.join ", " (missing_columns df)).
Proof.
  intros Hf Hm.
  assert (forall s0, process_excel_data (u_file_data file) company s0 =
            Raise ("Failed to process Excel data: Missing required columns: "
                     +:+ Str.join ", " (missing_columns df))) as Hraise.
  { intros s0. rewrite Hf. unfold process_excel_data, process_excel_body.
    cbn [read_excel mbind res_bind]. by rewrite decide_True. }
  unfold upload_try.
  destruct (file_of _ _) as [f|]; cbn [mbind res_bind].
  - destruct (storage_cases failing FlushDelete) as [->|[-> ->]];
      [|eexists; split; [done|discriminate]].
    cbn [mbind res_bind].
    destruct (storage_cases failing FlushAdd) as [->|[-> ->]];
      [|eexists; split; [done|discriminate]].
    cbn [mbind res_bind]. rewrite Hraise. eexists. split; [done|done].
  - destruct (storage_cases failing FlushAdd) as [->|[-> ->]];
      [|eexists; split; [done|discriminate]].
    cbn [mbind res_bind]. rewrite Hraise. eexists. split; [done|done].
Qed.

Lemma upload_try_fault (failing : option storage_step) (file : upload)
    (company : Company.t) (s : Session) :
  failing = Some FlushAdd \/ failing = Some FinalCommit ->
  exists msg, upload_try failing file company s = Raise msg.
Proof.
  intros Hf. unfold upload_try.
  assert (storage failing FlushDelete = Ok tt) as Hd.
  { unfold storage. destruct Hf as [-> | ->]; by rewrite decide_False. }
  assert (forall (k : res (Session * nat)),
            exists msg, (_ ← storage failing FlushAdd;
                         '(s1, n) ← k;
                         _ ← storage failing FinalCommit;
                         Ok (commit s1, n)) = Raise msg) as Hrest.
  { intros k. destruct Hf as [-> | ->]; cbn; [eauto|].
    destruct k as [[s1 n]|msg]; cbn; eauto. }
  destruct (file_of _ _) as [f|]; cbn [mbind res_bind].
  - rewrite Hd. cbn [mbind res_bind]. apply Hrest.
  - apply Hrest.
Qed.

Lemma upload_try_unstaged (failing : option storage_step) (file : upload)
    (company : Company.t) (s : Session) :
  is_ok (staged (u_file_data file) company) = false ->
  exists msg, upload_try failing file company s = Raise msg.
Proof.
  intros Hs. unfold upload_try.
  assert (forall s0, exists msg,
            process_excel_data (u_file_data file) company s0 = Raise msg) as Hraise.
  { intros s0. rewrite process_excel_data_staged.
    destruct (staged _ _); [discriminate|eauto]. }
  assert (forall s0, exists msg,
            (_ ← storage failing FlushAdd;
             '(s1, n) ← process_excel_data (u_file_data file) company (flush s0);
             _ ← storage failing FinalCommit;
             Ok (commit s1, n)) = Raise msg) as Hrest.
  { intros s0.
    destruct (storage_cases failing FlushAdd) as [->|[_ ->]]; [|cbn; eauto].
    cbn [mbind res_bind]. destruct (Hraise (flush s0)) as [msg ->]. cbn. eauto. }
  destruct (file_of _ _) as [f|]; cbn [mbind res_bind].
  - destruct (storage_cases failing FlushDelete) as [->|[_ ->]]; [|cbn; eauto].
    cbn [mbind res_bind]. apply Hrest.
  - apply Hrest.
Qed.

(** The session and the company object with which the [try] block starts. *)
Lemma upload_company_unfold (failing : option storage_step) (now : Z)
    (company_name : string) (file : upload) (db : Database) :
  exists (s : Session) (company : Company.t),
    pending s = [] /\
    match company_by_name db company_name with
    | Some c =>
        committed s = db /\ Company.id company = Company.id c /\
        working s = touch (Company.id c) now (delete_transactions (Company.id c) db)
    | None =>
        company = Company.mk (next_id (Company.id <$> companies db)) company_name now /\
        committed s = add_company company db /\ working s = add_company company db
    end /\
    upload_company failing now company_name file db =
    match upload_try failing file company s with
    | Ok (s', n) => (committed s', Processed n company_name (Company.id company))
    | Raise msg => (committed s, Failed ("Error processing file: " +:+ msg))
    end.
Proof.
  unfold upload_company. cbn [begin working].
  destruct (company_by_name db company_name) as [c|].
  - exists (on_working (touch (Company.id c) now)
              (on_working (delete_transactions (Company.id c)) (begin db))),
           (Company.mk (Company.id c) (Company.name c) now).
    split; [done|]. split; [by cbn|].
    by destruct (upload_try _ _ _ _) as [[s' n]|msg].
  - set (company := Company.mk _ company_name now).
    exists (commit (on_working (add_company company) (begin db))), company.
    split; [done|]. split.
    + destruct db as [cs fs txs]. cbn. by rewrite app_nil_r.
    + by destruct (upload_try _ _ _ _) as [[s' n]|msg].
Qed.

(** C4, as the code has it. Whenever an upload fails, whether for missing
    required columns (the error then names them), an amount that does not
    convert, or a storage error, no transaction and no file record is added
    or lost: for a company that existed the database is exactly as before,
    the delete included; for a company name not stored before, the Company
    row committed before the file is read remains. *)
Theorem failed_upload_keeps_prior_records (failing : option storage_step)
    (now : Z) (company_name : string) (file : upload) (db : Database) :
  let result := upload_company failing now company_name file db in
  (forall msg, result.2 = Failed msg ->
     transactions result.1 = transactions db /\
     company_files result.1 = company_files db /\
     match company_by_name db company_name with
     | Some _ => result.1 = db
     | None =>
         companies result.1 =
         companies db ++
           [Company.mk (next_id (Company.id <$> companies db)) company_name now]
     end) /\
  (forall df, u_file_data file = Sheet df -> missing_columns df <> [] ->
     exists msg, result.2 = Failed msg /\
       (failing = None ->
        msg = "Error processing file: Failed to process Excel data: Missing required columns: "
                +:+ Str.join ", " (missing_columns df))) /\
  ((forall company, is_ok (staged (u_file_data file) company) = false) ->
     exists msg, result.2 = Failed msg) /\
  (failing = Some FlushAdd \/ failing = Some FinalCommit ->
     exists msg, result.2 = Failed msg).
Proof.
  intros result. subst result.
  destruct (upload_company_unfold failing now company_name file db)
    as (s & company & Hp & Hs & ->).
  split; [|split; [|split]].
  - intros msg. destruct (upload_try failing file company s) as [[s' n]|m];
      [discriminate|]. intros _. cbn [fst].
    destruct (company_by_name db company_name) as [c|].
    + destruct Hs as (-> & _). done.
    + destruct Hs as (-> & -> & _). done.
  - intros df Hf Hm.
    destruct (upload_try_missing failing file company s df Hf Hm) as (m & -> & Hmsg).
    eexists. split; [reflexivity|]. intros Hn. by rewrite (Hmsg Hn).
  - intros Hbad.
    destruct (upload_try_unstaged failing file company s (Hbad company)) as [m ->].
    eauto.
  - intros Hf. destruct (upload_try_fault failing file company s Hf) as [m ->].
    eauto.
Qed.

End UploadFacts.

(** ** Uploading the same file again *)

Lemma next_id_fresh (ids : list Z) (x : Z) : x ∈ ids -> (x < next_id ids)%Z.
Proof.
  unfold next_id. induction ids as [|y ids IH]; intros Hx.
  - by apply not_elem_of_nil in Hx.
  - apply elem_of_cons in Hx as [->|Hx]; cbn [foldr]; [lia|].
    specialize (IH Hx). lia.
Qed.

Lemma assign_ids_company (start : Z) (ts : list Transaction.t) (cid : Z) :
  Forall (fun t => Transaction.company_id t = cid) ts ->
  Forall (fun t => Transaction.company_id t = cid) (assign_ids start ts).
Proof.
  intros Hall. revert start.
  induction Hall as [|t ts Ht Hall IH]; intros start; cbn [assign_ids];
    constructor; [done|apply IH].
Qed.

Lemma assign_ids_length (start : Z) (ts : list Transaction.t) :
  length (assign_ids start ts) = length ts.
Proof.
  revert start. induction ts as [|t ts IH]; intros start; cbn [assign_ids length];
    [done|]. by rewrite IH.
Qed.

Lemma filter_all {A} (P : A -> Prop) `{!forall x, Decision (P x)} (l : list A) :
  Forall P l -> filter P l = l.
Proof.
  induction 1 as [|x l Hx Hl IH]; [done|].
  by rewrite filter_cons, decide_True, IH.
Qed.

Lemma filter_none {A} (P : A -> Prop) `{!forall x, Decision (P x)} (l : list A) :
  Forall (fun x => ~ P x) l -> filter P l = [].
Proof.
  induction 1 as [|x l Hx Hl IH]; [done|].
  by rewrite filter_cons, decide_False, IH.
Qed.

Lemma head_filter_fmap {A} (f : A -> A) (P : A -> Prop)
    `{!forall x, Decision (P x)} (l : list A) :
  (forall x, P (f x) <-> P x) ->
  head (filter P (f <$> l)) = f <$> head (filter P l).
Proof.
  intros HP. rewrite filter_fmap_list.
  rewrite (list_filter_iff (fun x => P (f x)) P l HP).
  by destruct (filter P l).
Qed.

Lemma NoDup_fmap_eq {A B} (f : A -> B) (l : list A) (x y : A) :
  NoDup (f <$> l) -> x ∈ l -> y ∈ l -> f x = f y -> x = y.
Proof.
  induction l as [|a l IH]; intros Hnd Hx Hy E; [by apply not_elem_of_nil in Hx|].
  cbn [fmap list_fmap] in Hnd. apply NoDup_cons in Hnd as [Hnin Hnd].
  apply elem_of_cons in Hx as [->|Hx]; apply elem_of_cons in Hy as [->|Hy].
  - done.
  - destruct Hnin. rewrite E. by apply list_elem_of_fmap_2.
  - destruct Hnin. rewrite <- E. by apply list_elem_of_fmap_2.
  - by apply IH.
Qed.

Lemma NoDup_fmap_filter {A B} (f : A -> B) (P : A -> Prop)
    `{!forall x, Decision (P x)} (l : list A) :
  NoDup (f <$> l) -> NoDup (f <$> filter P l).
Proof.
  intros Hnd. eapply sublist_NoDup; [exact Hnd|].
  apply fmap_sublist, sublist_filter.
Qed.

Lemma NoDup_snoc_fresh (ids : list Z) : NoDup ids -> NoDup (ids ++ [next_id ids]).
Proof.
  intros Hnd. apply NoDup_app. split; [done|]. split; [|apply NoDup_singleton].
  intros x Hx ->%list_elem_of_singleton. apply next_id_fresh in Hx. lia.
Qed.

Lemma assign_ids_Forall (P : Transaction.t -> Prop) (start : Z)
    (ts : list Transaction.t) :
  (forall i t, P t -> P (set_id i t)) ->
  Forall P ts -> Forall P (assign_ids start ts).
Proof.
  intros Hset Hall. revert start.
  induction Hall as [|t ts Ht Hall IH]; intros start; cbn [assign_ids];
    constructor; [by apply Hset|apply IH].
Qed.

Lemma filter_iff_elem_of {A} (P1 P2 : A -> Prop)
    `{!forall x, Decision (P1 x)} `{!forall x, Decision (P2 x)} (l : list A) :
  (forall x, x ∈ l -> P1 x <-> P2 x) -> filter P1 l = filter P2 l.
Proof.
  induction l as [|a l IH]; intros Hiff; [done|].
  rewrite !filter_cons, IH by (intros x Hx; apply Hiff; by right).
  destruct (decide (P1 a)) as [H1|H1], (decide (P2 a)) as [H2|H2]; try done.
  - destruct H2. by apply (Hiff a (list_elem_of_here _ _)).
  - destruct H1. by apply (Hiff a (list_elem_of_here _ _)).
Qed.

Lemma touch_ids (company_id now : Z) (db : Database) :
  Company.id <$> companies (touch company_id now db) = Company.id <$> companies db.
Proof.
  unfold touch. cbn [companies]. rewrite <- list_fmap_compose.
  apply list_fmap_ext. intros i c _. cbn. by destruct (decide _).
Qed.

Lemma touch_names (company_id now : Z) (db : Database) :
  Company.name <$> companies (touch company_id now db) = Company.name <$> companies db.
Proof.
  unfold touch. cbn [companies]. rewrite <- list_fmap_compose.
  apply list_fmap_ext. intros i c _. cbn. by destruct (decide _).
Qed.

Lemma company_by_name_known (db : Database) (company_name : string) (c : Company.t) :
  company_by_name db company_name = Some c -> known_company db (Company.id c).
Proof.
  intros Hc%head_Some_elem_of. apply list_elem_of_filter in Hc as [_ Hc].
  unfold known_company. by apply list_elem_of_fmap_2.
Qed.

Lemma company_by_name_None (db : Database) (company_name : string) :
  company_by_name db company_name = None ->
  company_name ∉ Company.name <$> companies db.
Proof.
  intros Hnone%head_None (c & -> & Hc)%list_elem_of_fmap.
  assert (c ∈ filter (fun c' => Company.name c' = Company.name c) (companies db))
    as Hin by (by apply list_elem_of_filter).
  rewrite Hnone in Hin. by apply not_elem_of_nil in Hin.
Qed.

Lemma assign_ids_heads (start : Z) (ts : list Transaction.t) :
  Transaction.head_of_account <$> assign_ids start ts =
  Transaction.head_of_account <$> ts.
Proof.
  revert start. induction ts as [|t ts IH]; intros start; [done|].
  cbn [assign_ids fmap list_fmap]. by rewrite IH.
Qed.

Section UploadOutcome.

Context `{Library}.

Lemma staged_company_id (file_data : workbook) (company : Company.t)
    (ts : list Transaction.t) :
  staged file_data company = Ok ts ->
  Forall (fun t => Transaction.company_id t = Company.id company) ts.
Proof.
  intros (df & _ & _ & Hall)%staged_inv.
  induction Hall as [|r t rs ts Ht Hall IH]; constructor; [|done].
  unfold make_transaction in Ht. destruct (_ !! _); [|discriminate].
  destruct (p_date r); [|discriminate].
  destruct (float_or_zero (p_debit r)); [|discriminate].
  destruct (float_or_zero (p_credit r)); [|discriminate].
  cbn [mbind res_bind] in Ht. by injection Ht as <-.
Qed.

(** The files a successful [try] block leaves: the company's former file is
    gone and the uploaded one is the last. *)
Lemma upload_try_ok_files (failing : option storage_step) (file : upload)
    (company : Company.t) (s s' : Session) (n : nat) :
  pending s = [] ->
  upload_try failing file company s = Ok (s', n) ->
  let fs := company_files (working s) in
  let fs1 :=
    match file_of (working s) (Company.id company) with
    | Some f => filter (fun g => CompanyFile.id g <> CompanyFile.id f) fs
    | None => fs
    end in
  company_files (committed s') =
  fs1 ++ [CompanyFile.mk (next_id (CompanyFile.id <$> fs1))
            (u_secure_filename file) (u_file_data file)
            (default default_content_type
               (c ← u_content_type file; if decide (c = "") then None else Some c))
            (Company.id company)].
Proof.
  intros Hp. unfold upload_try.
  destruct s as [c w p]. cbn [pending] in Hp. subst p.
  destruct w as [cs fs txs]. cbn [working company_files].
  destruct (file_of _ _) as [f|]; cbn [mbind res_bind].
  - destruct (storage_cases failing FlushDelete) as [->|[_ ->]]; [|discriminate].
    cbn [mbind res_bind].
    destruct (storage_cases failing FlushAdd) as [->|[_ ->]]; [|discriminate].
    cbn [mbind res_bind]. rewrite process_excel_data_staged.
    destruct (staged (u_file_data file) company) as [ts|]; [|discriminate].
    cbn [mbind res_bind].
    destruct (storage_cases failing FinalCommit) as [->|[_ ->]]; [|discriminate].
    cbn [mbind res_bind]. intros [= <- <-]. reflexivity.
  - destruct (storage_cases failing FlushAdd) as [->|[_ ->]]; [|discriminate].
    cbn [mbind res_bind]. rewrite process_excel_data_staged.
    destruct (staged (u_file_data file) company) as [ts|]; [|discriminate].
    cbn [mbind res_bind].
    destruct (storage_cases failing FinalCommit) as [->|[_ ->]]; [|discriminate].
    cbn [mbind res_bind]. intros [= <- <-]. reflexivity.
Qed.

(** No other file of the company is left once its first file is deleted,
    when a company has at most one file. *)
Lemma no_file_left (db : Database) (company_id : Z) :
  NoDup (CompanyFile.company_id <$> company_files db) ->
  company_id ∉
  CompanyFile.company_id <$>
    match file_of db company_id with
    | Some f => filter (fun g => CompanyFile.id g <> CompanyFile.id f) (company_files db)
    | None => company_files db
    end.
Proof.
  intros Hnd (g & Hg & Hin)%list_elem_of_fmap.
  destruct (file_of db company_id) as [f|] eqn:Ef; unfold file_of in Ef.
  - apply list_elem_of_filter in Hin as [Hid Hin].
    apply head_Some_elem_of, list_elem_of_filter in Ef as [Hf Hfin].
    assert (g = f) as -> by (eapply NoDup_fmap_eq; eauto; congruence). done.
  - apply head_None in Ef.
    assert (g ∈ filter (fun f => CompanyFile.company_id f = company_id)
                       (company_files db)) as Hg' by (by apply list_elem_of_filter).
    rewrite Ef in Hg'. by apply not_elem_of_nil in Hg'.
Qed.

(** What a successful upload leaves in the transactions table: the rows of
    the other companies, then the staged rows under fresh ids. *)
Lemma upload_ok_transactions (failing : option storage_step) (now : Z)
    (company_name : string) (file : upload) (db db' : Database)
    (n : nat) (company_id : Z) :
  foreign_keys db ->
  upload_company failing now company_name file db =
    (db', Processed n company_name company_id) ->
  exists ts,
    staged (u_file_data file) (Company.mk company_id company_name now) = Ok ts /\
    n = length ts /\
    Forall (fun t => Transaction.company_id t = company_id) ts /\
    let others :=
      filter (fun t => Transaction.company_id t <> company_id) (transactions db) in
    transactions db' =
    others ++ assign_ids (next_id (Transaction.id <$> others)) ts.
Proof.
  intros Hfk Hup.
  destruct (upload_company_unfold failing now company_name file db)
    as (s & company & Hp & Hs & Eup).
  rewrite Eup in Hup.
  destruct (upload_try failing file company s) as [[s' n']|] eqn:Etry;
    [|discriminate].
  injection Hup as <- <- <-.
  destruct (upload_try_ok _ _ _ _ _ _ Hp Etry) as (ts & files1 & Hst & -> & Hdb1).
  pose proof (staged_company_id _ _ _ Hst) as Hcid.
  exists ts. split; [rewrite <- Hst; by apply staged_company|].
  split; [done|]. split; [done|]. cbn zeta. rewrite Hdb1. cbn [transactions].
  assert (transactions (working s) =
          filter (fun t => Transaction.company_id t <> Company.id company)
                 (transactions db)) as ->; [|done].
  destruct (company_by_name db company_name) as [c|].
  - destruct Hs as (_ & Hid & ->). cbn. by rewrite Hid.
  - destruct Hs as (Hc & _ & ->). cbn. symmetry. apply filter_all.
    apply Forall_forall. intros t Ht E.
    pose proof (Hfk t Ht) as Hk. unfold known_company in Hk.
    apply next_id_fresh in Hk. rewrite Hc in E. cbn in E. lia.
Qed.

(** The company's rows after a successful upload are the staged ones, and
    they follow every other row. *)
Lemma upload_ok_own (failing : option storage_step) (now : Z)
    (company_name : string) (file : upload) (db db' : Database)
    (n : nat) (company_id : Z) :
  foreign_keys db ->
  upload_company failing now company_name file db =
    (db', Processed n company_name company_id) ->
  exists ts start,
    staged (u_file_data file) (Company.mk company_id company_name now) = Ok ts /\
    n = length ts /\
    filter (fun t => Transaction.company_id t = company_id) (transactions db') =
    assign_ids start ts.
Proof.
  intros Hfk Hup.
  destruct (upload_ok_transactions _ _ _ _ _ _ _ _ Hfk Hup)
    as (ts & Hst & Hn & Hcid & Hdb').
  cbn zeta in Hdb'. exists ts. eexists. split; [done|]. split; [done|].
  rewrite Hdb', filter_app.
  rewrite filter_none by (apply Forall_forall; by intros t [? _]%list_elem_of_filter).
  cbn [app]. apply filter_all. by apply assign_ids_company.
Qed.

(** The files table after a successful upload: the file of the company is
    gone and the uploaded one is the last. *)
Lemma upload_ok_files (failing : option storage_step) (now : Z)
    (company_name : string) (file : upload) (db db' : Database)
    (n : nat) (company_id : Z) :
  upload_company failing now company_name file db =
    (db', Processed n company_name company_id) ->
  let fs1 :=
    match file_of db company_id with
    | Some f => filter (fun g => CompanyFile.id g <> CompanyFile.id f) (company_files db)
    | None => company_files db
    end in
  company_files db' =
  fs1 ++ [CompanyFile.mk (next_id (CompanyFile.id <$> fs1))
            (u_secure_filename file) (u_file_data file)
            (default default_content_type
               (c ← u_content_type file; if decide (c = "") then None else Some c))
            company_id].
Proof.
  intros Hup.
  destruct (upload_company_unfold failing now company_name file db)
    as (s & company & Hp & Hs & Eup).
  rewrite Eup in Hup.
  destruct (upload_try failing file company s) as [[s' n']|] eqn:Etry;
    [|discriminate].
  injection Hup as <- <- <-.
  pose proof (upload_try_ok_files _ _ _ _ _ _ Hp Etry) as Hfiles.
  cbn zeta in Hfiles |- *. rewrite Hfiles.
  assert (company_files (working s) = company_files db /\
          file_of (working s) (Company.id company) = file_of db (Company.id company))
    as [-> ->]; [|done].
  destruct (company_by_name db company_name) as [c|].
  - by destruct Hs as (_ & _ & ->).
  - by destruct Hs as (_ & _ & ->).
Qed.

(** Under the keys of the schema, deleting the file of a company leaves the
    files of the other companies. *)
Lemma files_of_others (db : Database) (company_id : Z) :
  keys_unique db ->
  match file_of db company_id with
  | Some f => filter (fun g => CompanyFile.id g <> CompanyFile.id f) (company_files db)
  | None => company_files db
  end =
  filter (fun g => CompanyFile.company_id g <> company_id) (company_files db).
Proof.
  intros [_ _ _ Hfi Hfc].
  destruct (file_of db company_id) as [f|] eqn:Ef; unfold file_of in Ef.
  - apply head_Some_elem_of, list_elem_of_filter in Ef as [Hf Hfin].
    apply filter_iff_elem_of. intros g Hg. split.
    + intros Hid Hc. apply Hid. f_equal.
      eapply (NoDup_fmap_eq CompanyFile.company_id); eauto. congruence.
    + intros Hc Hid. apply Hc. rewrite <- Hf. f_equal.
      by eapply (NoDup_fmap_eq CompanyFile.id).
  - apply head_None in Ef. symmetry. apply filter_all, Forall_forall.
    intros g Hg Hc.
    assert (g ∈ filter (fun f => CompanyFile.company_id f = company_id)
                       (company_files db)) as Hin by (by apply list_elem_of_filter).
    rewrite Ef in Hin. by apply not_elem_of_nil in Hin.
Qed.

End UploadOutcome.

Section Reupload.

Context `{Library}.

(** After a successful upload the company is found under its name, with
    the id the upload reports. *)
Lemma uploaded_company_found (failing : option storage_step) (now : Z)
    (company_name : string) (file : upload) (db db' : Database)
    (n : nat) (company_id : Z) :
  upload_company failing now company_name file db =
    (db', Processed n company_name company_id) ->
  exists c, company_by_name db' company_name = Some c /\ Company.id c = company_id.
Proof.
  intros Hup.
  destruct (upload_company_unfold failing now company_name file db)
    as (s & company & Hp & Hs & Eup).
  rewrite Eup in Hup.
  destruct (upload_try failing file company s) as [[s' n']|] eqn:Etry;
    [|discriminate].
  injection Hup as <- <- <-.
  destruct (upload_try_ok _ _ _ _ _ _ Hp Etry) as (ts & files1 & _ & _ & Hdb1).
  unfold company_by_name. rewrite Hdb1. cbn [companies].
  destruct (company_by_name db company_name) as [c|] eqn:Ec.
  - destruct Hs as (_ & Hid & ->). cbn [touch companies delete_transactions].
    rewrite head_filter_fmap.
    + unfold company_by_name in Ec. rewrite Ec. eexists. split; [done|].
      cbn. destruct (decide _); cbn; congruence.
    + intros x. by destruct (decide _).
  - destruct Hs as (Hc & _ & ->). cbn [add_company companies].
    rewrite filter_app. unfold company_by_name in Ec.
    apply head_None in Ec. rewrite Ec. cbn [app].
    rewrite filter_cons, decide_True by (by rewrite Hc).
    eexists. split; [done|]. done.
Qed.

(** C6. When an upload of a file succeeds, with the foreign key of the
    transactions intact beforehand, uploading the same file again under the
    same company name succeeds with the same count and leaves the same
    transactions: the company's earlier transactions are deleted before the
    new ones are inserted, so they are replaced and not doubled. Under the
    keys of the schema the same holds of the file: after the first upload
    the company's earlier file is gone and the uploaded one is its only
    file, and the second upload deletes that file and stores it again, so
    that it changes nothing but the company's [updated_at]. *)
Theorem reupload_is_idempotent (failing : option storage_step) (now1 now2 : Z)
    (company_name : string) (file : upload) (db db1 : Database)
    (n : nat) (company_id : Z) :
  foreign_keys db ->
  upload_company failing now1 company_name file db =
    (db1, Processed n company_name company_id) ->
  exists db2,
    upload_company None now2 company_name file db1 =
      (db2, Processed n company_name company_id) /\
    transactions db2 = transactions db1 /\
    length (filter (fun t => Transaction.company_id t = company_id)
                   (transactions db2)) = n /\
    (keys_unique db ->
     db2 = touch company_id now2 db1 /\
     exists f,
       company_files db1 =
         filter (fun g => CompanyFile.company_id g <> company_id) (company_files db)
           ++ [f] /\
       CompanyFile.company_id f = company_id /\
       CompanyFile.file_data f = u_file_data file /\
       CompanyFile.filename f = u_secure_filename file /\
       filter (fun g => CompanyFile.company_id g = company_id) (company_files db2)
         = [f]).
Proof.
  intros Hfk Hup.
  destruct (upload_ok_transactions _ _ _ _ _ _ _ _ Hfk Hup)
    as (ts & Hst & Hn & Hcid & Hdb1).
  cbn zeta in Hdb1.
  set (others := filter (fun t => Transaction.company_id t <> company_id)
                        (transactions db)) in *.
  destruct (uploaded_company_found _ _ _ _ _ _ _ _ Hup) as (c1 & Hfind & Hid1).
  (* the second upload *)
  destruct (upload_company_unfold None now2 company_name file db1)
    as (s2 & company2 & Hp2 & Hs2 & Eup2).
  rewrite Hfind in Hs2. destruct Hs2 as (Hc2 & Hid2 & Hw2).
  rewrite Hid1 in Hid2, Hw2.
  assert (staged (u_file_data file) company2 = Ok ts) as Hst2.
  { rewrite <- Hst. by apply staged_company. }
  destruct (upload_try_staged file company2 s2 ts Hst2) as (s2' & Etry2).
  destruct (upload_try_ok _ _ _ _ _ _ Hp2 Etry2) as (ts2 & files2 & Hst2' & _ & Hdb2).
  assert (ts2 = ts) as -> by congruence.
  assert (transactions (working s2) = others) as HT2.
  { rewrite Hw2. cbn [touch delete_transactions transactions]. rewrite Hdb1.
    rewrite filter_app, filter_all
      by (apply Forall_forall; by intros t [? _]%list_elem_of_filter).
    rewrite filter_none; [by rewrite app_nil_r|].
    eapply Forall_impl; [apply assign_ids_company, Hcid|]. cbn. tauto. }
  assert (transactions (committed s2') = transactions db1) as Htx.
  { rewrite Hdb2, Hdb1, HT2. done. }
  assert (upload_company None now2 company_name file db1 =
          (committed s2', Processed n company_name company_id)) as Eup2'.
  { rewrite Eup2, Etry2, Hid2, Hn. done. }
  exists (committed s2'). split; [exact Eup2'|]. split; [exact Htx|]. split.
  { rewrite Htx, Hdb1, filter_app, filter_none.
    - cbn [app]. rewrite filter_all by (by apply assign_ids_company).
      rewrite assign_ids_length. done.
    - apply Forall_forall. intros t [Ht _]%list_elem_of_filter. tauto. }
  intros Hkeys.
  pose proof (upload_ok_files _ _ _ _ _ _ _ _ Hup) as Hf1. cbn zeta in Hf1.
  rewrite (files_of_others db company_id Hkeys) in Hf1.
  set (fs := filter (fun g => CompanyFile.company_id g <> company_id)
                    (company_files db)) in *.
  set (f := CompanyFile.mk (next_id (CompanyFile.id <$> fs))
              (u_secure_filename file) (u_file_data file)
              (default default_content_type
                 (c ← u_content_type file; if decide (c = "") then None else Some c))
              company_id) in *.
  assert (filter (fun g => CompanyFile.company_id g = company_id) fs = []) as Hnone.
  { apply filter_none, Forall_forall. by intros g [? _]%list_elem_of_filter. }
  assert (file_of db1 company_id = Some f) as Hfile.
  { unfold file_of. rewrite Hf1, filter_app, Hnone. cbn [app].
    by rewrite filter_cons, decide_True. }
  assert (filter (fun g => CompanyFile.id g <> CompanyFile.id f) (company_files db1)
          = fs) as Hrest.
  { rewrite Hf1, filter_app, filter_cons, decide_False, filter_nil, app_nil_r
      by (intros Hne; by apply Hne).
    apply filter_all, Forall_forall. intros g Hg E.
    assert (CompanyFile.id g < next_id (CompanyFile.id <$> fs))%Z as Hlt
      by (apply next_id_fresh; by apply list_elem_of_fmap_2).
    rewrite E in Hlt. cbn in Hlt. lia. }
  pose proof (upload_ok_files _ _ _ _ _ _ _ _ Eup2') as Hf2. cbn zeta in Hf2.
  rewrite Hfile, Hrest in Hf2. fold f in Hf2.
  split.
  - rewrite Hdb2 in Hf2 |- *. cbn [company_files] in Hf2. subst files2.
    rewrite HT2, Hw2. unfold touch, delete_transactions.
    cbn [companies company_files transactions].
    f_equal; [by rewrite Hf1|by rewrite Hdb1].
  - exists f. split; [exact Hf1|]. split; [done|]. split; [done|]. split; [done|].
    rewrite Hf2, filter_app, Hnone. cbn [app].
    by rewrite filter_cons, decide_True.
Qed.

(** The spelling under which each row of an accepted file is stored. *)
Lemma upload_ok_spelling (failing : option storage_step) (now : Z)
    (company_name : string) (file : upload) (db db' : Database)
    (n : nat) (company_id : Z) :
  foreign_keys db ->
  upload_company failing now company_name file db =
    (db', Processed n company_name company_id) ->
  exists df : DataFrame,
    u_file_data file = Sheet df /\
    let trimmed :=
      (fun r => Str.strip (py_str (p_head_of_account r))) <$> kept df in
    let stored :=
      filter (fun t => Transaction.company_id t = company_id) (transactions db') in
    Forall2 (fun h t =>
               head (filter (fun h' => Str.upper h' = Str.upper h) trimmed) =
               Some (Transaction.head_of_account t))
            trimmed stored.
Proof.
  intros Hfk Hup.
  destruct (upload_ok_own _ _ _ _ _ _ _ _ Hfk Hup) as (ts & start & Hst & _ & Hown).
  destruct (staged_first_spelling _ _ _ Hst) as (df & Hdf & Hfirst).
  exists df. split; [exact Hdf|]. intros trimmed stored. subst stored.
  rewrite Hown. subst trimmed. apply Forall2_fmap_l.
  assert (Forall2
            (fun r h =>
               head (filter (fun h' => Str.upper h' =
                               Str.upper (Str.strip (py_str (p_head_of_account r))))
                       ((fun r => Str.strip (py_str (p_head_of_account r)))
                          <$> kept df)) = Some h)
            (kept df) (Transaction.head_of_account <$> assign_ids start ts)) as Hh.
  { rewrite assign_ids_heads. apply Forall2_fmap_r.
    eapply Forall2_impl; [exact Hfirst|]. intros r t (first & Hhead & Et).
    cbn. rewrite Et, filter_fmap_list. unfold head_of in Hhead |- *.
    destruct (filter _ (kept df)) as [|x l]; [discriminate|].
    cbn in Hhead |- *. by injection Hhead as ->. }
  by apply Forall2_fmap_r in Hh.
Qed.

(** Two stored heads of the company with one upper-case form are one. *)
Lemma upload_ok_canonical (failing : option storage_step) (now : Z)
    (company_name : string) (file : upload) (db db' : Database)
    (n : nat) (company_id : Z) (t1 t2 : Transaction.t) :
  foreign_keys db ->
  upload_company failing now company_name file db =
    (db', Processed n company_name company_id) ->
  t1 ∈ transactions db' -> Transaction.company_id t1 = company_id ->
  t2 ∈ transactions db' -> Transaction.company_id t2 = company_id ->
  Str.upper (Transaction.head_of_account t1) =
  Str.upper (Transaction.head_of_account t2) ->
  Transaction.head_of_account t1 = Transaction.head_of_account t2.
Proof.
  intros Hfk Hup H1 C1 H2 C2 E.
  destruct (upload_ok_spelling _ _ _ _ _ _ _ _ Hfk Hup) as (df & _ & Hspell).
  cbn zeta in Hspell.
  set (trimmed := (fun r => Str.strip (py_str (p_head_of_account r))) <$> kept df) in *.
  set (stored := filter (fun t => Transaction.company_id t = company_id)
                        (transactions db')) in *.
  assert (forall t, t ∈ stored ->
            head (filter (fun h' => Str.upper h' =
                                    Str.upper (Transaction.head_of_account t)) trimmed)
            = Some (Transaction.head_of_account t)) as Hkey.
  { intros t (i & Hi)%list_elem_of_lookup_1.
    destruct (Forall2_lookup_r _ _ _ _ _ Hspell Hi) as (h & _ & Hh).
    pose proof (head_Some_elem_of _ _ Hh) as Hin.
    apply list_elem_of_filter in Hin as [Hup' _]. by rewrite Hup'. }
  assert (t1 ∈ stored) as S1 by (by apply list_elem_of_filter).
  assert (t2 ∈ stored) as S2 by (by apply list_elem_of_filter).
  pose proof (Hkey t1 S1) as K1. pose proof (Hkey t2 S2) as K2.
  rewrite E in K1. congruence.
Qed.


End Reupload.

(** ** The foreign key is an invariant of the upload *)

Section ForeignKeys.

Context `{Library}.

(** X15. The foreign key is an invariant of the upload: whatever the
    outcome, an upload into a database whose transactions all belong to
    stored companies leaves such a database. *)
Lemma upload_keeps_foreign_keys (failing : option storage_step) (now : Z)
    (company_name : string) (file : upload) (db : Database) :
  foreign_keys db ->
  foreign_keys (upload_company failing now company_name file db).1.
Proof.
  intros Hfk.
  destruct (upload_company_unfold failing now company_name file db)
    as (s & company & Hp & Hs & ->).
  destruct (upload_try failing file company s) as [[s' n]|msg] eqn:Etry; cbn [fst].
  - destruct (upload_try_ok _ _ _ _ _ _ Hp Etry) as (ts & files' & Hst & _ & ->).
    pose proof (staged_company_id _ _ _ Hst) as Hcid.
    intros t. unfold known_company. cbn [transactions companies].
    intros [Ht|Ht]%elem_of_app.
    + destruct (company_by_name db company_name) as [c|].
      * destruct Hs as (_ & _ & Hw). rewrite Hw in Ht |- *. rewrite touch_ids.
        cbn in Ht. apply list_elem_of_filter in Ht as [_ Ht]. by apply Hfk.
      * destruct Hs as (_ & _ & Hw). rewrite Hw in Ht |- *. cbn in Ht |- *.
        rewrite fmap_app. apply elem_of_app. left. by apply Hfk.
    + assert (Transaction.company_id t = Company.id company) as ->.
      { pose proof (assign_ids_company
                      (next_id (Transaction.id <$> transactions (working s)))
                      _ _ Hcid) as Hall.
        rewrite Forall_forall in Hall. by apply Hall. }
      destruct (company_by_name db company_name) as [c|] eqn:Ec.
      * destruct Hs as (_ & -> & ->). rewrite touch_ids. cbn [companies delete_transactions].
        by eapply company_by_name_known.
      * destruct Hs as (_ & _ & ->). cbn. rewrite fmap_app. apply elem_of_app.
        right. cbn. left.
  - destruct (company_by_name db company_name) as [c|].
    + destruct Hs as (-> & _). exact Hfk.
    + destruct Hs as (_ & -> & _). intros t Ht. unfold known_company. cbn in Ht |- *.
      rewrite fmap_app. apply elem_of_app. left. by apply Hfk.
Qed.

End ForeignKeys.

(** * Worked instances *)

Import Sample.

Section ClaimInstances.

#[local] Existing Instance Reference.library.

Lemma trial_balance_rejects_malformed_period_witness :
  (exists msg, get_trial_balance_data stored 1 "2024" = Raise msg) /\
  (exists msg, get_trial_balance_data stored 1 "March 2024" = Raise msg) /\
  (exists msg, get_trial_balance_data stored 1 "03-2024" = Raise msg) /\
  (exists msg, get_trial_balance_data stored 1 "03/20x4" = Raise msg).
Proof.
  repeat split; apply trial_balance_rejects_malformed_period;
    try discriminate;
    intros (month & year & m & y & Hs & Hm & Hy); vm_compute in Hs;
    try discriminate.
  injection Hs as <- <-. vm_compute in Hy. discriminate.
Defined.

Lemma stored_foreign_keys : foreign_keys stored.
Proof.
  intros t Ht. unfold known_company.
  repeat (apply elem_of_cons in Ht as [->|Ht]); try (by left).
  by apply not_elem_of_nil in Ht.
Defined.






Lemma stored_keys_unique : keys_unique stored.
Proof.
  constructor; cbn; repeat (apply NoDup_cons; split;
    [intros Hin; repeat (apply elem_of_cons in Hin as [Hin|Hin]; try discriminate);
     by apply not_elem_of_nil in Hin|]); apply NoDup_nil_2.
Defined.

Lemma reupload_is_idempotent_witness :
  foreign_keys stored /\ keys_unique stored /\
  exists db1 db2,
    upload_company None 7 "Acme" (file_of_frame books) stored =
      (db1, Processed 4 "Acme" 1) /\
    upload_company None 8 "Acme" (file_of_frame books) db1 =
      (db2, Processed 4 "Acme" 1) /\
    transactions db2 = transactions db1 /\
    length (filter (fun t => Transaction.company_id t = 1%Z) (transactions db2)) = 4%nat /\
    db2 = touch 1 8 db1 /\
    CompanyFile.filename <$> company_files db1 = ["books.xlsx"].
Proof.
  split; [exact stored_foreign_keys|]. split; [exact stored_keys_unique|].
  assert (exists db1, upload_company None 7 "Acme" (file_of_frame books) stored =
                      (db1, Processed 4 "Acme" 1) /\
            CompanyFile.filename <$> company_files db1 = ["books.xlsx"])
    as (db1 & E & Hfiles)
    by (eexists; split; vm_compute; reflexivity).
  destruct (reupload_is_idempotent None 7 8 "Acme" (file_of_frame books) stored
              db1 4 1 stored_foreign_keys E) as (db2 & E2 & Ht & Hn & Hkeys).
  destruct (Hkeys stored_keys_unique) as (Htouch & _).
  exists db1, db2. auto 8.
Defined.



Lemma failed_upload_keeps_prior_records_witness :
  (upload_company None 7 "Acme" (file_of_frame no_credit) stored).1 = stored.
Proof.
  destruct (failed_upload_keeps_prior_records None 7 "Acme"
              (file_of_frame no_credit) stored) as (Hstate & _).
  destruct (Hstate _ eq_refl) as (_ & _ & Hsame). exact Hsame.
Defined.

Lemma amounts_default_or_fail_witness :
  exists s' new,
    process_excel_data (Sheet books) acme (begin empty) = Ok (s', 4%nat) /\
    pending s' = pending (begin empty) ++ new.
Proof.
  assert (exists s', process_excel_data (Sheet books) acme (begin empty) =
                     Ok (s', 4%nat)) as [s' E]
    by (eexists; vm_compute; reflexivity).
  destruct (amounts_default_or_fail books acme (begin empty)) as (_ & Hstored & _).
  destruct (Hstored s' 4%nat E) as (new & Hp & _).
  exists s', new. split; [exact E|exact Hp].
Defined.

(** The testable properties of the specification, on the sample books. *)

Example ledger_running_balance :
  l_balance <$> get_ledger_data uploaded mar1 1 "cash" = [100; 60; 65]%Z.
Proof. vm_compute. reflexivity. Qed.

Example case_fold_merge :
  distinct_heads (transactions uploaded) = ["Cash"; "Sales"].
Proof. vm_compute. reflexivity. Qed.

Example trial_balance_reconciliation :
  get_trial_balance_data stored 1 "all" =
  Ok [mktb "Cash" 500 0 false false; mktb "Sales" 0 480 false false;
      mktb "TOTAL" 500 480 true false; mktb "DIFFERENCE" 20 0 false true].
Proof. vm_compute. reflexivity. Qed.

Example period_filter :
  get_trial_balance_data uploaded 1 "03/2024" =
  Ok [mktb "Cash" 5 0 false false; mktb "Sales" 0 60 false false;
      mktb "TOTAL" 5 60 true false; mktb "DIFFERENCE" 0 55 false true].
Proof. vm_compute. reflexivity. Qed.

Example oversized_period_raises :
  get_trial_balance_data stored 99 "3/99999999999999999999" =
  Raise "OverflowError: Python int too large to convert to SQLite INTEGER".
Proof. vm_compute. reflexivity. Qed.

(** The unit separator is white space to [strip] and not to [int]. *)
Example separator_is_no_space_for_int :
  Str.strip (String (ascii_of_N 31) "3") = "3" /\
  Int.parse (String (ascii_of_N 31) "3") = None /\
  Int.parse " 3 " = Some 3%Z /\
  exists msg,
    get_trial_balance_data stored 1 (String (ascii_of_N 31) "3/2024") = Raise msg.
Proof. repeat split; try (vm_compute; reflexivity). eexists. vm_compute. reflexivity. Qed.

Example category_totals_span_categories :
  get_special_report_data uploaded 1 "Income" =
  [mkreport "Cash" 105 40 65; mkreport "Sales" 0 60 (-60)].
Proof. vm_compute. reflexivity. Qed.

(** ** Inputs on which the code departs from the stated claims *)

(** C8: the upload of a sheet whose head-of-account cell holds one space
    succeeds, counts the row, and stores a transaction whose head is the
    empty string: the test for an empty head precedes the trimming. *)
Theorem blank_head_is_stored :
  upload_company None 0 "Acme" (file_of_frame blank_head) empty =
    (with_blank, Processed 1 "Acme" 1) /\
  transactions with_blank =
    [Transaction.mk 1 jan1 "" (Some "Assets") None None 5 0 1].
Proof. split; vm_compute; reflexivity. Qed.




(** And it fails the other way round: the upload of a sheet whose head is
    "café" stores that head, and the ledger opened under "café" is empty,
    for the database leaves the accented letter as it is where Python
    capitalises it. *)
Lemma ledger_misses_accented_head :
  Transaction.head_of_account <$> transactions with_accent = ["café"] /\
  Str.upper (Str.strip "café") = "CAFÉ" /\
  Sql.upper "café" = "CAFé" /\
  get_ledger_data with_accent jan1 1 "café" = [].
Proof. repeat split; vm_compute; reflexivity. Qed.

(** C4 fails as stated: a sheet without its Credit column, uploaded under
    a new company name, fails and still leaves the new Company row. *)
Lemma failed_upload_leaves_new_company :
  upload_company None 7 "Acme" (file_of_frame no_credit) empty =
    (mkdb [Company.mk 1 "Acme" 7] [] [],
     Failed "Error processing file: Failed to process Excel data: Missing required columns: Credit") /\
  mkdb [Company.mk 1 "Acme" 7] [] [] <> empty.
Proof. split; [vm_compute; reflexivity|discriminate]. Qed.

(** C7 fails as stated: a row that passes the filter and whose Debit cell
    is the word abc is not stored with debit 0; the ingestion of the file
    fails, and the upload stores no transaction. *)
Lemma worded_amount_fails_ingestion :
  length (kept worded) = 1%nat /\
  process_excel_data (Sheet worded) acme (begin stored) =
    Raise "Failed to process Excel data: could not convert string to float: 'abc'" /\
  upload_company None 7 "Acme" (file_of_frame worded) stored =
    (stored,
     Failed "Error processing file: Failed to process Excel data: could not convert string to float: 'abc'").
Proof. repeat split; vm_compute; reflexivity. Qed.


End ClaimInstances.

(** * Further properties of the code *)

(** ** The two entry points of ingestion *)

Section EntryPoints.

Context `{Library}.

(** X1. When the path holds a workbook, [process_excel_file] on the path and
    [process_excel_data] on the workbook's bytes add the same transactions
    and report the same count, or fail for the same cause, the two messages
    differing only in their prefix. *)
Theorem process_excel_file_agrees (filesystem : string -> option workbook)
    (filepath : string) (file_data : workbook) (company : Company.t) (s : Session) :
  filesystem filepath = Some file_data ->
  match process_excel_file filesystem filepath company s,
        process_excel_data file_data company s with
  | Ok r1, Ok r2 => r1 = r2
  | Raise m1, Raise m2 =>
      exists cause, m1 = "Failed to process Excel file: " +:+ cause /\
                    m2 = "Failed to process Excel data: " +:+ cause
  | _, _ => False
  end.
Proof.
  intros Hf. unfold process_excel_file, process_excel_data, process_excel_body,
    read_excel_path. rewrite Hf.
  destruct (read_excel file_data) as [df|msg]; cbn [mbind res_bind]; [|eauto].
  destruct (decide _); [eauto|].
  destruct (add_transactions _ company (surviving df) s 0); eauto.
Qed.

(** A path with no file under it fails before any row is read. *)
Lemma process_excel_file_missing (filesystem : string -> option workbook)
    (filepath : string) (company : Company.t) (s : Session) :
  filesystem filepath = None ->
  process_excel_file filesystem filepath company s =
  Raise "Failed to process Excel file: No such file or directory".
Proof. intros Hf. unfold process_excel_file, read_excel_path. by rewrite Hf. Qed.

Lemma make_transaction_date (m : gmap string string) (company : Company.t)
    (r : prepared) (t : Transaction.t) :
  make_transaction m company r = Ok t ->
  p_date r = Some (Transaction.date t) /\
  Transaction.company_id t = Company.id company.
Proof.
  unfold make_transaction. destruct (m !! _); [|discriminate].
  destruct (p_date r); [|discriminate].
  destruct (float_or_zero (p_debit r)); [|discriminate].
  destruct (float_or_zero (p_credit r)); [|discriminate].
  cbn [mbind res_bind]. by intros [= <-].
Qed.

(** X2. The row filter. When a sheet is accepted, the reported count is the
    number of its rows whose date converts and whose head-of-account cell is
    neither empty (NaN) nor the empty text; exactly these rows become
    transactions, in sheet order, each with the date its Date cell converts
    to and with the company's id. *)
Theorem count_is_rows_with_date_and_head (df : DataFrame) (company : Company.t)
    (s s' : Session) (n : nat) :
  process_excel_data (Sheet df) company s = Ok (s', n) ->
  let df' := rename df in
  let accepted :=
    filter (fun row =>
              (get df' "date" row ≫= to_datetime) <> None /\
              default NaN (get df' "head_of_account" row) <> NaN /\
              default NaN (get df' "head_of_account" row) <> Text "")
           (rows df) in
  n = length accepted /\
  exists new, pending s' = pending s ++ new /\
    Forall2 (fun row t =>
               (get df' "date" row ≫= to_datetime) = Some (Transaction.date t) /\
               Transaction.company_id t = Company.id company)
            accepted new.
Proof.
  intros Hok df' accepted. rewrite process_excel_data_staged in Hok.
  destruct (staged (Sheet df) company) as [new|] eqn:Es; [|discriminate].
  injection Hok as <- <-. apply staged_inv in Es as (df0 & Hdf & _ & Hall).
  injection Hdf as <-.
  assert (kept df = prepare df' <$> accepted) as Hk.
  { rewrite kept_rows. fold df'. f_equal. apply list_filter_iff.
    intros row. unfold not_na, has_head, prepare.
    cbn [p_date p_head_of_account].
    change (get df' "date" row ≫= (fun c => to_datetime c))
      with (get df' "date" row ≫= to_datetime).
    tauto. }
  rewrite Hk in Hall. apply Forall2_fmap_l in Hall.
  split.
  - symmetry. by eapply Forall2_length.
  - exists new. split; [done|]. eapply Forall2_impl; [exact Hall|].
    intros row t Ht. by apply make_transaction_date in Ht.
Qed.

End EntryPoints.

(** ** Balances across the three reports *)

Lemma Zsum_Permutation (l1 l2 : list Z) : l1 ≡ₚ l2 -> Zsum l1 = Zsum l2.
Proof.
  unfold Zsum. induction 1 as [|x l1 l2 _ IH|x y l|l1 l2 l3 _ IH1 _ IH2];
    cbn [foldr]; [done|by rewrite IH|lia|congruence].
Qed.

Lemma Zsum_cons (x : Z) (l : list Z) : Zsum (x :: l) = (x + Zsum l)%Z.
Proof. reflexivity. Qed.

Lemma sum_debit_credit_net (l : list Transaction.t) :
  (sum_debit l - sum_credit l)%Z = Zsum (net <$> l).
Proof.
  unfold sum_debit, sum_credit. induction l as [|t l IH]; [done|].
  cbn [fmap list_fmap]. rewrite !Zsum_cons. unfold net at 1.
  cbn [fmap list_fmap] in IH. lia.
Qed.

Lemma ledger_loop_last (today : date) (txs : list Transaction.t) (balance : Z) :
  txs <> [] ->
  last (l_balance <$> ledger_loop today balance txs) =
  Some (balance + Zsum (net <$> txs))%Z.
Proof.
  revert balance. induction txs as [|t txs IH]; intros b Hne; [done|].
  destruct txs as [|t' txs].
  - cbn. unfold net, Zsum. cbn. f_equal. lia.
  - cbn [ledger_loop fmap list_fmap].
    change (last (?x :: ?y :: ?l)) with (last (y :: l)).
    specialize (IH (b + (Transaction.debit t - Transaction.credit t))%Z).
    cbn [ledger_loop fmap list_fmap] in IH. rewrite IH by done.
    f_equal. rewrite !Zsum_cons. unfold net at 3. lia.
Qed.

Lemma ledger_loop_debits (today : date) (txs : list Transaction.t) (balance : Z) :
  l_debit <$> ledger_loop today balance txs = Transaction.debit <$> txs /\
  l_credit <$> ledger_loop today balance txs = Transaction.credit <$> txs.
Proof.
  revert balance. induction txs as [|t txs IH]; intros b; [done|].
  cbn [ledger_loop fmap list_fmap]. destruct (IH (b + (Transaction.debit t -
    Transaction.credit t))%Z) as [-> ->]. done.
Qed.

Lemma Zsum_fmap_le {A} (f g : A -> Z) (l : list A) :
  (forall x, x ∈ l -> (f x <= g x)%Z) -> (Zsum (f <$> l) <= Zsum (g <$> l))%Z.
Proof.
  induction l as [|x l IH]; intros Hle; [done|]. cbn [fmap list_fmap].
  rewrite !Zsum_cons. pose proof (Hle x (list_elem_of_here _ _)).
  assert (Zsum (f <$> l) <= Zsum (g <$> l))%Z
    by (apply IH; intros y Hy; apply Hle; by right).
  lia.
Qed.

Lemma Zsum_net_bound (l : list Transaction.t) :
  (Z.abs (Zsum (net <$> l)) <= Zsum (magnitude <$> l))%Z.
Proof.
  induction l as [|t l IH]; [done|]. cbn [fmap list_fmap]. rewrite !Zsum_cons.
  unfold net at 1, magnitude at 1. lia.
Qed.

Lemma Zsum_magnitude_nonneg (l : list Transaction.t) :
  (0 <= Zsum (magnitude <$> l))%Z.
Proof.
  induction l as [|t l IH]; [done|]. cbn [fmap list_fmap]. rewrite Zsum_cons.
  unfold magnitude at 1. lia.
Qed.

Lemma Zsum_magnitude_take (k : nat) (l : list Transaction.t) :
  (Zsum (magnitude <$> take k l) <= Zsum (magnitude <$> l))%Z.
Proof.
  revert k. induction l as [|t l IH]; intros [|k]; cbn [take fmap list_fmap];
    rewrite ?Zsum_cons; try done.
  - pose proof (Zsum_magnitude_nonneg l). unfold magnitude at 1.
    change (Zsum []) with 0%Z. lia.
  - specialize (IH k). lia.
Qed.

(** X3. When the amounts of the selected transactions are whole numbers
    whose absolute values add up to at most 2^53, no balance of the ledger
    exceeds 2^53 in absolute value, so that every sum the code forms is
    exact; the debit and credit columns of the ledger add up to the
    account's total debit and total credit, and the balance of its last row
    is their difference, whatever the order of the rows; an account without
    transactions has no last row. *)
Theorem ledger_closes_on_account_net `{Library} (db : Database) (today : date)
    (company_id : Z) (head : string) :
  let selected :=
    filter (fun t => Transaction.company_id t = company_id /\
                     Sql.upper (Transaction.head_of_account t) =
                     Str.upper (Str.strip head))
           (transactions db) in
  let rows := get_ledger_data db today company_id head in
  exact_sums selected ->
  Forall (fun r => (Z.abs (l_balance r) <= 2 ^ 53)%Z) rows /\
  Zsum (l_debit <$> rows) = sum_debit selected /\
  Zsum (l_credit <$> rows) = sum_credit selected /\
  last (l_balance <$> rows) =
    (if decide (selected = []) then None
     else Some (sum_debit selected - sum_credit selected)%Z).
Proof.
  intros selected rows Hexact. subst rows. unfold get_ledger_data.
  fold (ledger_match company_id (Str.upper (Str.strip head))) in selected.
  pose proof (ledger_query_perm db company_id (Str.upper (Str.strip head))) as Hperm.
  fold selected in Hperm.
  split.
  { apply Forall_forall. intros r (k & Hk)%list_elem_of_lookup_1.
    set (sel := ledger_query db company_id (Str.upper (Str.strip head))) in *.
    assert (is_Some (sel !! k)) as [t Ht].
    { apply lookup_lt_is_Some. rewrite <- (ledger_loop_length today 0 sel).
      by eapply lookup_lt_Some. }
    rewrite (ledger_loop_lookup today sel 0 k t Ht) in Hk. injection Hk as <-.
    cbn [l_balance]. rewrite Z.add_0_l.
    pose proof (Zsum_net_bound (take (S k) sel)).
    pose proof (Zsum_magnitude_take (S k) sel).
    assert (Zsum (magnitude <$> sel) = Zsum (magnitude <$> selected)) as E
      by (apply Zsum_Permutation; by apply fmap_Permutation).
    unfold exact_sums in Hexact. lia. }
  destruct (ledger_loop_debits today
              (ledger_query db company_id (Str.upper (Str.strip head))) 0)
    as [-> ->].
  split; [|split].
  - unfold sum_debit. apply Zsum_Permutation. by apply fmap_Permutation.
  - unfold sum_credit. apply Zsum_Permutation. by apply fmap_Permutation.
  - destruct (decide (selected = [])) as [E|Hne].
    + rewrite E in Hperm. apply Permutation_nil_r in Hperm. by rewrite Hperm.
    + rewrite ledger_loop_last.
      * rewrite Z.add_0_l, sum_debit_credit_net. f_equal.
        apply Zsum_Permutation. by apply fmap_Permutation.
      * intros E. rewrite E in Hperm. symmetry in Hperm.
        by apply Permutation_nil_r in Hperm.
Qed.

Lemma Zsum_zeros {A} (l : list A) : Zsum ((fun _ => 0%Z) <$> l) = 0%Z.
Proof. induction l as [|x l IH]; [done|]. cbn [fmap list_fmap]. by rewrite Zsum_cons, IH. Qed.

Lemma Zsum_fmap_add {A} (f g : A -> Z) (l : list A) :
  Zsum ((fun x => f x + g x)%Z <$> l) = (Zsum (f <$> l) + Zsum (g <$> l))%Z.
Proof.
  induction l as [|x l IH]; [done|]. cbn [fmap list_fmap].
  rewrite !Zsum_cons, IH. lia.
Qed.

Lemma Zsum_indicator (h0 : string) (x : Z) (hs : list string) :
  NoDup hs ->
  Zsum ((fun h => if decide (h0 = h) then x else 0%Z) <$> hs) =
  if decide (h0 ∈ hs) then x else 0%Z.
Proof.
  induction 1 as [|h hs Hnin Hnd IH]; [done|].
  cbn [fmap list_fmap]. rewrite Zsum_cons, IH.
  destruct (decide (h0 = h)) as [->|Hne].
  - rewrite decide_False by done. rewrite decide_True by left. lia.
  - destruct (decide (h0 ∈ hs)) as [Hin|Hin].
    + rewrite decide_True by (by right). lia.
    + rewrite decide_False; [lia|]. by intros [?|?]%elem_of_cons.
Qed.

(** Summing account by account is summing over all the rows. *)
Lemma Zsum_by_head (f : Transaction.t -> Z) (hs : list string)
    (l : list Transaction.t) :
  NoDup hs ->
  (forall t, t ∈ l -> Transaction.head_of_account t ∈ hs) ->
  Zsum ((fun h => Zsum (f <$> filter (with_head h) l)) <$> hs) = Zsum (f <$> l).
Proof.
  intros Hnd. induction l as [|t l IH]; intros Hin.
  - cbn. apply Zsum_zeros.
  - cbn [fmap list_fmap]. rewrite Zsum_cons, <- IH
      by (intros t' Ht'; apply Hin; by right).
    assert (f t = Zsum ((fun h => if decide (Transaction.head_of_account t = h)
                                  then f t else 0%Z) <$> hs)) as Hft.
    { symmetry. etrans; [apply (Zsum_indicator _ _ hs Hnd)|].
      apply decide_True, Hin. left. }
    rewrite Hft at 1. rewrite <- Zsum_fmap_add. f_equal. apply list_fmap_ext.
    intros i h _.
    rewrite filter_cons. unfold with_head at 1.
    destruct (decide (Transaction.head_of_account t = h)); [|lia].
    cbn [fmap list_fmap]. by rewrite Zsum_cons.
Qed.

Lemma account_rows_net (results : list (string * Z * Z)) :
  (Zsum (tb_debit <$> omap account_row results) -
   Zsum (tb_credit <$> omap account_row results))%Z =
  Zsum ((fun r => r.1.2 - r.2)%Z <$> results).
Proof.
  induction results as [|[[h d] c] results IH]; [done|].
  cbn [omap list_omap fmap list_fmap]. rewrite Zsum_cons. cbn [fst snd].
  destruct (account_row (h, d, c)) as [r|] eqn:E; unfold account_row in E;
    destruct (decide (d - c <> 0)%Z) as [Hb|Hb]; try discriminate.
  - injection E as <-. cbn [fmap list_fmap]. rewrite !Zsum_cons.
    cbn [tb_debit tb_credit]. rewrite <- IH.
    destruct (decide (0 < d - c)%Z); lia.
  - rewrite <- IH. lia.
Qed.

Lemma account_rows_shape (results : list (string * Z * Z)) :
  Forall (fun r => is_total r = false /\ is_difference r = false /\
                   ((0 < tb_debit r /\ tb_credit r = 0) \/
                    (tb_debit r = 0 /\ 0 < tb_credit r))%Z)
         (omap account_row results).
Proof.
  apply Forall_forall. intros r Hr. apply list_elem_of_omap in Hr as ([[h d] c] & _ & Hr).
  unfold account_row in Hr. destruct (decide _) as [Hb|]; [|discriminate].
  injection Hr as <-. cbn. destruct (decide (0 < d - c)%Z); split; try done;
    split; try done; lia.
Qed.

Lemma Zsum_nonneg (l : list Z) : Forall (fun x => 0 <= x)%Z l -> (0 <= Zsum l)%Z.
Proof. induction 1 as [|x l Hx Hl IH]; [done|]. rewrite Zsum_cons. lia. Qed.

Lemma account_rows_bound (results : list (string * Z * Z)) :
  (Zsum (tb_debit <$> omap account_row results) <=
   Zsum ((fun r => Z.abs (r.1.2 - r.2)) <$> results))%Z /\
  (Zsum (tb_credit <$> omap account_row results) <=
   Zsum ((fun r => Z.abs (r.1.2 - r.2)) <$> results))%Z.
Proof.
  induction results as [|[[h d] c] results [IHd IHc]]; [done|].
  cbn [omap list_omap fmap list_fmap]. rewrite Zsum_cons. cbn [fst snd].
  destruct (account_row (h, d, c)) as [r|] eqn:E; unfold account_row in E;
    destruct (decide (d - c <> 0)%Z) as [Hb|Hb]; try discriminate.
  - injection E as <-. cbn [fmap list_fmap]. rewrite !Zsum_cons.
    cbn [tb_debit tb_credit]. destruct (decide (0 < d - c)%Z); lia.
  - lia.
Qed.

(** X4. The trial balance conserves the books. For a period it accepts,
    and selected amounts that are whole numbers whose absolute values add up
    to at most 2^53, both totals lie between 0 and 2^53, so that every sum
    the code forms is exact; the TOTAL row's debit minus its credit equals
    the total debit minus the total credit of the selected transactions
    (those of the company with a non-empty head, in the period); every
    account row has exactly one positive column; and the DIFFERENCE row is
    present exactly when the selected debits and credits differ. *)
Theorem trial_balance_total_is_net `{Library} (db : Database) (company_id : Z)
    (period : string) (p : option (Z * Z)) :
  period_reads period p ->
  let selected :=
    filter (fun t => Transaction.company_id t = company_id /\
                     Transaction.head_of_account t <> "" /\
                     in_period p t)
           (transactions db) in
  exact_sums selected ->
  exists accounts total_debit total_credit,
    get_trial_balance_data db company_id period =
    Ok (accounts ++ total_row total_debit total_credit ::
        (if decide (sum_debit selected = sum_credit selected) then []
         else [difference_row total_debit total_credit])) /\
    Forall (fun r => is_total r = false /\ is_difference r = false /\
                     ((0 < tb_debit r /\ tb_credit r = 0) \/
                      (tb_debit r = 0 /\ 0 < tb_credit r))%Z) accounts /\
    (total_debit - total_credit = sum_debit selected - sum_credit selected)%Z /\
    (0 <= total_debit <= 2 ^ 53)%Z /\ (0 <= total_credit <= 2 ^ 53)%Z.
Proof.
  intros Hp selected Hexact. apply period_reads_resolve in Hp as [Hp Hbind].
  fold (tb_match company_id p) in selected.
  set (accounts := omap account_row (tb_results db company_id p)).
  pose proof (account_rows_shape (tb_results db company_id p)) as Hshape.
  fold accounts in Hshape.
  assert (Zsum (tb_debit <$> accounts) - Zsum (tb_credit <$> accounts) =
          sum_debit selected - sum_credit selected)%Z as Hnet.
  { subst accounts. rewrite account_rows_net. unfold tb_results. fold selected.
    rewrite <- list_fmap_compose.
    rewrite (list_fmap_ext _
               (fun h => Zsum (Transaction.debit <$> filter (with_head h) selected) +
                         - Zsum (Transaction.credit <$> filter (with_head h) selected))%Z
               (distinct_heads selected))
      by (intros i h _; cbn; unfold sum_debit, sum_credit; lia).
    rewrite Zsum_fmap_add.
    rewrite (Zsum_by_head Transaction.debit)
      by (try apply NoDup_distinct_heads;
          intros t Ht; apply elem_of_distinct_heads; eauto).
    assert (Zsum ((fun h => - Zsum (Transaction.credit <$> filter (with_head h) selected))%Z
                    <$> distinct_heads selected) =
            - Zsum (Transaction.credit <$> selected))%Z as ->.
    { rewrite <- (Zsum_by_head Transaction.credit (distinct_heads selected) selected)
        by (try apply NoDup_distinct_heads;
            intros t Ht; apply elem_of_distinct_heads; eauto).
      generalize (distinct_heads selected). intros hs.
      induction hs as [|h hs IH]; [done|]. cbn [fmap list_fmap].
      rewrite !Zsum_cons, IH. lia. }
    unfold sum_debit, sum_credit. lia. }
  exists accounts, (Zsum (tb_debit <$> accounts)), (Zsum (tb_credit <$> accounts)).
  split; [|split; [exact Hshape|split; [exact Hnet|]]].
  - unfold get_trial_balance_data. rewrite Hp. cbn [mbind res_bind].
    rewrite Hbind. cbn [mbind res_bind].
    rewrite tb_loop. cbn [app]. rewrite !Z.add_0_l. fold accounts.
    rewrite tb_finish_rows. cbn [app]. do 3 f_equal.
    destruct (decide (Zsum (tb_debit <$> accounts) = Zsum (tb_credit <$> accounts)));
      destruct (decide (sum_debit selected = sum_credit selected)); try done; lia.
  - assert (Zsum ((fun r => Z.abs (r.1.2 - r.2)) <$> tb_results db company_id p)
            <= 2 ^ 53)%Z as Hbound.
    { unfold tb_results. fold selected. rewrite <- list_fmap_compose.
      etrans; [|exact Hexact].
      rewrite <- (Zsum_by_head magnitude (distinct_heads selected) selected)
        by (try apply NoDup_distinct_heads;
            intros t Ht; apply elem_of_distinct_heads; eauto).
      apply Zsum_fmap_le. intros h _. cbn.
      rewrite sum_debit_credit_net. apply Zsum_net_bound. }
    destruct (account_rows_bound (tb_results db company_id p)) as [Hd Hc].
    fold accounts in Hd, Hc.
    assert (0 <= Zsum (tb_debit <$> accounts))%Z
      by (apply Zsum_nonneg, Forall_fmap; (eapply Forall_impl; [exact Hshape|]);
          cbn; intros r (_ & _ & Hr); lia).
    assert (0 <= Zsum (tb_credit <$> accounts))%Z
      by (apply Zsum_nonneg, Forall_fmap; (eapply Forall_impl; [exact Hshape|]);
          cbn; intros r (_ & _ & Hr); lia).
    lia.
Qed.

(** X5. The category report and the trial balance agree: every row of a
    category report has, in the company's trial balance for 'all', an
    account row of the same head whose debit column minus credit column is
    the report's balance. *)
Theorem report_row_is_in_trial_balance `{Library} (db : Database) (company_id : Z)
    (category : string) (row : report_row) :
  row ∈ get_special_report_data db company_id category ->
  exists rows r,
    get_trial_balance_data db company_id "all" = Ok rows /\
    r ∈ rows /\ is_total r = false /\ is_difference r = false /\
    tb_head_of_account r = r_head_of_account row /\
    (tb_debit r - tb_credit r)%Z = r_balance row /\
    r_balance row = (r_debit row - r_credit row)%Z.
Proof.
  unfold get_special_report_data. intros (h & Hh & Hrow)%list_elem_of_omap.
  apply elem_of_distinct_heads in Hh as (t & Ht & <-).
  apply list_elem_of_filter in Ht as [(Hc & _ & Hne) Ht].
  set (h := Transaction.head_of_account t) in *.
  set (selected := filter (tb_match company_id None) (transactions db)).
  assert (t ∈ selected) as Hsel by (apply list_elem_of_filter; by repeat split).
  assert (filter (with_head h) selected =
          filter (of_account company_id h) (transactions db)) as Hacc.
  { subst selected. rewrite list_filter_filter. apply list_filter_iff.
    intros u. unfold with_head, tb_match, of_account, in_period.
    split; [intros (Hu & Hcu & _)|intros (Hcu & Hu)]; [done|].
    repeat split; try done. by rewrite Hu. }
  unfold special_report_row in Hrow.
  destruct (decide _) as [Hb|]; [|discriminate]. injection Hrow as <-.
  cbn [r_head_of_account r_balance r_debit r_credit].
  unfold get_trial_balance_data.
  change (resolve_period "all") with (Ok (None : option (Z * Z))).
  cbn [mbind res_bind bind_period]. rewrite tb_loop, tb_finish_rows. cbn [app].
  eexists.
  exists (mktb h
            (if decide (0 < sum_debit (filter (of_account company_id h) (transactions db)) -
                            sum_credit (filter (of_account company_id h) (transactions db)))%Z
             then (sum_debit (filter (of_account company_id h) (transactions db)) -
                   sum_credit (filter (of_account company_id h) (transactions db)))%Z
             else 0%Z)
            (if decide (0 < sum_debit (filter (of_account company_id h) (transactions db)) -
                            sum_credit (filter (of_account company_id h) (transactions db)))%Z
             then 0%Z
             else (- (sum_debit (filter (of_account company_id h) (transactions db)) -
                      sum_credit (filter (of_account company_id h) (transactions db))))%Z)
            false false).
  split; [reflexivity|]. split.
  - apply elem_of_app. left. apply list_elem_of_omap.
    exists (h, sum_debit (filter (with_head h) selected),
               sum_credit (filter (with_head h) selected)).
    split.
    + unfold tb_results. fold selected. apply list_elem_of_fmap.
      exists h. split; [done|]. apply elem_of_distinct_heads. eauto.
    + rewrite Hacc. unfold account_row. by rewrite decide_True.
  - cbn. repeat split. destruct (decide _); lia.
Qed.


(** ** What an upload changes, and what it leaves alone *)

Lemma filter_company_slice (Q P : Transaction.t -> Prop)
    `{!forall t, Decision (Q t)} `{!forall t, Decision (P t)}
    (c : Z) (l : list Transaction.t) :
  (forall t, Q t <-> Transaction.company_id t = c /\ P t) ->
  filter Q l = filter P (filter (fun t => Transaction.company_id t = c) l).
Proof.
  intros HQ. rewrite list_filter_filter. apply list_filter_iff.
  intros t. rewrite HQ. tauto.
Qed.

(** The three reports of a company read only that company's transactions. *)
Lemma reports_read_company_slice `{Library} (db1 db2 : Database) (c : Z) :
  filter (fun t => Transaction.company_id t = c) (transactions db1) =
  filter (fun t => Transaction.company_id t = c) (transactions db2) ->
  (forall today head, get_ledger_data db1 today c head = get_ledger_data db2 today c head) /\
  (forall category, get_special_report_data db1 c category =
                    get_special_report_data db2 c category) /\
  (forall period, get_trial_balance_data db1 c period =
                  get_trial_balance_data db2 c period).
Proof.
  intros Hslice. split; [|split].
  - intros today head. unfold get_ledger_data, ledger_query.
    set (h := Str.upper (Str.strip head)).
    rewrite !(filter_company_slice (ledger_match c h)
                (fun t => Sql.upper (Transaction.head_of_account t) = h) c)
      by done.
    by rewrite Hslice.
  - intros category. unfold get_special_report_data.
    assert (forall h, special_report_row db1 c h = special_report_row db2 c h) as Hrow.
    { intros h. unfold special_report_row.
      rewrite !(filter_company_slice (of_account c h)
                  (fun t => Transaction.head_of_account t = h) c) by done.
      by rewrite Hslice. }
    rewrite !(filter_company_slice (in_category c category)
                (fun t => Transaction.category t = Some category /\
                          Transaction.head_of_account t <> "") c) by done.
    rewrite Hslice. apply list_omap_ext.
    apply Forall2_same_length_lookup. split; [done|].
    intros i x y Hx Hy. assert (x = y) as -> by congruence. apply Hrow.
  - intros period. unfold get_trial_balance_data, tb_results.
    destruct (resolve_period period) as [p|]; [|done]. cbn [mbind res_bind].
    destruct (bind_period p); [|done]. cbn [mbind res_bind].
    rewrite !(filter_company_slice (tb_match c p)
                (fun t => Transaction.head_of_account t <> "" /\ in_period p t) c)
      by done.
    by rewrite Hslice.
Qed.

Section UploadEffects.

Context `{Library}.

(** A failed upload leaves every transaction where it was. *)
Lemma failed_upload_transactions (failing : option storage_step) (now : Z)
    (company_name : string) (file : upload) (db db' : Database) (msg : string) :
  upload_company failing now company_name file db = (db', Failed msg) ->
  transactions db' = transactions db.
Proof.
  destruct (upload_company_unfold failing now company_name file db)
    as (s & company & Hp & Hs & ->).
  destruct (upload_try failing file company s) as [[s' n]|m]; [discriminate|].
  intros [= <- _]. destruct (company_by_name db company_name) as [c|].
  - by destruct Hs as (-> & _).
  - by destruct Hs as (_ & -> & _).
Qed.

(** X6. An upload for one company leaves the reports of every other company
    as they were: whatever the outcome, the ledger, the category report and
    the trial balance of any company other than the one the upload reports
    are the same before and after. *)
Theorem upload_leaves_other_companies_reports (failing : option storage_step)
    (now : Z) (company_name : string) (file : upload) (db db' : Database)
    (outcome : flash) (c : Z) :
  upload_company failing now company_name file db = (db', outcome) ->
  (forall n name, outcome <> Processed n name c) ->
  (forall today head, get_ledger_data db' today c head = get_ledger_data db today c head) /\
  (forall category, get_special_report_data db' c category =
                    get_special_report_data db c category) /\
  (forall period, get_trial_balance_data db' c period =
                  get_trial_balance_data db c period).
Proof.
  intros Hup Hother. apply reports_read_company_slice.
  destruct outcome as [n name cid|msg].
  - assert (cid <> c) as Hne by (intros ->; by apply (Hother n name)).
    destruct (upload_company_unfold failing now company_name file db)
      as (s & company & Hp & Hs & Eup).
    rewrite Eup in Hup.
    destruct (upload_try failing file company s) as [[s' n']|] eqn:Etry;
      [|discriminate].
    injection Hup as <- _ _ <-.
    destruct (upload_try_ok _ _ _ _ _ _ Hp Etry) as (ts & files' & Hst & _ & ->).
    pose proof (staged_company_id _ _ _ Hst) as Hcid.
    cbn [transactions]. rewrite filter_app.
    rewrite (filter_none (fun t => Transaction.company_id t = c)
               (assign_ids _ ts)), app_nil_r.
    + destruct (company_by_name db company_name) as [c0|].
      * destruct Hs as (_ & Hid & ->). cbn [touch delete_transactions transactions].
        rewrite list_filter_filter. apply list_filter_iff. intros t.
        rewrite <- Hid. split; [tauto|]. intros E. split; [done|]. congruence.
      * by destruct Hs as (_ & _ & ->).
    + eapply Forall_impl; [apply assign_ids_company, Hcid|]. cbn. intros t ->. done.
  - by rewrite (failed_upload_transactions _ _ _ _ _ _ _ Hup).
Qed.

End UploadEffects.

(** ** The keys of the schema under upload *)

Lemma assign_ids_ids (start : Z) (ts : list Transaction.t) :
  Transaction.id <$> assign_ids start ts = seqZ start (Z.of_nat (length ts)).
Proof.
  revert start. induction ts as [|t ts IH]; intros start; [done|].
  cbn [assign_ids fmap list_fmap length]. rewrite IH.
  rewrite Nat2Z.inj_succ, (seqZ_cons start) by lia. cbn [Transaction.id set_id].
  f_equal. f_equal; lia.
Qed.

Lemma NoDup_assigned (ids : list Z) (ts : list Transaction.t) :
  NoDup ids ->
  NoDup (ids ++ (Transaction.id <$> assign_ids (next_id ids) ts)).
Proof.
  intros Hnd. rewrite assign_ids_ids. apply NoDup_app. split; [done|].
  split; [|apply NoDup_seqZ].
  intros x Hx Hs. apply next_id_fresh in Hx. apply elem_of_seqZ in Hs. lia.
Qed.

Section UploadKeys.

Context `{Library}.

(** X7. The keys of the schema are an invariant of the upload: if company
    ids, company names, transaction ids, file ids and the company of each
    file are unique before an upload, they are unique after it, whether it
    succeeds or fails. *)
Theorem upload_keeps_keys_unique (failing : option storage_step) (now : Z)
    (company_name : string) (file : upload) (db : Database) :
  keys_unique db ->
  keys_unique (upload_company failing now company_name file db).1.
Proof.
  intros [Hci Hcn Hti Hfi Hfc].
  destruct (upload_company_unfold failing now company_name file db)
    as (s & company & Hp & Hs & ->).
  assert (NoDup (Company.id <$> companies db ++ [company]) /\
          NoDup (Company.name <$> companies db ++ [company]) \/
          company_by_name db company_name <> None) as Hnew.
  { destruct (company_by_name db company_name) as [c|] eqn:Ec; [by right|left].
    destruct Hs as (-> & _). rewrite !fmap_app.
    cbn [fmap list_fmap Company.id Company.name].
    split; [by apply NoDup_snoc_fresh|].
    apply NoDup_app. split; [done|]. split; [|apply NoDup_singleton].
    intros x Hx ->%list_elem_of_singleton.
    by apply (company_by_name_None db company_name Ec). }
  destruct (upload_try failing file company s) as [[s' n]|msg] eqn:Etry; cbn [fst].
  - destruct (upload_try_ok _ _ _ _ _ _ Hp Etry) as (ts & files' & _ & _ & Hdb').
    pose proof (upload_try_ok_files _ _ _ _ _ _ Hp Etry) as Hfiles.
    cbn zeta in Hfiles. rewrite Hdb' in Hfiles |- *. cbn [company_files] in Hfiles.
    subst files'.
    assert (company_files (working s) = company_files db /\
            (exists c, file_of (working s) (Company.id company) = file_of db c /\
                       Company.id company = c)) as (Hwf & cid & Hfo & Hcid).
    { destruct (company_by_name db company_name) as [c|].
      - destruct Hs as (_ & Hid & ->). split; [done|]. by exists (Company.id company).
      - destruct Hs as (_ & _ & ->). split; [done|]. by exists (Company.id company). }
    rewrite Hwf, Hfo, Hcid.
    pose proof (no_file_left db cid Hfc) as Hleft.
    set (fs1 := match file_of db cid with
                | Some f => filter (fun g => CompanyFile.id g <> CompanyFile.id f)
                                   (company_files db)
                | None => company_files db
                end) in *.
    assert (NoDup (CompanyFile.id <$> fs1) /\
            NoDup (CompanyFile.company_id <$> fs1)) as [Hf1 Hf2].
    { subst fs1. destruct (file_of db cid); [|done].
      split; by apply NoDup_fmap_filter. }
    constructor; cbn [companies company_files transactions].
    + destruct (company_by_name db company_name) as [c|].
      * destruct Hs as (_ & _ & ->). by rewrite touch_ids.
      * destruct Hs as (_ & _ & ->). by destruct Hnew as [[? _]|?].
    + destruct (company_by_name db company_name) as [c|].
      * destruct Hs as (_ & _ & ->). by rewrite touch_names.
      * destruct Hs as (_ & _ & ->). by destruct Hnew as [[_ ?]|?].
    + rewrite fmap_app. apply NoDup_assigned.
      destruct (company_by_name db company_name) as [c|].
      * destruct Hs as (_ & _ & ->). cbn [touch delete_transactions transactions].
        by apply NoDup_fmap_filter.
      * by destruct Hs as (_ & _ & ->).
    + rewrite fmap_app. cbn [fmap list_fmap CompanyFile.id].
      by apply NoDup_snoc_fresh.
    + rewrite fmap_app. cbn [fmap list_fmap CompanyFile.company_id].
      apply NoDup_app. split; [done|]. split; [|apply NoDup_singleton].
      by intros x Hx ->%list_elem_of_singleton.
  - destruct (company_by_name db company_name) as [c|].
    + destruct Hs as (-> & _). by constructor.
    + destruct Hs as (_ & -> & _). destruct Hnew as [[? ?]|?]; [|done].
      by constructor.
Qed.

End UploadKeys.

(** ** Access to the stored file *)

(** X8. The download view returns the file only to a POST whose password
    field is exactly the system password (one with surrounding spaces is
    refused, as is a missing field) or to a HEAD request, which the route
    also answers and for which no password is tested; and then only the
    bytes, type and name of a stored file of the company asked for. A GET
    never yields the file, and a HEAD yields the file of every company that
    has one, whatever the form holds. *)
Theorem download_checks_password_on_post_only (db : Database) (company_id : Z)
    (method : http_method) (file_password : option string) :
  (forall data mimetype name,
     download_file db company_id method file_password = SendFile data mimetype name ->
     (method = POST /\ file_password = Some "Faiz5683" \/ method = HEAD) /\
     known_company db company_id /\
     exists f, f ∈ company_files db /\ CompanyFile.company_id f = company_id /\
       data = CompanyFile.file_data f /\ mimetype = CompanyFile.content_type f /\
       name = CompanyFile.filename f) /\
  (forall f, known_company db company_id -> file_of db company_id = Some f ->
     download_file db company_id HEAD file_password =
     SendFile (CompanyFile.file_data f) (CompanyFile.content_type f)
       (CompanyFile.filename f)).
Proof.
  split.
  - intros data mimetype name. unfold download_file.
    destruct (get_company db company_id) as [c|] eqn:Ec; [|discriminate].
    apply head_Some_elem_of, list_elem_of_filter in Ec as [Hid Hc].
    destruct (file_of db (Company.id c)) as [f|] eqn:Ef; [|discriminate].
    apply head_Some_elem_of, list_elem_of_filter in Ef as [Hfc Hf].
    destruct (decide (method = GET)) as [|Hget]; [discriminate|].
    destruct (decide (method = POST /\ _)) as [|Hpw]; [discriminate|].
    intros [= <- <- <-]. split; [|split].
    + destruct method; [done|by right|left]. split; [done|].
      destruct file_password as [pw|]; cbn in Hpw.
      * f_equal. destruct (decide (pw = "Faiz5683")); [done|].
        destruct Hpw. by split.
      * destruct Hpw. by split.
    + unfold known_company. rewrite <- Hid. by apply list_elem_of_fmap_2.
    + exists f. rewrite <- Hid. by repeat split.
  - intros f Hknown Hf. unfold download_file.
    destruct (get_company db company_id) as [c|] eqn:Ec.
    + apply head_Some_elem_of, list_elem_of_filter in Ec as [Hid Hc].
      rewrite Hid, Hf. rewrite decide_False by discriminate.
      rewrite decide_False by (intros [? _]; discriminate). done.
    + unfold get_company in Ec. apply head_None in Ec.
      unfold known_company in Hknown.
      apply list_elem_of_fmap in Hknown as (c & Hid & Hc).
      assert (c ∈ filter (fun c => Company.id c = company_id) (companies db))
        as Hin by (by apply list_elem_of_filter).
      rewrite Ec in Hin. by apply not_elem_of_nil in Hin.
Qed.

Section UploadAccess.

Context `{Library}.

(** X9. An upload changes the database only when the request carries a
    file with a non-empty name ending in .xlsx or .xls and the password
    field, with surrounding whitespace stripped, is the system password;
    every other request leaves the database exactly as it was. *)
Theorem upload_needs_file_and_password (failing : option storage_step) (now : Z)
    (req : request) (db : Database) :
  (upload_file failing now req db).1 <> db ->
  exists file, q_file req = Some file /\ u_filename file <> "" /\
    (Str.endswith (u_filename file) ".xlsx" = true \/
     Str.endswith (u_filename file) ".xls" = true) /\
    Str.strip (q_file_password req) = "Faiz5683".
Proof.
  unfold upload_file. destruct (q_file req) as [file|]; [|done].
  destruct (decide (u_filename file = "")) as [|Hname]; [done|].
  destruct (Str.endswith (u_filename file) ".xlsx") eqn:E1;
    destruct (Str.endswith (u_filename file) ".xls") eqn:E2; cbn [orb];
    try done;
    (destruct (decide (Str.strip (q_file_password req) <> "Faiz5683")) as [|Hpw];
       [done|]; apply dec_stable in Hpw; intros _; exists file; auto).
Qed.

(** X10. After a successful upload into a database in which no company has
    two files, a download for that company with the system password returns
    the bytes just uploaded, under the sanitised file name and with the
    content type of the upload (the spreadsheet type when the browser sent
    none): the company's earlier file is replaced. *)
Theorem download_returns_uploaded_file (failing : option storage_step) (now : Z)
    (company_name : string) (file : upload) (db db' : Database)
    (n : nat) (company_id : Z) :
  NoDup (CompanyFile.company_id <$> company_files db) ->
  upload_company failing now company_name file db =
    (db', Processed n company_name company_id) ->
  download_file db' company_id POST (Some "Faiz5683") =
  SendFile (u_file_data file)
    (default default_content_type
       (c ← u_content_type file; if decide (c = "") then None else Some c))
    (u_secure_filename file).
Proof.
  intros Hfc Hup.
  destruct (upload_company_unfold failing now company_name file db)
    as (s & company & Hp & Hs & Eup).
  rewrite Eup in Hup.
  destruct (upload_try failing file company s) as [[s' n']|] eqn:Etry;
    [|discriminate].
  injection Hup as <- <- <-.
  destruct (upload_try_ok _ _ _ _ _ _ Hp Etry) as (ts & files' & _ & _ & Hdb').
  pose proof (upload_try_ok_files _ _ _ _ _ _ Hp Etry) as Hfiles. cbn zeta in Hfiles.
  assert (company_files (working s) = company_files db /\
          file_of (working s) (Company.id company) = file_of db (Company.id company) /\
          exists c, c ∈ companies (working s) /\ Company.id c = Company.id company)
    as (Hwf & Hfo & c & Hc & Hcid).
  { destruct (company_by_name db company_name) as [c|] eqn:Ec.
    - destruct Hs as (_ & Hid & ->). split; [done|]. split; [done|].
      apply head_Some_elem_of, list_elem_of_filter in Ec as [_ Hc].
      exists (if decide (Company.id c = Company.id c)
              then Company.mk (Company.id c) (Company.name c) now else c).
      split.
      + cbn [touch companies delete_transactions].
        apply (list_elem_of_fmap_2
                 (fun c0 => if decide (Company.id c0 = Company.id c)
                            then Company.mk (Company.id c0) (Company.name c0) now
                            else c0) _ c Hc).
      + rewrite decide_True by done. by cbn.
    - destruct Hs as (_ & _ & ->). split; [done|]. split; [done|].
      exists company. split; [|done]. cbn. apply elem_of_app. right. left. }
  rewrite Hwf, Hfo in Hfiles.
  pose proof (no_file_left db (Company.id company) Hfc) as Hleft.
  set (fs1 := match file_of db (Company.id company) with
              | Some f => filter (fun g => CompanyFile.id g <> CompanyFile.id f)
                                 (company_files db)
              | None => company_files db
              end) in *.
  unfold download_file.
  assert (exists c', get_company (committed s') (Company.id company) = Some c' /\
                     Company.id c' = Company.id company) as (c' & -> & ->).
  { unfold get_company. rewrite Hdb'. cbn [companies].
    destruct (filter _ (companies (working s))) as [|c' l] eqn:Ef.
    - assert (c ∈ filter (fun c0 => Company.id c0 = Company.id company)
                         (companies (working s))) as Hin
        by (by apply list_elem_of_filter).
      rewrite Ef in Hin. by apply not_elem_of_nil in Hin.
    - exists c'. split; [done|].
      assert (c' ∈ filter (fun c0 => Company.id c0 = Company.id company)
                          (companies (working s))) as Hin by (rewrite Ef; left).
      by apply list_elem_of_filter in Hin as [? _]. }
  unfold file_of. rewrite Hfiles, filter_app.
  rewrite (filter_none _ fs1).
  - cbn [app]. rewrite filter_cons, decide_True by done. cbn [head].
    rewrite decide_False by discriminate. cbn [from_option id].
    by rewrite decide_False by (intros [_ Hne]; by apply Hne).
  - apply Forall_forall. intros g Hg E. apply Hleft. rewrite <- E.
    by apply list_elem_of_fmap_2.
Qed.

End UploadAccess.

(** ** Stored accounts and the ledger *)

Section StoredAccounts.

Context `{Library}.

(** X11. After a successful upload into a database whose transactions all
    belong to stored companies, the ledger opened under an ASCII query
    that, stripped of its surrounding whitespace, equals up to the case of
    the letters a to z the head of one of the company's transactions
    selects exactly the transactions stored under that head: for such an
    account the match of the ledger and the exact match of the category
    report and the trial balance pick the same transactions. *)
Theorem ledger_selects_stored_account (failing : option storage_step) (now : Z)
    (company_name : string) (file : upload) (db db' : Database)
    (n : nat) (company_id : Z) (t : Transaction.t) (query : string) :
  foreign_keys db ->
  upload_company failing now company_name file db =
    (db', Processed n company_name company_id) ->
  t ∈ transactions db' -> Transaction.company_id t = company_id ->
  Str.is_ascii query = true ->
  equal_ignoring_case (Str.strip_by Str.isspace query)
    (Transaction.head_of_account t) ->
  filter (fun u => Transaction.company_id u = company_id /\
                   Sql.upper (Transaction.head_of_account u) =
                   Str.upper (Str.strip query))
         (transactions db') =
  filter (fun u => Transaction.company_id u = company_id /\
                   Transaction.head_of_account u = Transaction.head_of_account t)
         (transactions db').
Proof.
  intros Hfk Hup Ht Hc Hq Hsame.
  rewrite (normalized_ascii query Hq).
  apply ascii_upper_equal_ignoring_case in Hsame.
  assert (Str.is_ascii (Str.ascii_upper (Str.strip_by Str.isspace query)) = true)
    as Hqa by (by apply ascii_upper_is_ascii, strip_is_ascii).
  assert (forall u, Sql.upper (Transaction.head_of_account u) =
                    Str.ascii_upper (Str.strip_by Str.isspace query) ->
                    Str.is_ascii (Transaction.head_of_account u) = true) as Hplain.
  { intros u E. rewrite <- ascii_upper_is_ascii_iff. unfold Sql.upper in E.
    by rewrite E. }
  apply filter_iff_elem_of. intros u Hu.
  split; intros [Hcu Hhu]; (split; [done|]).
  - apply (upload_ok_canonical _ _ _ _ _ _ _ _ u t Hfk Hup Hu Hcu Ht Hc).
    rewrite (upper_ascii _ (Hplain u Hhu)), Hhu.
    rewrite upper_ascii; [done|]. apply (Hplain t). by unfold Sql.upper.
  - unfold Sql.upper. by rewrite Hhu.
Qed.

End StoredAccounts.

(** ** Worked instances of the further properties *)

Import More.

Section FurtherInstances.

#[local] Existing Instance Reference.library.

Lemma stored_exact (P : Transaction.t -> Prop) `{!forall t, Decision (P t)} :
  exact_sums (filter P (transactions stored)).
Proof.
  unfold exact_sums.
  assert (forall l : list Transaction.t,
            Zsum (magnitude <$> filter P l) <= Zsum (magnitude <$> l))%Z as Hle.
  { induction l as [|t l IH]; [done|]. rewrite filter_cons.
    assert (0 <= magnitude t)%Z by (unfold magnitude; lia).
    destruct (decide (P t)); cbn [fmap list_fmap]; rewrite ?Zsum_cons; lia. }
  etrans; [apply Hle|]. vm_compute. discriminate.
Defined.

Lemma ledger_closes_on_account_net_witness :
  exact_sums
    (filter (fun t => Transaction.company_id t = 1%Z /\
                      Sql.upper (Transaction.head_of_account t) =
                      Str.upper (Str.strip "cash"))
            (transactions stored)) /\
  last (l_balance <$> get_ledger_data stored mar1 1 "cash") = Some 500%Z.
Proof.
  split; [apply stored_exact|].
  destruct (ledger_closes_on_account_net stored mar1 1 "cash" (stored_exact _))
    as (_ & _ & _ & Hlast).
  rewrite Hlast. vm_compute. reflexivity.
Defined.

Lemma process_excel_file_agrees_witness :
  disk "/tmp/books.xlsx" = Some (Sheet books) /\
  match process_excel_file disk "/tmp/books.xlsx" acme (begin empty),
        process_excel_data (Sheet books) acme (begin empty) with
  | Ok r1, Ok r2 => r1 = r2
  | Raise m1, Raise m2 =>
      exists cause, m1 = "Failed to process Excel file: " +:+ cause /\
                    m2 = "Failed to process Excel data: " +:+ cause
  | _, _ => False
  end.
Proof.
  split; [reflexivity|].
  apply (process_excel_file_agrees disk "/tmp/books.xlsx" (Sheet books)).
  reflexivity.
Defined.

Lemma count_is_rows_with_date_and_head_witness :
  exists s', process_excel_data (Sheet books) acme (begin empty) = Ok (s', 4%nat) /\
    length (pending s') = 4%nat.
Proof.
  assert (exists s', process_excel_data (Sheet books) acme (begin empty) =
                     Ok (s', 4%nat)) as [s' E]
    by (eexists; vm_compute; reflexivity).
  destruct (count_is_rows_with_date_and_head books acme (begin empty) s' 4 E)
    as (Hn & new & Hp & Hall).
  exists s'. split; [exact E|]. rewrite Hp. cbn [begin pending app].
  rewrite <- (Forall2_length _ _ _ Hall). symmetry. exact Hn.
Defined.

Lemma trial_balance_total_is_net_witness :
  period_reads "all" None /\
  exact_sums
    (filter (fun t => Transaction.company_id t = 1%Z /\
                      Transaction.head_of_account t <> "" /\ in_period None t)
            (transactions stored)) /\
  exists accounts total_debit total_credit,
    get_trial_balance_data stored 1 "all" =
    Ok (accounts ++ [total_row total_debit total_credit;
                     difference_row total_debit total_credit]) /\
    (total_debit - total_credit = 20)%Z.
Proof.
  assert (period_reads "all" None) as Hp by (by left).
  split; [exact Hp|]. split; [apply stored_exact|].
  destruct (trial_balance_total_is_net stored 1 "all" None Hp (stored_exact _))
    as (accounts & td & tc & E & _ & Hnet & _).
  exists accounts, td, tc. split.
  - rewrite E. destruct (decide _) as [E0|_]; [|reflexivity].
    vm_compute in E0. discriminate.
  - rewrite Hnet. vm_compute. reflexivity.
Defined.

Lemma report_row_is_in_trial_balance_witness :
  mkreport "Cash" 105 40 65 ∈ get_special_report_data uploaded 1 "Income" /\
  exists rows r,
    get_trial_balance_data uploaded 1 "all" = Ok rows /\ r ∈ rows /\
    tb_head_of_account r = "Cash" /\ (tb_debit r - tb_credit r)%Z = 65%Z.
Proof.
  assert (mkreport "Cash" 105 40 65 ∈ get_special_report_data uploaded 1 "Income")
    as Hin by (vm_compute; repeat constructor).
  split; [exact Hin|].
  destruct (report_row_is_in_trial_balance uploaded 1 "Income" _ Hin)
    as (rows & r & E & Hr & _ & _ & Hh & Hb & _).
  exists rows, r. auto.
Defined.

Lemma shared_upload :
  exists db', upload_company None 7 "Acme" (file_of_frame books) shared =
              (db', Processed 4 "Acme" 1).
Proof. eexists. vm_compute. reflexivity. Defined.

Lemma upload_leaves_other_companies_reports_witness :
  exists db', upload_company None 7 "Acme" (file_of_frame books) shared =
              (db', Processed 4 "Acme" 1) /\
    get_trial_balance_data db' 2 "all" = get_trial_balance_data shared 2 "all" /\
    get_ledger_data db' jan5 2 "bank" = get_ledger_data shared jan5 2 "bank".
Proof.
  destruct shared_upload as [db' E]. exists db'. split; [exact E|].
  destruct (upload_leaves_other_companies_reports None 7 "Acme"
              (file_of_frame books) shared db' _ 2 E) as (Hl & _ & Ht).
  - intros n name. discriminate.
  - split; [apply Ht|apply Hl].
Defined.

Lemma shared_keys_unique : keys_unique shared.
Proof.
  constructor; cbn; repeat (apply NoDup_cons; split;
    [intros Hin; repeat (apply elem_of_cons in Hin as [Hin|Hin]; try discriminate);
     by apply not_elem_of_nil in Hin|]); apply NoDup_nil_2.
Defined.

Lemma upload_keeps_keys_unique_witness :
  keys_unique shared /\
  keys_unique (upload_company None 7 "Acme" (file_of_frame books) shared).1.
Proof.
  split; [exact shared_keys_unique|].
  apply upload_keeps_keys_unique. exact shared_keys_unique.
Defined.

Lemma shared_foreign_keys : foreign_keys shared.
Proof.
  intros t Ht. unfold known_company.
  repeat (apply elem_of_cons in Ht as [->|Ht]);
    try (by left); try (by right; left).
  by apply not_elem_of_nil in Ht.
Defined.

Lemma upload_keeps_foreign_keys_witness :
  foreign_keys shared /\
  foreign_keys (upload_company None 7 "Globex" (file_of_frame books) shared).1.
Proof.
  split; [exact shared_foreign_keys|].
  apply upload_keeps_foreign_keys. exact shared_foreign_keys.
Defined.

Lemma download_checks_password_on_post_only_witness :
  download_file stored 1 POST (Some "Faiz5683") =
    SendFile (Sheet no_credit) default_content_type "old.xlsx" /\
  known_company stored 1 /\
  download_file stored 1 HEAD None =
    SendFile (Sheet no_credit) default_content_type "old.xlsx".
Proof.
  assert (download_file stored 1 POST (Some "Faiz5683") =
          SendFile (Sheet no_credit) default_content_type "old.xlsx") as E
    by (vm_compute; reflexivity).
  split; [exact E|].
  destruct (download_checks_password_on_post_only stored 1 POST (Some "Faiz5683"))
    as (Hsend & _).
  destruct (Hsend _ _ _ E) as (_ & Hk & _).
  split; [exact Hk|].
  destruct (download_checks_password_on_post_only stored 1 HEAD None) as (_ & Hhead).
  apply (Hhead (CompanyFile.mk 1 "old.xlsx" (Sheet no_credit) default_content_type 1) Hk).
  reflexivity.
Defined.

Lemma upload_needs_file_and_password_witness :
  exists file,
    q_file (mkrequest (Some (file_of_frame books)) "Acme" " Faiz5683 ") = Some file /\
    u_filename file <> "" /\
    (Str.endswith (u_filename file) ".xlsx" = true \/
     Str.endswith (u_filename file) ".xls" = true) /\
    Str.strip " Faiz5683 " = "Faiz5683".
Proof.
  apply (upload_needs_file_and_password None 7
           (mkrequest (Some (file_of_frame books)) "Acme" " Faiz5683 ") empty).
  vm_compute. discriminate.
Defined.

Lemma download_returns_uploaded_file_witness :
  exists db', upload_company None 7 "Acme" (file_of_frame books) shared =
              (db', Processed 4 "Acme" 1) /\
    download_file db' 1 POST (Some "Faiz5683") =
    SendFile (Sheet books) default_content_type "books.xlsx".
Proof.
  destruct shared_upload as [db' E]. exists db'. split; [exact E|].
  apply (download_returns_uploaded_file None 7 "Acme" (file_of_frame books)
           shared db' 4 1 (file_companies_unique _ shared_keys_unique) E).
Defined.

Lemma ledger_selects_stored_account_witness :
  exists db', upload_company None 7 "Acme" (file_of_frame books) shared =
              (db', Processed 4 "Acme" 1) /\
    forall t, t ∈ transactions db' -> Transaction.company_id t = 1%Z ->
      Transaction.head_of_account t = "Cash" ->
      filter (fun u => Transaction.company_id u = 1%Z /\
                       Sql.upper (Transaction.head_of_account u) =
                       Str.upper (Str.strip " cASH "))
             (transactions db') =
      filter (fun u => Transaction.company_id u = 1%Z /\
                       Transaction.head_of_account u = Transaction.head_of_account t)
             (transactions db').
Proof.
  destruct shared_upload as [db' E]. exists db'. split; [exact E|].
  intros t Ht Hc Hhead.
  apply (ledger_selects_stored_account None 7 "Acme" (file_of_frame books)
           shared db' 4 1 t " cASH " shared_foreign_keys E Ht Hc eq_refl).
  rewrite Hhead. apply ascii_upper_equal_ignoring_case. reflexivity.
Defined.

End FurtherInstances.

(** ** The report routes *)

Lemma elem_of_categories_of (db : Database) (company_id : Z) (c : string) :
  c ∈ categories_of db company_id <->
  c <> "" /\ exists t, t ∈ transactions db /\
    Transaction.company_id t = company_id /\ Transaction.category t = Some c.
Proof.
  unfold categories_of. rewrite merge_sort_Permutation, elem_of_remove_dups.
  rewrite list_elem_of_omap. split.
  - intros (t & Ht & Hc). apply list_elem_of_filter in Ht as [[Hid Hcat] Ht].
    unfold has_category in Hcat. rewrite Hc in Hcat. eauto.
  - intros (Hne & t & Ht & Hid & Hc). exists t. split; [|done].
    apply list_elem_of_filter. split; [|done]. split; [done|].
    unfold has_category. by rewrite Hc.
Qed.

(** X12. The category page of the selected company offers exactly the
    non-empty categories that its transactions carry, each once, in
    ascending order; without a category argument it selects the first of
    them and shows that category's report, and it shows an empty report
    when the company has no category; it is rendered only for a selected
    company id other than 0 that a stored company carries. *)
Theorem special_report_offers_company_categories (db : Database)
    (selected_company_id : option Z) (category : option string)
    (pg : special_report_page) :
  special_report db selected_company_id category = Render pg ->
  exists company_id,
    selected_company_id = Some company_id /\ company_id <> 0%Z /\
    Company.id (sr_company pg) = company_id /\
    (forall c, c ∈ sr_categories pg <->
       c <> "" /\ exists t, t ∈ transactions db /\
         Transaction.company_id t = company_id /\ Transaction.category t = Some c) /\
    NoDup (sr_categories pg) /\
    StronglySorted String.le (sr_categories pg) /\
    (category = None ->
     match sr_categories pg with
     | [] => sr_selected_category pg = None /\ sr_report_data pg = []
     | first :: _ =>
         sr_selected_category pg = Some first /\
         sr_report_data pg = get_special_report_data db company_id first
     end).
Proof.
  unfold special_report, selected_company.
  destruct selected_company_id as [cid|]; [|discriminate].
  destruct (decide (cid = 0%Z)) as [|Hne]; [discriminate|].
  destruct (get_company db cid) as [company|] eqn:Ec; [|discriminate].
  intros [= <-]. exists cid. cbn [default sr_company sr_categories
    sr_selected_category sr_report_data].
  split; [done|]. split; [done|]. split.
  { by apply head_Some_elem_of, list_elem_of_filter in Ec as [? _]. }
  split; [apply elem_of_categories_of|]. split; [|split].
  - unfold categories_of. rewrite merge_sort_Permutation. apply NoDup_remove_dups.
  - unfold categories_of. apply (StronglySorted_merge_sort _).
  - intros ->. destruct (categories_of db cid) as [|first rest] eqn:E; [done|].
    cbn [head]. split; [done|].
    assert (first ∈ categories_of db cid) as Hin by (rewrite E; left).
    apply elem_of_categories_of in Hin as [Hfirst _].
    by rewrite decide_False.
Qed.

(** *** Periods *)

Lemma digit_char_spec (d : Z) :
  (0 <= d <= 9)%Z ->
  Int.digit (Strftime.digit_char d) = Some d /\
  Ascii.eqb (Strftime.digit_char d) "/" = false.
Proof.
  intros Hd.
  assert (d = 0 \/ d = 1 \/ d = 2 \/ d = 3 \/ d = 4 \/ d = 5 \/ d = 6 \/
          d = 7 \/ d = 8 \/ d = 9)%Z as Hcases by lia.
  repeat (destruct Hcases as [->|Hcases]); try subst d; by vm_compute.
Qed.

Lemma digit_is_plain (a : ascii) (d : Z) :
  Int.digit a = Some d ->
  Int.isspace a = false /\ Str.is_ascii_char a = true /\
  Ascii.eqb a "+" = false /\ Ascii.eqb a "-" = false.
Proof.
  destruct a as [[] [] [] [] [] [] [] []]; vm_compute; intros Hd;
    try discriminate Hd; repeat split.
Qed.

Lemma number_cons (acc : Z) (a : ascii) (r : string) (v : Z) :
  Strptime.number acc (String a r) = Some v ->
  exists d, Int.digit a = Some d /\ Strptime.number (10 * acc + d) r = Some v.
Proof. cbn. destruct (Int.digit a) as [d|]; [eauto|discriminate]. Qed.

Lemma rstrip_number (s : string) :
  forall acc v, Strptime.number acc s = Some v -> Str.rstrip_by Int.isspace s = s.
Proof.
  induction s as [|a r IH]; intros acc v Hn; [done|].
  apply number_cons in Hn as (d & Hd & Hr). cbn [Str.rstrip_by].
  rewrite (IH _ _ Hr). destruct r; [|done].
  by destruct (digit_is_plain a d Hd) as (-> & _).
Qed.

Lemma is_ascii_number (s : string) :
  forall acc v, Strptime.number acc s = Some v ->
    Str.is_ascii s = true /\ Int.count_digits s = String.length s.
Proof.
  induction s as [|a r IH]; intros acc v Hn; [done|].
  apply number_cons in Hn as (d & Hd & Hr).
  destruct (IH _ _ Hr) as [Ha Hc]. cbn [Str.is_ascii Int.count_digits String.length].
  destruct (digit_is_plain a d Hd) as (_ & -> & _). rewrite Hd, Ha, Hc. done.
Qed.

Lemma digits_number (s : string) :
  forall acc b v, Strptime.number acc s = Some v ->
    s <> EmptyString \/ b = true -> Int.digits acc b s = Some v.
Proof.
  induction s as [|a r IH]; intros acc b v Hn Hb.
  - destruct Hb as [Hs|Hb]; [done|]. subst b. exact Hn.
  - apply number_cons in Hn as (d & Hd & Hr). cbn [Int.digits]. rewrite Hd.
    apply (IH _ true _ Hr). by right.
Qed.

(** What [strptime] reads as a number, [int] reads as the same number. *)
Lemma parse_number `{Library} (s : string) (v : Z) :
  Strptime.number 0 s = Some v -> s <> EmptyString ->
  (String.length s <= Int.max_str_digits)%nat ->
  Int.parse s = Some v.
Proof.
  intros Hn Hne Hlen. destruct (is_ascii_number s _ _ Hn) as [Ha Hc].
  unfold Int.parse. rewrite Ha. unfold Int.ascii_parse.
  assert (Str.strip_by Int.isspace s = s) as ->.
  { unfold Str.strip_by. destruct s as [|a r]; [done|].
    pose proof Hn as (d & Hd & _)%number_cons.
    cbn [Str.lstrip_by]. destruct (digit_is_plain a d Hd) as (-> & _).
    by apply (rstrip_number _ 0%Z v). }
  assert (Int.numeral s = Some v) as Hnum.
  { unfold Int.numeral. rewrite Hc.
    destruct (Int.max_str_digits <? String.length s)%nat eqn:E.
    - apply Nat.ltb_lt in E. lia.
    - apply digits_number; [done|by left]. }
  destruct s as [|a r]; [done|].
  pose proof Hn as (d & Hd & _)%number_cons.
  destruct (digit_is_plain a d Hd) as (_ & _ & Hplus & Hminus).
  destruct a as [[] [] [] [] [] [] [] []]; try exact Hnum; discriminate.
Qed.

Lemma digit_not_slash (a : ascii) (d : Z) :
  Int.digit a = Some d -> Ascii.eqb a "/" = false.
Proof.
  destruct a as [[] [] [] [] [] [] [] []]; vm_compute; intros Hd;
    try discriminate Hd; reflexivity.
Qed.

Lemma split_number (s : string) :
  forall acc v, Strptime.number acc s = Some v -> Str.split "/" s = [s].
Proof.
  induction s as [|a r IH]; intros acc v Hn; [done|].
  apply number_cons in Hn as (d & Hd & Hr). cbn [Str.split].
  by rewrite (digit_not_slash a d Hd), (IH _ _ Hr).
Qed.

Lemma split_number_slash (s rest : string) :
  forall acc v, Strptime.number acc s = Some v ->
    Str.split "/" (s +:+ String "/" rest) = s :: Str.split "/" rest.
Proof.
  induction s as [|a r IH]; intros acc v Hn.
  - reflexivity.
  - apply number_cons in Hn as (d & Hd & Hr).
    change (String a r +:+ String "/" rest) with (String a (r +:+ String "/" rest)).
    cbn [Str.split]. by rewrite (digit_not_slash a d Hd), (IH _ _ Hr).
Qed.

Lemma two_digits_value (n : Z) :
  (0 <= n < 100)%Z -> (10 * (10 * 0 + n / 10 mod 10) + n mod 10 = n)%Z.
Proof. intros Hn. Z.div_mod_to_equations. lia. Qed.

Lemma four_digits_value (n : Z) :
  (0 <= n < 10000)%Z ->
  (10 * (10 * (10 * (10 * 0 + n / 1000 mod 10) + n / 100 mod 10) + n / 10 mod 10)
   + n mod 10 = n)%Z.
Proof. intros Hn. Z.div_mod_to_equations. lia. Qed.

Lemma digit_range (n k : Z) : (0 <= n)%Z -> (0 < k)%Z -> (0 <= n / k mod 10 <= 9)%Z.
Proof.
  intros Hn Hk. pose proof (Z.mod_pos_bound (n / k) 10). lia.
Qed.

Lemma number_two_digits (n : Z) :
  (0 <= n < 100)%Z -> Strptime.number 0 (Strftime.two_digits n) = Some n.
Proof.
  intros Hn. unfold Strftime.two_digits. cbn [Strptime.number].
  destruct (digit_char_spec (n / 10 mod 10)) as [-> _];
    [apply digit_range; lia|].
  destruct (digit_char_spec (n mod 10)) as [-> _];
    [pose proof (Z.mod_pos_bound n 10); lia|].
  f_equal. by apply two_digits_value.
Qed.

Lemma number_four_digits (n : Z) :
  (0 <= n < 10000)%Z -> Strptime.number 0 (Strftime.four_digits n) = Some n.
Proof.
  intros Hn. unfold Strftime.four_digits, Strftime.two_digits.
  cbn [Strptime.number].
  destruct (digit_char_spec (n / 1000 mod 10)) as [-> _];
    [apply digit_range; lia|].
  destruct (digit_char_spec (n / 100 mod 10)) as [-> _];
    [apply digit_range; lia|].
  destruct (digit_char_spec (n / 10 mod 10)) as [-> _];
    [apply digit_range; lia|].
  destruct (digit_char_spec (n mod 10)) as [-> _];
    [pose proof (Z.mod_pos_bound n 10); lia|].
  f_equal. by apply four_digits_value.
Qed.

Lemma split_month_year (d : date) :
  (0 <= Datetime.month d < 100)%Z -> (0 <= Datetime.year d < 10000)%Z ->
  Str.split "/" (Strftime.month_year d) =
  [Strftime.two_digits (Datetime.month d); Strftime.four_digits (Datetime.year d)].
Proof.
  intros Hm Hy. unfold Strftime.month_year.
  change ("/" +:+ ?x) with (String "/" x).
  rewrite (split_number_slash _ _ _ _ (number_two_digits _ Hm)).
  by rewrite (split_number _ _ _ (number_four_digits _ Hy)).
Qed.

Lemma strptime_month_year (d : date) :
  printable d ->
  Strptime.month_year (Strftime.month_year d) =
  Some (Datetime.year d, Datetime.month d).
Proof.
  intros [Hm Hy]. unfold Strptime.month_year.
  rewrite split_month_year by lia.
  rewrite number_two_digits, number_four_digits by lia.
  rewrite decide_True; [done|]. cbn. lia.
Qed.

(** The period a date is rendered as reads back as its month and year. *)
Lemma period_reads_month_year `{Library} (d : date) :
  printable d ->
  period_reads (Strftime.month_year d)
    (Some (Datetime.month d, Datetime.year d)).
Proof.
  intros [Hm Hy]. right. split.
  - intros E. apply (f_equal (Str.split "/")) in E.
    rewrite split_month_year in E by lia. vm_compute in E. discriminate.
  - exists (Strftime.two_digits (Datetime.month d)),
           (Strftime.four_digits (Datetime.year d)),
           (Datetime.month d), (Datetime.year d).
    split; [apply split_month_year; lia|].
    split; [|split; [|split; [|split; [|done]]]].
    + apply parse_number; [apply number_two_digits; lia|done|].
      cbn. unfold Int.max_str_digits. lia.
    + apply parse_number; [apply number_four_digits; lia|done|].
      cbn. unfold Int.max_str_digits. lia.
    + unfold Sql.integer. lia.
    + unfold Sql.integer. lia.
Qed.

Lemma with_keys_ok (periods : list string) :
  (forall x, x ∈ periods -> is_Some (Strptime.month_year x)) ->
  exists keyed, with_keys periods = Ok keyed /\ snd <$> keyed = periods /\
    Forall (fun kx => Strptime.month_year kx.2 = Some kx.1) keyed.
Proof.
  induction periods as [|x rest IH]; intros Hall.
  - by exists [].
  - destruct (Hall x (list_elem_of_here _ _)) as [k Hk].
    destruct IH as (keyed & Hw & Hs & Hf).
    { intros y Hy. apply Hall. by right. }
    exists ((k, x) :: keyed). cbn [with_keys]. rewrite Hk, Hw.
    cbn [mbind res_bind fmap list_fmap snd]. rewrite Hs.
    split; [done|]. split; [done|]. by constructor.
Qed.

#[global] Instance period_order_total : Total period_order.
Proof. intros a b. unfold period_order. lia. Qed.

#[global] Instance period_order_trans : Transitive period_order.
Proof. intros a b c. unfold period_order. lia. Qed.

(** X13. For a stored company whose transactions are dated in the years
    1000 to 9999, the trial-balance page is rendered when no period is
    asked for; the periods it offers are exactly the months of the
    company's transactions, rendered MM/YYYY, each once and in
    chronological order; and every offered period is one the trial balance
    accepts: it reads back as the month and year of the transactions it was
    rendered from, and asking for it renders the page. *)
Theorem trial_balance_page_offers_accepted_periods `{Library} (db : Database)
    (company_id : Z) (company : Company.t) :
  company_id <> 0%Z ->
  get_company db company_id = Some company ->
  (forall t, t ∈ transactions db -> Transaction.company_id t = company_id ->
     printable (Transaction.date t)) ->
  exists pg,
    trial_balance db (Some company_id) None = Ok (Render pg) /\
    tp_selected_period pg = "all" /\
    (forall p, p ∈ tp_periods pg <->
       exists t, t ∈ transactions db /\ Transaction.company_id t = company_id /\
         p = Strftime.month_year (Transaction.date t)) /\
    NoDup (tp_periods pg) /\
    (forall i j a b, (i < j)%nat ->
       tp_periods pg !! i = Some a -> tp_periods pg !! j = Some b ->
       exists ya ma yb mb,
         Strptime.month_year a = Some (ya, ma) /\
         Strptime.month_year b = Some (yb, mb) /\
         (ya < yb \/ (ya = yb /\ ma <= mb))%Z) /\
    (forall t, t ∈ transactions db -> Transaction.company_id t = company_id ->
       period_reads (Strftime.month_year (Transaction.date t))
         (Some (Datetime.month (Transaction.date t),
                Datetime.year (Transaction.date t))) /\
       exists rows,
         trial_balance db (Some company_id)
           (Some (Strftime.month_year (Transaction.date t))) =
         Ok (Render (mktbpage company (tp_periods pg)
                       (Strftime.month_year (Transaction.date t)) rows))).
Proof.
  intros Hne Hc Hdates.
  set (own := filter (fun t => Transaction.company_id t = company_id)
                     (transactions db)).
  set (raw := remove_dups ((fun t => Strftime.month_year (Transaction.date t)) <$> own)).
  assert (forall p, p ∈ raw <->
            exists t, t ∈ transactions db /\ Transaction.company_id t = company_id /\
              p = Strftime.month_year (Transaction.date t)) as Hraw.
  { intros p. subst raw own. rewrite elem_of_remove_dups, list_elem_of_fmap.
    split.
    - intros (t & -> & [Hid Ht]%list_elem_of_filter). eauto.
    - intros (t & Ht & Hid & ->). exists t. split; [done|].
      by apply list_elem_of_filter. }
  destruct (with_keys_ok raw) as (keyed & Hw & Hs & Hf).
  { intros p (t & Ht & Hid & ->)%Hraw. rewrite strptime_month_year; [done|].
    by apply Hdates. }
  set (sorted := merge_sort period_order keyed).
  assert (sorted ≡ₚ keyed) as Hperm by apply merge_sort_Permutation.
  assert (periods_of db company_id = Ok (snd <$> sorted)) as Hperiods.
  { unfold periods_of. fold own raw. rewrite Hw. done. }
  assert (forall period, trial_balance db (Some company_id) period =
            (trial_balance_data ←
               get_trial_balance_data db company_id (default "all" period);
             Ok (Render (mktbpage company (snd <$> sorted)
                           (default "all" period) trial_balance_data)))) as Hroute.
  { intros period. unfold trial_balance, selected_company.
    rewrite decide_False by done. rewrite Hc. cbn [from_option id].
    by rewrite Hperiods. }
  destruct (get_trial_balance_data db company_id "all") as [rows|msg] eqn:Eall;
    [|by (unfold get_trial_balance_data in Eall; cbn in Eall)].
  exists (mktbpage company (snd <$> sorted) "all" rows).
  cbn [tp_periods tp_selected_period].
  split; [by rewrite Hroute; cbn [from_option id]; rewrite Eall|]. split; [done|].
  split; [|split; [|split]].
  - intros p. rewrite Hperm, Hs. apply Hraw.
  - rewrite Hperm, Hs. apply NoDup_remove_dups.
  - intros i j a b Hij Ha Hb.
    rewrite list_lookup_fmap in Ha, Hb.
    destruct (sorted !! i) as [[ka a']|] eqn:Ei; [|discriminate].
    destruct (sorted !! j) as [[kb b']|] eqn:Ej; [|discriminate].
    cbn in Ha, Hb. injection Ha as ->. injection Hb as ->.
    assert (StronglySorted period_order sorted) as Hsorted
      by apply (StronglySorted_merge_sort _).
    pose proof (StronglySorted_lookup _ _ Hsorted i j _ _ Hij Ei Ej) as Hord.
    assert (Forall (fun kx => Strptime.month_year kx.2 = Some kx.1) sorted) as Hfs
      by (by rewrite Hperm).
    rewrite Forall_forall in Hfs.
    pose proof (Hfs _ (list_elem_of_lookup_2 _ _ _ Ei)) as Hka.
    pose proof (Hfs _ (list_elem_of_lookup_2 _ _ _ Ej)) as Hkb.
    destruct ka as [ya ma], kb as [yb mb]. cbn in Hka, Hkb, Hord.
    exists ya, ma, yb, mb. done.
  - intros t Ht Hid.
    pose proof (period_reads_month_year _ (Hdates t Ht Hid)) as Hreads.
    split; [exact Hreads|]. rewrite Hroute. cbn [from_option id].
    apply period_reads_resolve in Hreads as [Hreads Hbind].
    unfold get_trial_balance_data. rewrite Hreads. cbn [mbind res_bind].
    rewrite Hbind. cbn [mbind res_bind]. eauto.
Qed.

(** ** The stored rows of an upload *)

Section StoredRows.

Context `{Library}.

(** X14. After a successful upload into a database whose transactions all
    belong to stored companies, the company's transactions are exactly the
    ones the file stages, in the order of the file's rows and with
    consecutive ids that increase in that order; so ledger rows of one date
    follow the order of the file. *)
Theorem upload_stores_rows_in_file_order (failing : option storage_step) (now : Z)
    (company_name : string) (file : upload) (db db' : Database)
    (n : nat) (company_id : Z) :
  foreign_keys db ->
  upload_company failing now company_name file db =
    (db', Processed n company_name company_id) ->
  exists ts start,
    staged (u_file_data file) (Company.mk company_id company_name now) = Ok ts /\
    length ts = n /\
    filter (fun t => Transaction.company_id t = company_id) (transactions db') =
      assign_ids start ts /\
    Transaction.id <$> assign_ids start ts = seqZ start (Z.of_nat n) /\
    forall t, t ∈ transactions db' -> Transaction.company_id t <> company_id ->
      (Transaction.id t < start)%Z.
Proof.
  intros Hfk Hup.
  destruct (upload_company_unfold failing now company_name file db)
    as (s & company & Hp & Hs & Eup).
  rewrite Eup in Hup.
  destruct (upload_try failing file company s) as [[s' n']|] eqn:Etry;
    [|discriminate].
  injection Hup as <- <- <-.
  destruct (upload_try_ok _ _ _ _ _ _ Hp Etry) as (ts & files' & Hst & -> & Hdb').
  set (cid := Company.id company) in *.
  set (T := transactions (working s)) in *.
  assert (Forall (fun u => Transaction.company_id u <> cid) T) as HT.
  { subst T. destruct (company_by_name db company_name) as [c|].
    - destruct Hs as (_ & Hid & ->). cbn. fold cid in Hid. rewrite <- Hid.
      apply Forall_forall. by intros u [? _]%list_elem_of_filter.
    - destruct Hs as (Hcomp & _ & ->). cbn. apply Forall_forall. intros u Hu E.
      pose proof (Hfk u Hu) as Hk. unfold known_company in Hk.
      apply next_id_fresh in Hk. subst cid. rewrite Hcomp in E. cbn in E. lia. }
  pose proof (staged_company_id _ _ _ Hst) as Hcid. fold cid in Hcid.
  exists ts, (next_id (Transaction.id <$> T)).
  split; [|split; [done|split; [|split]]].
  - rewrite <- Hst. by apply staged_company.
  - rewrite Hdb'. cbn [transactions]. rewrite filter_app.
    rewrite filter_none by (eapply Forall_impl; [exact HT|]; cbn; tauto).
    cbn [app]. apply filter_all. by apply assign_ids_company.
  - apply assign_ids_ids.
  - intros t Ht Hne. rewrite Hdb' in Ht. cbn [transactions] in Ht.
    apply elem_of_app in Ht as [Ht|Ht].
    + apply next_id_fresh. by apply list_elem_of_fmap_2.
    + pose proof (assign_ids_company (next_id (Transaction.id <$> T)) _ _ Hcid) as HA.
      rewrite Forall_forall in HA. by destruct (Hne (HA t Ht)).
Qed.

End StoredRows.

Section RouteInstances.

#[local] Existing Instance Reference.library.

Lemma upload_stores_rows_in_file_order_witness :
  exists db' ts start,
    upload_company None 7 "Acme" (file_of_frame books) shared =
      (db', Processed 4 "Acme" 1) /\
    length ts = 4%nat /\
    filter (fun t => Transaction.company_id t = 1%Z) (transactions db') =
      assign_ids start ts /\
    Transaction.id <$> assign_ids start ts = seqZ start 4.
Proof.
  destruct shared_upload as [db' E].
  destruct (upload_stores_rows_in_file_order None 7 "Acme" (file_of_frame books)
              shared db' 4 1 shared_foreign_keys E)
    as (ts & start & _ & Hlen & Hown & Hids & _).
  exists db', ts, start. auto.
Defined.

Lemma special_report_offers_company_categories_witness :
  exists pg, special_report uploaded (Some 1%Z) None = Render pg /\
    sr_categories pg = ["Assets"; "Income"] /\
    sr_selected_category pg = Some "Assets" /\
    NoDup (sr_categories pg).
Proof.
  assert (exists pg, special_report uploaded (Some 1%Z) None = Render pg /\
            sr_categories pg = ["Assets"; "Income"] /\
            sr_selected_category pg = Some "Assets") as (pg & E & Hc & Hs)
    by (eexists; vm_compute; repeat split; reflexivity).
  destruct (special_report_offers_company_categories uploaded (Some 1%Z) None pg E)
    as (cid & _ & _ & _ & _ & Hnd & _).
  exists pg. auto.
Defined.

Lemma uploaded_company : get_company uploaded 1 = Some (Company.mk 1 "Acme" 7).
Proof. vm_compute. reflexivity. Defined.

Lemma uploaded_printable (t : Transaction.t) :
  t ∈ transactions uploaded -> Transaction.company_id t = 1%Z ->
  printable (Transaction.date t).
Proof.
  intros Ht _. vm_compute in Ht.
  repeat (apply elem_of_cons in Ht as [->|Ht]);
    try (by apply not_elem_of_nil in Ht); vm_compute; intuition discriminate.
Defined.

Lemma trial_balance_page_offers_accepted_periods_witness :
  exists pg,
    trial_balance uploaded (Some 1%Z) None = Ok (Render pg) /\
    NoDup (tp_periods pg) /\
    (forall p, p ∈ tp_periods pg <->
       exists t, t ∈ transactions uploaded /\ Transaction.company_id t = 1%Z /\
         p = Strftime.month_year (Transaction.date t)).
Proof.
  destruct (trial_balance_page_offers_accepted_periods uploaded 1 _
              ltac:(discriminate) uploaded_company uploaded_printable)
    as (pg & E & _ & Hp & Hnd & _).
  exists pg. auto.
Defined.

End RouteInstances.

(** ** Ages in the ledger *)

Lemma days_before_next_year (y : Z) :
  Datetime.days_before_year (y + 1) =
  (Datetime.days_before_year y + 365 + (if Datetime.is_leap y then 1 else 0))%Z.
Proof.
  unfold Datetime.days_before_year, Datetime.is_leap. cbn zeta.
  replace (y + 1 - 1)%Z with y by lia.
  destruct (y mod 4 =? 0)%Z eqn:E4; destruct (y mod 100 =? 0)%Z eqn:E100;
    destruct (y mod 400 =? 0)%Z eqn:E400; cbn [andb orb negb];
    rewrite ?Z.eqb_eq, ?Z.eqb_neq in *; Z.div_mod_to_equations; lia.
Qed.

Lemma days_before_year_mono (y1 y2 : Z) :
  (y1 < y2)%Z ->
  (Datetime.days_before_year y1 + 365 + (if Datetime.is_leap y1 then 1 else 0)
   <= Datetime.days_before_year y2)%Z.
Proof.
  intros Hlt. rewrite <- days_before_next_year.
  assert (exists k : nat, y2 = (y1 + 1 + Z.of_nat k)%Z) as [k ->]
    by (exists (Z.to_nat (y2 - y1 - 1)); lia).
  clear Hlt. induction k as [|k IH]; [by rewrite Z.add_0_r|].
  replace (y1 + 1 + Z.of_nat (S k))%Z with (y1 + 1 + Z.of_nat k + 1)%Z by lia.
  rewrite (days_before_next_year (y1 + 1 + Z.of_nat k)).
  destruct (Datetime.is_leap _); lia.
Qed.

Lemma month_cases (m : Z) :
  (1 <= m <= 12)%Z ->
  m = 1%Z \/ m = 2%Z \/ m = 3%Z \/ m = 4%Z \/ m = 5%Z \/ m = 6%Z \/ m = 7%Z \/
  m = 8%Z \/ m = 9%Z \/ m = 10%Z \/ m = 11%Z \/ m = 12%Z.
Proof. lia. Qed.

Ltac month_table :=
  cbv [nth Z.to_nat Pos.to_nat Pos.iter_op Init.Nat.add Nat.add Z.eqb Z.ltb Z.compare
       Pos.compare Pos.compare_cont Pos.eqb andb] in *.

(** The day of the year lies within the year. *)
Lemma day_of_year_bounds (d : date) :
  valid_date d ->
  (1 <= Datetime.days_before_month (Datetime.year d) (Datetime.month d) +
        Datetime.day d
     <= 365 + (if Datetime.is_leap (Datetime.year d) then 1 else 0))%Z.
Proof.
  destruct d as [y m dd]. unfold valid_date. cbn [Datetime.year Datetime.month Datetime.day].
  intros (_ & Hm & Hd). unfold days_in_month in Hd. unfold Datetime.days_before_month.
  destruct (Datetime.is_leap y);
    destruct (month_cases m Hm) as [->|[->|[->|[->|[->|[->|[->|[->|[->|[->|[->| ->]]]]]]]]]]];
    month_table; lia.
Qed.

Lemma days_before_month_mono (y m1 m2 d1 : Z) :
  (1 <= m1)%Z -> (m1 < m2)%Z -> (m2 <= 12)%Z ->
  (1 <= d1 <= days_in_month y m1)%Z ->
  (Datetime.days_before_month y m1 + d1 <= Datetime.days_before_month y m2)%Z.
Proof.
  intros H1 H12 H2 Hd. unfold days_in_month in Hd. unfold Datetime.days_before_month.
  assert (1 <= m1 <= 12)%Z as Hm1 by lia. assert (1 <= m2 <= 12)%Z as Hm2 by lia.
  destruct (Datetime.is_leap y);
    destruct (month_cases m1 Hm1) as [->|[->|[->|[->|[->|[->|[->|[->|[->|[->|[->| ->]]]]]]]]]]];
    destruct (month_cases m2 Hm2) as [->|[->|[->|[->|[->|[->|[->|[->|[->|[->|[->| ->]]]]]]]]]]];
    try lia; month_table; lia.
Qed.

(** On the dates Python can hold, the ordinal grows with the date. *)
Lemma toordinal_lt (a b : date) :
  valid_date a -> valid_date b ->
  Datetime.compare a b = Lt -> (Datetime.toordinal a < Datetime.toordinal b)%Z.
Proof.
  intros Ha Hb Hlt. pose proof (day_of_year_bounds a Ha) as Ba.
  pose proof (day_of_year_bounds b Hb) as Bb.
  unfold Datetime.toordinal. unfold Datetime.compare in Hlt.
  destruct Ha as (_ & Hma & Hda), Hb as (_ & Hmb & Hdb).
  destruct (Z.compare_spec (Datetime.year a) (Datetime.year b)) as [Ey|Hy|Hy];
    [|pose proof (days_before_year_mono _ _ Hy); lia|discriminate].
  rewrite Ey in *.
  destruct (Z.compare_spec (Datetime.month a) (Datetime.month b)) as [Em|Hm|Hm];
    [|pose proof (days_before_month_mono (Datetime.year b) _ _ _
                    (proj1 Hma) Hm (proj2 Hmb) Hda); lia|discriminate].
  rewrite Em in *. pose proof (proj1 (Z.compare_lt_iff _ _) Hlt). lia.
Qed.

Lemma toordinal_le (a b : date) :
  valid_date a -> valid_date b ->
  Datetime.compare a b <> Gt -> (Datetime.toordinal a <= Datetime.toordinal b)%Z.
Proof.
  intros Ha Hb Hc. destruct (Datetime.compare a b) eqn:E; [| |done].
  - apply compare_eq_date in E. subst. lia.
  - pose proof (toordinal_lt a b Ha Hb E). lia.
Qed.

Lemma ledger_loop_days (today : date) (txs : list Transaction.t) (balance : Z) :
  l_days <$> ledger_loop today balance txs =
  (fun t => Datetime.days_between today (Transaction.date t)) <$> txs.
Proof.
  revert balance. induction txs as [|t txs IH]; intros b; [done|].
  cbn [ledger_loop fmap list_fmap]. by rewrite IH.
Qed.

Lemma ledger_loop_dates (today : date) (txs : list Transaction.t) (balance : Z) :
  l_date <$> ledger_loop today balance txs = Transaction.date <$> txs.
Proof.
  revert balance. induction txs as [|t txs IH]; intros b; [done|].
  cbn [ledger_loop fmap list_fmap]. by rewrite IH.
Qed.

(** X16. Ages follow dates. When today and the dates of the company's
    transactions are dates Python can hold, the age in days of a ledger row
    is the number of days from its date to today: it is non-negative
    exactly when the row is not dated after today, rows of one date have
    one age, and down the rows of a ledger the age never increases. *)
Theorem ledger_ages_follow_dates `{Library} (db : Database) (today : date)
    (company_id : Z) (head : string) :
  valid_date today ->
  (forall t, t ∈ transactions db -> Transaction.company_id t = company_id ->
     valid_date (Transaction.date t)) ->
  let rows := get_ledger_data db today company_id head in
  (forall r, r ∈ rows ->
     ((0 <= l_days r)%Z <-> Datetime.compare (l_date r) today <> Gt)) /\
  (forall i j a b, (i < j)%nat -> rows !! i = Some a -> rows !! j = Some b ->
     (l_days b <= l_days a)%Z).
Proof.
  intros Htoday Hvalid rows. subst rows. unfold get_ledger_data.
  set (sel := ledger_query db company_id (Str.upper (Str.strip head))).
  assert (forall t, t ∈ sel -> valid_date (Transaction.date t)) as Hsel.
  { intros t Ht. subst sel. rewrite ledger_query_perm in Ht.
    apply list_elem_of_filter in Ht as [[Hc _] Ht]. by apply Hvalid. }
  assert (forall k r, ledger_loop today 0 sel !! k = Some r ->
            exists t, sel !! k = Some t /\ l_date r = Transaction.date t /\
              l_days r = Datetime.days_between today (Transaction.date t)) as Hrow.
  { intros k r Hk.
    assert (is_Some (sel !! k)) as [t Ht].
    { apply lookup_lt_is_Some. rewrite <- (ledger_loop_length today 0 sel).
      by eapply lookup_lt_Some. }
    exists t. split; [done|].
    rewrite (ledger_loop_lookup today sel 0 k t Ht) in Hk. by injection Hk as <-. }
  split.
  - intros r (k & Hk)%list_elem_of_lookup_1.
    destruct (Hrow k r Hk) as (t & Ht & -> & ->).
    pose proof (Hsel t (list_elem_of_lookup_2 _ _ _ Ht)) as Hv.
    unfold Datetime.days_between. split.
    + intros Hle Hgt.
      assert (Datetime.compare today (Transaction.date t) = Lt) as Hlt.
      { unfold Datetime.compare in *.
        destruct (Z.compare_spec (Datetime.year (Transaction.date t)) (Datetime.year today));
          destruct (Z.compare_spec (Datetime.year today) (Datetime.year (Transaction.date t)));
          try lia; try discriminate;
          destruct (Z.compare_spec (Datetime.month (Transaction.date t)) (Datetime.month today));
          destruct (Z.compare_spec (Datetime.month today) (Datetime.month (Transaction.date t)));
          try lia; try discriminate; try done.
        pose proof (proj1 (Z.compare_gt_iff _ _) Hgt). by apply Z.compare_lt_iff. }
      pose proof (toordinal_lt today _ Htoday Hv Hlt). lia.
    + intros Hc. pose proof (toordinal_le _ today Hv Htoday Hc). lia.
  - intros i j a b Hij Ha Hb.
    destruct (Hrow i a Ha) as (ta & Hta & _ & ->).
    destruct (Hrow j b Hb) as (tb & Htb & _ & ->).
    pose proof (StronglySorted_lookup _ _ (ledger_query_sorted db company_id
                  (Str.upper (Str.strip head))) i j ta tb Hij Hta Htb) as Hord.
    assert (Datetime.compare (Transaction.date ta) (Transaction.date tb) <> Gt) as Hc.
    { unfold ledger_order in Hord. intros E. by rewrite E in Hord. }
    pose proof (toordinal_le _ _ (Hsel ta (list_elem_of_lookup_2 _ _ _ Hta))
                  (Hsel tb (list_elem_of_lookup_2 _ _ _ Htb)) Hc).
    unfold Datetime.days_between. lia.
Qed.

Section AgeInstances.

#[local] Existing Instance Reference.library.

Lemma sample_dates_valid :
  valid_date jan5 /\
  forall t, t ∈ transactions stored -> Transaction.company_id t = 1%Z ->
    valid_date (Transaction.date t).
Proof.
  assert (forall d, d ∈ [jan1; jan5; mar1] -> valid_date d) as Hd.
  { intros d Hd. repeat (apply elem_of_cons in Hd as [->|Hd]);
      [| | |by apply elem_of_nil in Hd]; repeat split; vm_compute; discriminate. }
  split; [apply Hd; set_solver|].
  intros t Ht _. apply Hd.
  repeat (apply elem_of_cons in Ht as [->|Ht]); [| | | |by apply elem_of_nil in Ht];
    cbn; set_solver.
Defined.

Lemma ledger_ages_follow_dates_witness :
  (valid_date jan5 /\
   forall t, t ∈ transactions stored -> Transaction.company_id t = 1%Z ->
     valid_date (Transaction.date t)) /\
  forall i j a b, (i < j)%nat ->
    get_ledger_data stored jan5 1 "Cash" !! i = Some a ->
    get_ledger_data stored jan5 1 "Cash" !! j = Some b ->
    (l_days b <= l_days a)%Z.
Proof.
  split; [exact sample_dates_valid|].
  exact (proj2 (ledger_ages_follow_dates stored jan5 1 "Cash"
                  (proj1 sample_dates_valid) (proj2 sample_dates_valid))).
Defined.

End AgeInstances.
